(** * pyEPR [project_info.py]: the session / metadata manager [ProjectInfo]

    A shallow embedding of [src/pyEPR/project_info.py].  The class talks to
    an externally running Ansys desktop through the [ansys] module, which is
    not part of the embedded file: every call into it is a field of the
    record [Ansys], a parameter of the whole development.  The methods of
    [ProjectInfo] are programs of a small state-and-exception monad over

    - the attributes of the [ProjectInfo] object ([self]),
    - the state of the external tool ([world]), and
    - the sequence of observable actions performed so far ([trace]):
      calls into the tool, log lines and prints.

    A Python exception does not roll back the attributes already written,
    so a raising computation still returns the state it reached. *)

From stdpp Require Import base strings list gmap.

Local Open Scope string_scope.

(** ** Python values that reach the dissipative configuration *)

(** Elements of a collection (or keys of a dictionary). *)
Inductive atom :=
| AStr (s : string)
| AInt (z : Z)
| ANone.

(** What a script may assign to a dissipative slot.  [VPinfo] is the
    reference to the owning [ProjectInfo] object (the back-reference
    written by the constructor as [self.dissipative['pinfo'] = self]). *)
Inductive pyval :=
| VNone
| VStr (s : string)
| VInt (z : Z)
| VList (l : list atom)
| VTuple (l : list atom)
| VDict (kv : list (atom * atom))
| VPinfo.

#[global] Instance atom_eq_dec : EqDecision atom.
Proof. solve_decision. Defined.

#[global] Instance pyval_eq_dec : EqDecision pyval.
Proof. solve_decision. Defined.

(** ** Exceptions *)

Inductive value_error :=
| NoSuchParameter (key : string)            (* f"No such parameter {key}" *)
| MustBeListOfStrings (key : string)        (* dissipative['key'] must be a list of strings ... *)
| NotAnObject (x : atom).                   (* 'x' is not an object in the HFSS project *)

Inductive assertion :=
| NotConnectedYet                           (* disconnect: "It does not appear that you have connected ..." *)
| JunctionVariableUnknown (jjnm field value : string)
                                            (* junction `jjnm` ... `Lj_variable` that does not exist ...: `value` *)
| JunctionObjectUnknown (jjnm name value : string).
                                            (* junction `jjnm` you specified a `name` that does not exist ...: `value` *)

Inductive hint :=
| DesignHint                                (* ' Did you provide the correct design name? ...' *)
| SetupHint.                                (* ' Did you provide the correct setup name? ...' *)

(** All of these are subclasses of Python's [Exception], so an
    [except Exception] clause catches each of them.  [Exception h ctx] is
    the exception raised inside an [except] block: [ctx] is the exception
    being handled (Python keeps it as the context, and the code passes
    its traceback on). *)
Inductive exn :=
| AttributeError (obj attr : string)        (* 'NoneType' object has no attribute 'attr' *)
| TypeError (what : string)                 (* 'NoneType' object is not iterable *)
| KeyError (key : string)
| ValueError (m : value_error)
| AssertionError (m : assertion)
| ToolError (m : string)                    (* anything the external tool raises *)
| Exception (h : hint) (context : exn).

Inductive Res (A : Type) :=
| Ok (a : A)
| Raise (e : exn).
Arguments Ok {A} a.
Arguments Raise {A} e.

(** ** The external tool *)

(** Handles are opaque references owned by the tool. *)
Definition HfssApp : Type := nat.
Definition HfssDesktop : Type := nat.
Definition HfssProject : Type := nat.
Definition HfssDesign : Type := nat.
Definition HfssSetup : Type := nat.
Definition HfssModeler : Type := nat.

(** The surface of the [ansys] module that [project_info.py] consumes.
    The module itself is not in the embedded file, so it is a parameter:
    each call reads and updates the tool's state [W] and returns a value
    or raises.  A returned handle may be [None]; a handle that is not is
    an ordinary object, which Python takes for true in a condition. *)
Record Ansys (W : Type) := {
  load_ansys_project :
    option string -> option string -> W ->
    Res (option HfssApp * option HfssDesktop * option HfssProject) * W;
  ansys_release : W -> Res unit * W;
  app_release : HfssApp -> W -> Res unit * W;
  desktop_release : HfssDesktop -> W -> Res unit * W;
  project_release : HfssProject -> W -> Res unit * W;
  project_get_name : HfssProject -> W -> Res string * W;
  project_get_path : HfssProject -> W -> Res string * W;
  project_get_designs : HfssProject -> W -> Res (list string) * W;
  project_get_active_design : HfssProject -> W -> Res (option HfssDesign) * W;
  project_get_design : HfssProject -> string -> W -> Res (option HfssDesign) * W;
  project_get_variable_names : HfssProject -> W -> Res (list string) * W;
  design_get_name : HfssDesign -> W -> Res string * W;
  design_get_solution_type : HfssDesign -> W -> Res string * W;
  design_get_setup_names : HfssDesign -> W -> Res (list string) * W;
  design_create_em_setup : HfssDesign -> W -> Res (option HfssSetup) * W;
  design_create_dm_setup : HfssDesign -> W -> Res (option HfssSetup) * W;
  design_create_dt_setup : HfssDesign -> W -> Res (option HfssSetup) * W;
  design_create_q3d_setup : HfssDesign -> W -> Res (option HfssSetup) * W;
  design_get_setup : HfssDesign -> string -> W -> Res (option HfssSetup) * W;
  design_get_variable_names : HfssDesign -> W -> Res (list string) * W;
  design_get_modeler : HfssDesign -> W -> Res HfssModeler * W;
  modeler_get_objects_in_group : HfssModeler -> string -> W -> Res (list string) * W;
  setup_get_name : HfssSetup -> W -> Res string * W;
}.
Arguments load_ansys_project {W}.
Arguments ansys_release {W}.
Arguments app_release {W}.
Arguments desktop_release {W}.
Arguments project_release {W}.
Arguments project_get_name {W}.
Arguments project_get_path {W}.
Arguments project_get_designs {W}.
Arguments project_get_active_design {W}.
Arguments project_get_design {W}.
Arguments project_get_variable_names {W}.
Arguments design_get_name {W}.
Arguments design_get_solution_type {W}.
Arguments design_get_setup_names {W}.
Arguments design_create_em_setup {W}.
Arguments design_create_dm_setup {W}.
Arguments design_create_dt_setup {W}.
Arguments design_create_q3d_setup {W}.
Arguments design_get_setup {W}.
Arguments design_get_variable_names {W}.
Arguments design_get_modeler {W}.
Arguments modeler_get_objects_in_group {W}.
Arguments setup_get_name {W}.

(** ** Observable actions *)

(** One constructor per call into the tool, with its arguments. *)
Inductive method :=
| Load_ansys_project (project_name project_path : option string)
| Ansys_release
| App_release (a : HfssApp)
| Desktop_release (d : HfssDesktop)
| Project_release (p : HfssProject)
| Project_name (p : HfssProject)
| Project_get_path (p : HfssProject)
| Project_get_designs (p : HfssProject)
| Project_get_active_design (p : HfssProject)
| Project_get_design (p : HfssProject) (name : string)
| Project_get_variable_names (p : HfssProject)
| Design_name (d : HfssDesign)
| Design_solution_type (d : HfssDesign)
| Design_get_setup_names (d : HfssDesign)
| Design_create_em_setup (d : HfssDesign)
| Design_create_dm_setup (d : HfssDesign)
| Design_create_dt_setup (d : HfssDesign)
| Design_create_q3d_setup (d : HfssDesign)
| Design_get_setup (d : HfssDesign) (name : string)
| Design_get_variable_names (d : HfssDesign)
| Design_modeler (d : HfssDesign)
| Modeler_get_objects_in_group (m : HfssModeler) (group : string)
| Setup_name (s : HfssSetup).

Inductive log_msg :=
| ConnectingToAnsys
| NoActiveDesign (note : option exn)
| OpenedActiveDesign (design_name : option string) (solution_type : string)
| OriginalError (e : exn)
| NoDesignSetupDetected
| CreatingDefaultSetup (kind : string)
| WillUseFirstSetup (setup_name : option string)
| CouldNotRetrieveSetup (name : string)
| OpenedSetup (setup_name : option string)
| ConnectionNotEstablished
| ConnectedTo (project_name design_name : option string)
| ProjectNotDetected
| NoDesignDetected (project_name : option string).

Inductive event :=
| Call (m : method)
| LogInfo (m : log_msg)
| LogWarning (m : log_msg)
| LogError (m : log_msg)
| Printed (e : exn).

(** ** The attributes of a [ProjectInfo] object *)

(** A junction (or port) is a dictionary from field names to strings; the
    tables keep the insertion order, which is the order of iteration. *)
Definition table : Type := list (string * gmap string string).

(** [dissipative] is the attribute dictionary of the [_Dissipative]
    object.  [options] (a reference to [config.ansys]) is never read by
    the methods embedded here and is left out. *)
Record ProjectInfo := {
  project_path : option string;
  project_name : option string;
  design_name : option string;
  setup_name : option string;
  junctions : table;
  ports : table;
  dissipative : gmap string pyval;
  app : option HfssApp;
  desktop : option HfssDesktop;
  project : option HfssProject;
  design : option HfssDesign;
  setup : option HfssSetup;
}.

Definition set_project_path v (o : ProjectInfo) : ProjectInfo :=
  {| project_path := v; project_name := project_name o; design_name := design_name o;
     setup_name := setup_name o; junctions := junctions o; ports := ports o;
     dissipative := dissipative o; app := app o; desktop := desktop o;
     project := project o; design := design o; setup := setup o |}.
Definition set_project_name v (o : ProjectInfo) : ProjectInfo :=
  {| project_path := project_path o; project_name := v; design_name := design_name o;
     setup_name := setup_name o; junctions := junctions o; ports := ports o;
     dissipative := dissipative o; app := app o; desktop := desktop o;
     project := project o; design := design o; setup := setup o |}.
Definition set_design_name v (o : ProjectInfo) : ProjectInfo :=
  {| project_path := project_path o; project_name := project_name o; design_name := v;
     setup_name := setup_name o; junctions := junctions o; ports := ports o;
     dissipative := dissipative o; app := app o; desktop := desktop o;
     project := project o; design := design o; setup := setup o |}.
Definition set_setup_name v (o : ProjectInfo) : ProjectInfo :=
  {| project_path := project_path o; project_name := project_name o; design_name := design_name o;
     setup_name := v; junctions := junctions o; ports := ports o;
     dissipative := dissipative o; app := app o; desktop := desktop o;
     project := project o; design := design o; setup := setup o |}.
Definition set_junctions v (o : ProjectInfo) : ProjectInfo :=
  {| project_path := project_path o; project_name := project_name o; design_name := design_name o;
     setup_name := setup_name o; junctions := v; ports := ports o;
     dissipative := dissipative o; app := app o; desktop := desktop o;
     project := project o; design := design o; setup := setup o |}.
Definition set_ports v (o : ProjectInfo) : ProjectInfo :=
  {| project_path := project_path o; project_name := project_name o; design_name := design_name o;
     setup_name := setup_name o; junctions := junctions o; ports := v;
     dissipative := dissipative o; app := app o; desktop := desktop o;
     project := project o; design := design o; setup := setup o |}.
Definition set_dissipative v (o : ProjectInfo) : ProjectInfo :=
  {| project_path := project_path o; project_name := project_name o; design_name := design_name o;
     setup_name := setup_name o; junctions := junctions o; ports := ports o;
     dissipative := v; app := app o; desktop := desktop o;
     project := project o; design := design o; setup := setup o |}.
Definition set_app v (o : ProjectInfo) : ProjectInfo :=
  {| project_path := project_path o; project_name := project_name o; design_name := design_name o;
     setup_name := setup_name o; junctions := junctions o; ports := ports o;
     dissipative := dissipative o; app := v; desktop := desktop o;
     project := project o; design := design o; setup := setup o |}.
Definition set_desktop v (o : ProjectInfo) : ProjectInfo :=
  {| project_path := project_path o; project_name := project_name o; design_name := design_name o;
     setup_name := setup_name o; junctions := junctions o; ports := ports o;
     dissipative := dissipative o; app := app o; desktop := v;
     project := project o; design := design o; setup := setup o |}.
Definition set_project v (o : ProjectInfo) : ProjectInfo :=
  {| project_path := project_path o; project_name := project_name o; design_name := design_name o;
     setup_name := setup_name o; junctions := junctions o; ports := ports o;
     dissipative := dissipative o; app := app o; desktop := desktop o;
     project := v; design := design o; setup := setup o |}.
Definition set_design v (o : ProjectInfo) : ProjectInfo :=
  {| project_path := project_path o; project_name := project_name o; design_name := design_name o;
     setup_name := setup_name o; junctions := junctions o; ports := ports o;
     dissipative := dissipative o; app := app o; desktop := desktop o;
     project := project o; design := v; setup := setup o |}.
Definition set_setup v (o : ProjectInfo) : ProjectInfo :=
  {| project_path := project_path o; project_name := project_name o; design_name := design_name o;
     setup_name := setup_name o; junctions := junctions o; ports := ports o;
     dissipative := dissipative o; app := app o; desktop := desktop o;
     project := project o; design := design o; setup := v |}.

(** The object before [__init__] has written anything. *)
Definition blank : ProjectInfo :=
  {| project_path := None; project_name := None; design_name := None;
     setup_name := None; junctions := []; ports := []; dissipative := ∅;
     app := None; desktop := None; project := None; design := None;
     setup := None |}.

(** [diss_opt], the four slot names. *)
Definition diss_opt : list string :=
  ["dielectrics_bulk"; "dielectric_surfaces"; "resistive_surfaces"; "seams"].

(** ** The state-and-exception monad *)

Record State (W : Type) := mkState {
  self : ProjectInfo;
  world : W;
  trace : list event;
}.
Arguments mkState {W}.
Arguments self {W}.
Arguments world {W}.
Arguments trace {W}.

Definition M (W A : Type) : Type := State W -> Res A * State W.

Section Monad.
Context {W : Type}.

Definition ret {A} (a : A) : M W A := fun s => (Ok a, s).

Definition raise {A} (e : exn) : M W A := fun s => (Raise e, s).

Definition bind {A B} (m : M W A) (k : A -> M W B) : M W B :=
  fun s =>
    match m s with
    | (Ok a, s') => k a s'
    | (Raise e, s') => (Raise e, s')
    end.

(** [try: m except Exception as e: h e] *)
Definition try_except {A} (m : M W A) (h : exn -> M W A) : M W A :=
  fun s =>
    match m s with
    | (Ok a, s') => (Ok a, s')
    | (Raise e, s') => h e s'
    end.

(** Read an attribute of [self]. *)
Definition get {A} (f : ProjectInfo -> A) : M W A :=
  fun s => (Ok (f (self s)), s).

(** Write an attribute of [self]. *)
Definition modify (f : ProjectInfo -> ProjectInfo) : M W unit :=
  fun s => (Ok tt, mkState (f (self s)) (world s) (trace s)).

Definition emit (e : event) : M W unit :=
  fun s => (Ok tt, mkState (self s) (world s) (trace s ++ [e])).

(** A call into the tool: recorded when it is made, whether it returns
    or raises. *)
Definition call {A} (c : method) (f : W -> Res A * W) : M W A :=
  fun s =>
    let '(r, w) := f (world s) in
    (r, mkState (self s) w (trace s ++ [Call c])).

End Monad.

#[global] Instance M_ret {W} : MRet (M W) := @ret W.
#[global] Instance M_bind {W} : MBind (M W) := fun A B k m => bind m k.

(** [o.attr] on an object that may be [None]. *)
Definition attr_of {W H} (attr : string) (o : option H) : M W H :=
  match o with
  | Some h => mret h
  | None => raise (AttributeError "NoneType" attr)
  end.

(** [for x in l: body x] *)
Fixpoint for_ {W A} (l : list A) (body : A -> M W unit) : M W unit :=
  match l with
  | [] => mret tt
  | x :: l' => body x;; for_ l' body
  end.

(** ** The methods *)

Section Methods.
Context {W : Type} (ansys : Ansys W).

Definition log_info (m : log_msg) : M W unit := emit (LogInfo m).
Definition log_warning (m : log_msg) : M W unit := emit (LogWarning m).
Definition log_error (m : log_msg) : M W unit := emit (LogError m).

(** [connect_project], lines 246-262. *)
Definition connect_project : M W unit :=
  log_info ConnectingToAnsys;;
  pn ← get project_name;
  pp ← get project_path;
  '(a, d, p) ← call (Load_ansys_project pn pp) (load_ansys_project ansys pn pp);
  modify (set_app a);;
  modify (set_desktop d);;
  modify (set_project p);;
  p ← get project;
  match p with
  | Some p =>
      n ← call (Project_name p) (project_get_name ansys p);
      modify (set_project_name (Some n));;
      p ← get project ≫= attr_of "get_path";
      path ← call (Project_get_path p) (project_get_path ansys p);
      modify (set_project_path (Some path))
  | None => mret tt
  end.

(** [connect_design], lines 264-309. *)
Definition connect_design (design_name_arg : option string) : M W unit :=
  match design_name_arg with
  | Some n => modify (set_design_name (Some n))
  | None => mret tt
  end;;
  p ← get project ≫= attr_of "get_designs";
  designs_in_project ← call (Project_get_designs p) (project_get_designs ansys p);
  match designs_in_project with
  | [] =>
      modify (set_design None);;
      log_info (NoActiveDesign None)
  | _ :: _ =>
      dn ← get design_name;
      match dn with
      | None =>
          (* Look for the active design *)
          try_except
            (p ← get project ≫= attr_of "get_active_design";
             d ← call (Project_get_active_design p) (project_get_active_design ansys p);
             modify (set_design d);;
             d ← get design ≫= attr_of "name";
             n ← call (Design_name d) (design_get_name ansys d);
             modify (set_design_name (Some n));;
             dn ← get design_name;
             d ← get design ≫= attr_of "solution_type";
             st ← call (Design_solution_type d) (design_get_solution_type ansys d);
             log_info (OpenedActiveDesign dn st))
            (fun e =>
               (* No active design *)
               modify (set_design None);;
               modify (set_design_name None);;
               log_info (NoActiveDesign (Some e)))
      | Some name =>
          try_except
            (p ← get project ≫= attr_of "get_design";
             d ← call (Project_get_design p name) (project_get_design ansys p name);
             modify (set_design d);;
             dn ← get design_name;
             d ← get design ≫= attr_of "solution_type";
             st ← call (Design_solution_type d) (design_get_solution_type ansys d);
             log_info (OpenedActiveDesign dn st))
            (fun e =>
               log_error (OriginalError e);;
               raise (Exception DesignHint e))
      end
  end.

(** [get_setup], lines 400-421.  Returns [self.setup]. *)
Definition get_setup (name : option string) : M W (option HfssSetup) :=
  match name with
  | None => mret None
  | Some name =>
      d ← get design ≫= attr_of "get_setup";
      r ← call (Design_get_setup d name) (design_get_setup ansys d name);
      modify (set_setup r);;
      r ← get setup;
      match r with
      | None => log_error (CouldNotRetrieveSetup name)
      | Some _ => mret tt
      end;;
      st ← get setup ≫= attr_of "name";
      n ← call (Setup_name st) (setup_get_name ansys st);
      modify (set_setup_name (Some n));;
      sn ← get setup_name;
      log_info (OpenedSetup sn);;
      get setup
  end.

(** [self.design.solution_type] *)
Definition self_design_solution_type : M W string :=
  d ← get design ≫= attr_of "solution_type";
  call (Design_solution_type d) (design_get_solution_type ansys d).

(** The chain of comparisons on [self.design.solution_type], lines
    324-336: the attribute is read anew for each comparison; the local
    [setup] stays [None] when none matches. *)
Definition default_setup : M W (option HfssSetup) :=
  st ← self_design_solution_type;
  if bool_decide (st = "Eigenmode") then
    log_warning (CreatingDefaultSetup "eigenmode");;
    d ← get design ≫= attr_of "create_em_setup";
    call (Design_create_em_setup d) (design_create_em_setup ansys d)
  else
  st ← self_design_solution_type;
  if bool_decide (st = "DrivenModal") then
    log_warning (CreatingDefaultSetup "driven modal");;
    d ← get design ≫= attr_of "create_dm_setup";
    call (Design_create_dm_setup d) (design_create_dm_setup ansys d)
  else
  st ← self_design_solution_type;
  if bool_decide (st = "DrivenTerminal") then
    log_warning (CreatingDefaultSetup "driven terminal");;
    d ← get design ≫= attr_of "create_dt_setup";
    call (Design_create_dt_setup d) (design_create_dt_setup ansys d)
  else
  st ← self_design_solution_type;
  if bool_decide (st = "Q3D") then
    log_warning (CreatingDefaultSetup "Q3D");;
    d ← get design ≫= attr_of "create_q3d_setup";
    call (Design_create_q3d_setup d) (design_create_q3d_setup ansys d)
  else mret None.

(** [connect_setup], lines 311-355. *)
Definition connect_setup : M W unit :=
  d ← get design;
  match d with
  | Some _ =>
      try_except
        (d ← get design ≫= attr_of "get_setup_names";
         setup_names ← call (Design_get_setup_names d) (design_get_setup_names ansys d);
         match setup_names with
         | [] =>
             log_warning NoDesignSetupDetected;;
             setup ← default_setup;
             st ← attr_of "name" setup;
             n ← call (Setup_name st) (setup_get_name ansys st);
             modify (set_setup_name (Some n))
         | first :: _ =>
             sn ← get setup_name;
             match sn with
             | None =>
                 modify (set_setup_name (Some first));;
                 sn ← get setup_name;
                 log_warning (WillUseFirstSetup sn)
             | Some _ => mret tt
             end
         end;;
         (* get the actual setup if there is one *)
         sn ← get setup_name;
         get_setup sn;;
         mret tt)
        (fun e =>
           log_error (OriginalError e);;
           raise (Exception SetupHint e))
  | None =>
      modify (set_setup None);;
      modify (set_setup_name None)
  end.

(** The end of [connect], lines 377-396: the names are refreshed from
    the handles and the outcome is logged. *)
Definition connect_finalize : M W unit :=
  p ← get project;
  match p with
  | Some _ =>
      p ← get project ≫= attr_of "name";
      n ← call (Project_name p) (project_get_name ansys p);
      modify (set_project_name (Some n))
  | None => mret tt
  end;;
  d ← get design;
  match d with
  | Some _ =>
      d ← get design ≫= attr_of "name";
      n ← call (Design_name d) (design_get_name ansys d);
      modify (set_design_name (Some n))
  | None => mret tt
  end;;
  p ← get project;
  match p with
  | Some _ =>
      d ← get design;
      match d with
      | Some _ =>
          pn ← get project_name;
          dn ← get design_name;
          log_info (ConnectedTo pn dn)
      | None => mret tt
      end
  | None => mret tt
  end;;
  p ← get project;
  match p with
  | None => log_info ProjectNotDetected
  | Some _ => mret tt
  end;;
  d ← get design;
  match d with
  | None =>
      pn ← get project_name;
      log_info (NoDesignDetected pn)
  | Some _ => mret tt
  end.

(** [connect], lines 357-398.  The method returns [self]: here, the
    state. *)
Definition connect : M W unit :=
  connect_project;;
  p ← get project;
  match p with
  | None => log_info ConnectionNotEstablished
  | Some _ => mret tt
  end;;
  p ← get project;
  match p with
  | Some _ =>
      try_except
        (connect_design None)
        (fun e =>
           emit (Printed e);;
           p ← get project ≫= attr_of "release";
           call (Project_release p) (project_release ansys p);;
           d ← get desktop ≫= attr_of "release";
           call (Desktop_release d) (desktop_release ansys d);;
           a ← get app ≫= attr_of "release";
           call (App_release a) (app_release ansys a);;
           call Ansys_release (ansys_release ansys))
  | None => mret tt
  end;;
  connect_setup;;
  connect_finalize.

(** [check_connected], lines 423-432. *)
Definition check_connected (o : ProjectInfo) : bool :=
  bool_decide (setup o ≠ None) &&
  bool_decide (design o ≠ None) &&
  bool_decide (project o ≠ None) &&
  bool_decide (desktop o ≠ None) &&
  bool_decide (app o ≠ None).

(** [disconnect], lines 434-445. *)
Definition disconnect : M W unit :=
  c ← get check_connected;
  if negb c then raise (AssertionError NotConnectedYet) else
  p ← get project ≫= attr_of "release";
  call (Project_release p) (project_release ansys p);;
  d ← get desktop ≫= attr_of "release";
  call (Desktop_release d) (desktop_release ansys d);;
  a ← get app ≫= attr_of "release";
  call (App_release a) (app_release ansys a);;
  call Ansys_release (ansys_release ansys).

(** [get_all_variables_names], lines 460-463. *)
Definition get_all_variables_names : M W (list string) :=
  p ← get project ≫= attr_of "get_variable_names";
  pv ← call (Project_get_variable_names p) (project_get_variable_names ansys p);
  d ← get design ≫= attr_of "get_variable_names";
  dv ← call (Design_get_variable_names d) (design_get_variable_names ansys d);
  mret (pv ++ dv)%list.

(** The loop of [get_all_object_names]: [o_objects] is the accumulator. *)
Fixpoint objects_in_groups (groups : list string) (o_objects : list string)
  : M W (list string) :=
  match groups with
  | [] => mret o_objects
  | s :: groups' =>
      d ← get design ≫= attr_of "modeler";
      m ← call (Design_modeler d) (design_get_modeler ansys d);
      l ← call (Modeler_get_objects_in_group m s) (modeler_get_objects_in_group ansys m s);
      objects_in_groups groups' (o_objects ++ l)%list
  end.

(** [get_all_object_names], lines 465-470. *)
Definition get_all_object_names : M W (list string) :=
  objects_in_groups ["Non Model"; "Solids"; "Unclassified"; "Sheets"; "Lines"] [].

(** [jj[key]] on a junction dictionary. *)
Definition dict_getitem (jj : gmap string string) (key : string) : M W string :=
  match jj !! key with
  | Some v => mret v
  | None => raise (KeyError key)
  end.

(** [validate_junction_info], lines 472-494. *)
Definition validate_junction_info : M W unit :=
  all_variables_names ← get_all_variables_names;
  all_object_names ← get_all_object_names;
  js ← get junctions;
  for_ js (fun '(jjnm, jj) =>
    lj ← dict_getitem jj "Lj_variable";
    (if bool_decide (lj ∈ all_variables_names) then mret tt
     else
       lj ← dict_getitem jj "Lj_variable";
       raise (AssertionError (JunctionVariableUnknown jjnm "Lj_variable" lj)));;
    for_ ["rect"; "line"] (fun name =>
      v ← dict_getitem jj name;
      if bool_decide (v ∈ all_object_names) then mret tt
      else
        v ← dict_getitem jj name;
        raise (AssertionError (JunctionObjectUnknown jjnm name v)))).

(** *** The class [_Dissipative] *)

(** [_Dissipative.__getitem__], lines 136-140; the attributes of the
    object are the entries of [self.dissipative]. *)
Definition __getitem__ (attr : string) : M W pyval :=
  if negb (bool_decide (attr ∈ diss_opt) || bool_decide (attr = "pinfo")) then
    raise (AttributeError "dissipative" attr)
  else
    d ← get dissipative;
    match d !! attr with
    | Some v => mret v
    | None => raise (AttributeError "dissipative" attr)
    end.

(** [isinstance(value, (list, dict))] *)
Definition is_list_or_dict (value : pyval) : bool :=
  match value with
  | VList _ | VDict _ => true
  | _ => false
  end.

Definition is_str (x : atom) : bool :=
  match x with
  | AStr _ => true
  | _ => false
  end.

(** What iterating over a value yields: the elements of a list or a
    tuple, the keys of a dictionary, the characters of a string. *)
Definition elements_of (value : pyval) : option (list atom) :=
  match value with
  | VList l | VTuple l => Some l
  | VDict kv => Some kv.*1
  | VStr s => Some ((fun c => AStr (String c EmptyString)) <$> String.list_ascii_of_string s)
  | VNone | VInt _ | VPinfo => None
  end.

(** [all(isinstance(x, str) for x in value)], evaluated on lists and
    dictionaries only. *)
Definition all_str (value : pyval) : bool :=
  match elements_of value with
  | Some l => forallb is_str l
  | None => false
  end.

(** [for x in value] *)
Definition iter (value : pyval) : M W (list atom) :=
  match elements_of value with
  | Some l => mret l
  | None => raise (TypeError "object is not iterable")
  end.

(** [hasattr(p, 'design')]: of the values above only a [ProjectInfo]
    has that attribute, and it has it from its constructor on. *)
Definition hasattr_design (p : pyval) : bool :=
  match p with
  | VPinfo => true
  | _ => false
  end.

(** [x in names] for a list of strings *)
Definition atom_in (x : atom) (names : list string) : bool :=
  match x with
  | AStr s => bool_decide (s ∈ names)
  | _ => false
  end.

(** [_Dissipative.__setitem__], lines 119-134. *)
Definition __setitem__ (key : string) (value : pyval) : M W unit :=
  (* --- check valid inputs --- *)
  if negb (bool_decide (key ∈ diss_opt) || bool_decide (key = "pinfo")) then
    raise (ValueError (NoSuchParameter key))
  else
  if bool_decide (key ≠ "pinfo")
     && (negb (is_list_or_dict value) || negb (all_str value))
     && bool_decide (value ≠ VNone) then
    raise (ValueError (MustBeListOfStrings key))
  else
  (if bool_decide (key ≠ "pinfo") then
     p ← __getitem__ "pinfo";
     if hasattr_design p then
       l ← iter value;
       for_ l (fun x =>
         p ← __getitem__ "pinfo";
         names ← match p with
                 | VPinfo => get_all_object_names
                 | _ => raise (AttributeError "object" "get_all_object_names")
                 end;
         if negb (atom_in x names) then raise (ValueError (NotAnObject x))
         else mret tt)
     else mret tt
   else mret tt);;
  d ← get dissipative;
  modify (set_dissipative (<[key := value]> d)).

(** [_Dissipative.__init__], lines 114-117. *)
Definition Dissipative__init__ : M W unit :=
  __setitem__ "pinfo" VNone;;
  for_ diss_opt (fun opt => __setitem__ opt VNone).

(** *** The constructor *)

(** [str(Path(project_path))], the path in the convention of the host
    system: a function of the standard library. *)
Context (str_Path : string -> string).

(** [ProjectInfo.__init__], lines 165-227.  [locals()[opt]] is the
    argument of that name. *)
Definition __init__
    (project_path_arg project_name_arg design_name_arg setup_name_arg : option string)
    (dielectrics_bulk dielectric_surfaces resistive_surfaces seams : pyval)
    (do_connect : bool) : M W unit :=
  let locals (opt : string) : pyval :=
    if bool_decide (opt = "dielectrics_bulk") then dielectrics_bulk
    else if bool_decide (opt = "dielectric_surfaces") then dielectric_surfaces
    else if bool_decide (opt = "resistive_surfaces") then resistive_surfaces
    else seams in
  modify (set_project_path (str_Path <$> project_path_arg));;
  modify (set_project_name project_name_arg);;
  modify (set_design_name design_name_arg);;
  modify (set_setup_name setup_name_arg);;
  modify (set_junctions []);;
  modify (set_ports []);;
  modify (set_dissipative ∅);;
  Dissipative__init__;;
  for_ diss_opt (fun opt => __setitem__ opt (locals opt));;
  modify (set_app None);;
  modify (set_desktop None);;
  modify (set_project None);;
  modify (set_design None);;
  modify (set_setup None);;
  if do_connect then
    connect;;
    __setitem__ "pinfo" VPinfo
  else mret tt.
End Methods.

(** A fresh object in a given state of the tool, before its constructor
    runs. *)
Definition fresh {W} (w : W) : State W :=
  {| self := blank; world := w; trace := [] |}.

(** ** Further methods *)

Section MoreMethods.
Context {W : Type} (ansys : Ansys W).

(** [get_dm], lines 449-458: the pair of [self.design] and
    [self.design.modeler]. *)
Definition get_dm : M W (option HfssDesign * HfssModeler) :=
  d ← get design;
  d' ← get design ≫= attr_of "modeler";
  m ← call (Design_modeler d') (design_get_modeler ansys d');
  mret (d, m).

(** The dictionary comprehension of [_Dissipative.data]: one entry per
    option, read by item access, in the order of the options. *)
Fixpoint data_of (opts : list string) : M W (list (string * pyval)) :=
  match opts with
  | [] => mret []
  | opt :: opts' =>
      v ← __getitem__ opt;
      rest ← data_of opts';
      mret ((opt, v) :: rest)
  end.

(** [_Dissipative.data], lines 161-163. *)
Definition data : M W (list (string * pyval)) := data_of diss_opt.
End MoreMethods.

(** ** A test double of the external tool *)

(** A stateless double ([W] is [unit]): one project with handle [1],
    desktop [2], app [3]; what it answers is fixed by a [config]. *)
Module Fake.
Record config := {
  has_project : bool;                       (* does load_ansys_project find a project? *)
  designs : list string;                    (* project.get_designs() *)
  active_design : Res (option HfssDesign);  (* project.get_active_design() *)
  named_design : string -> Res (option HfssDesign);
                                            (* project.get_design(name) *)
  solution_type : string;                   (* design.solution_type *)
  setup_names : list string;                (* design.get_setup_names() *)
  named_setup : string -> Res (option HfssSetup);
                                            (* design.get_setup(name) *)
  project_variables : list string;
  design_variables : list string;
  objects : string -> list string;          (* modeler.get_objects_in_group(s) *)
}.

Definition tool (c : config) : Ansys unit :=
  {| load_ansys_project := fun _ _ w =>
       (Ok (if has_project c then (Some 3, Some 2, Some 1) else (None, None, None)), w);
     ansys_release := fun w => (Ok tt, w);
     app_release := fun _ w => (Ok tt, w);
     desktop_release := fun _ w => (Ok tt, w);
     project_release := fun _ w => (Ok tt, w);
     project_get_name := fun _ w => (Ok "Project1", w);
     project_get_path := fun _ w => (Ok "C:\sim", w);
     project_get_designs := fun _ w => (Ok (designs c), w);
     project_get_active_design := fun _ w => (active_design c, w);
     project_get_design := fun _ name w => (named_design c name, w);
     project_get_variable_names := fun _ w => (Ok (project_variables c), w);
     design_get_name := fun _ w => (Ok "HFSSDesign1", w);
     design_get_solution_type := fun _ w => (Ok (solution_type c), w);
     design_get_setup_names := fun _ w => (Ok (setup_names c), w);
     design_create_em_setup := fun _ w => (Ok (Some 5), w);
     design_create_dm_setup := fun _ w => (Ok (Some 6), w);
     design_create_dt_setup := fun _ w => (Ok (Some 7), w);
     design_create_q3d_setup := fun _ w => (Ok (Some 8), w);
     design_get_setup := fun _ name w => (named_setup c name, w);
     design_get_variable_names := fun _ w => (Ok (design_variables c), w);
     design_get_modeler := fun _ w => (Ok 9, w);
     modeler_get_objects_in_group := fun _ s w => (Ok (objects c s), w);
     setup_get_name := fun _ w => (Ok "Setup1", w) |}.

(** An open project with one eigenmode design, one setup, one junction
    variable and the two objects of a junction. *)
Definition good : config :=
  {| has_project := true;
     designs := ["HFSSDesign1"];
     active_design := Ok (Some 4);
     named_design := fun _ => Ok (Some 4);
     solution_type := "Eigenmode";
     setup_names := ["Setup1"];
     named_setup := fun _ => Ok (Some 5);
     project_variables := [];
     design_variables := ["Lj_1"];
     objects := fun s =>
       if bool_decide (s = "Sheets") then ["jj_rect_1"]
       else if bool_decide (s = "Lines") then ["jj_line_1"]
       else [] |}.

(** No project is open in the desktop. *)
Definition no_project : config :=
  {| has_project := false;
     designs := [];
     active_design := Raise (ToolError "no active design");
     named_design := fun _ => Raise (ToolError "no such design");
     solution_type := "Eigenmode";
     setup_names := [];
     named_setup := fun _ => Ok None;
     project_variables := [];
     design_variables := [];
     objects := fun _ => [] |}.

(** The named design does not exist. *)
Definition no_such_design : config :=
  {| has_project := true;
     designs := ["HFSSDesign1"];
     active_design := Ok (Some 4);
     named_design := fun _ => Raise (ToolError "no such design");
     solution_type := "Eigenmode";
     setup_names := ["Setup1"];
     named_setup := fun _ => Ok (Some 5);
     project_variables := [];
     design_variables := [];
     objects := fun _ => [] |}.

(** A design without setups, of a solution type that has no default
    setup. *)
Definition transient : config :=
  {| has_project := true;
     designs := ["HFSSDesign1"];
     active_design := Ok (Some 4);
     named_design := fun _ => Ok (Some 4);
     solution_type := "Transient";
     setup_names := [];
     named_setup := fun _ => Ok None;
     project_variables := [];
     design_variables := [];
     objects := fun _ => [] |}.

(** The design answers [None] for every setup name. *)
Definition no_such_setup : config :=
  {| has_project := true;
     designs := ["HFSSDesign1"];
     active_design := Ok (Some 4);
     named_design := fun _ => Ok (Some 4);
     solution_type := "Eigenmode";
     setup_names := ["Setup1"];
     named_setup := fun _ => Ok None;
     project_variables := [];
     design_variables := [];
     objects := fun _ => [] |}.

(** The object [ProjectInfo()] leaves behind on [good]. *)
Definition connected : ProjectInfo :=
  {| project_path := Some "C:\sim"; project_name := Some "Project1";
     design_name := Some "HFSSDesign1"; setup_name := Some "Setup1";
     junctions := []; ports := [];
     dissipative :=
       <["pinfo" := VPinfo]>
         (<["seams" := VNone]>
            (<["resistive_surfaces" := VNone]>
               (<["dielectric_surfaces" := VNone]>
                  (<["dielectrics_bulk" := VNone]> (<["pinfo" := VNone]> ∅)))));
     app := Some 3; desktop := Some 2; project := Some 1; design := Some 4;
     setup := Some 5 |}.

(** A junction dictionary with the three mandatory entries. *)
Definition junction (lj rect line : string) : gmap string string :=
  <["Lj_variable" := lj]> (<["rect" := rect]> (<["line" := line]> ∅)).

(** [connected] with two junctions registered: [j1] names existing
    things, the rectangle of [j2] does not exist. *)
Definition with_two_junctions : ProjectInfo :=
  set_junctions
    [("j1", junction "Lj_1" "jj_rect_1" "jj_line_1");
     ("j2", junction "Lj_1" "jj_rect_2" "jj_line_2")]
    connected.

(** [connected] with the one valid junction registered. *)
Definition with_one_junction : ProjectInfo :=
  set_junctions [("j1", junction "Lj_1" "jj_rect_1" "jj_line_1")] connected.
End Fake.

(** ** Further scenarios of the test double *)

Module Scenario.
(** A project without designs. *)
Definition no_designs : Fake.config :=
  {| Fake.has_project := true;
     Fake.designs := [];
     Fake.active_design := Raise (ToolError "no active design");
     Fake.named_design := fun _ => Raise (ToolError "no such design");
     Fake.solution_type := "Eigenmode";
     Fake.setup_names := [];
     Fake.named_setup := fun _ => Ok None;
     Fake.project_variables := [];
     Fake.design_variables := [];
     Fake.objects := fun _ => [] |}.

(** A project with designs, none of them active. *)
Definition no_active_design : Fake.config :=
  {| Fake.has_project := true;
     Fake.designs := ["HFSSDesign1"];
     Fake.active_design := Raise (ToolError "no active design");
     Fake.named_design := fun _ => Ok (Some 4);
     Fake.solution_type := "Eigenmode";
     Fake.setup_names := ["Setup1"];
     Fake.named_setup := fun _ => Ok (Some 5);
     Fake.project_variables := [];
     Fake.design_variables := [];
     Fake.objects := fun _ => [] |}.

(** A driven-modal design with two setups. *)
Definition two_setups : Fake.config :=
  {| Fake.has_project := true;
     Fake.designs := ["HFSSDesign1"];
     Fake.active_design := Ok (Some 4);
     Fake.named_design := fun _ => Ok (Some 4);
     Fake.solution_type := "DrivenModal";
     Fake.setup_names := ["SetupA"; "SetupB"];
     Fake.named_setup := fun _ => Ok (Some 5);
     Fake.project_variables := ["$global"];
     Fake.design_variables := ["Lj_1"];
     Fake.objects := fun s =>
       if bool_decide (s = "Solids") then ["substrate"]
       else if bool_decide (s = "Sheets") then ["jj_rect_1"]
       else if bool_decide (s = "Lines") then ["jj_line_1"]
       else [] |}.

(** An eigenmode design without setups; a setup can be resolved once it
    has been created. *)
Definition no_setups : Fake.config :=
  {| Fake.has_project := true;
     Fake.designs := ["HFSSDesign1"];
     Fake.active_design := Ok (Some 4);
     Fake.named_design := fun _ => Ok (Some 4);
     Fake.solution_type := "Eigenmode";
     Fake.setup_names := [];
     Fake.named_setup := fun _ => Ok (Some 5);
     Fake.project_variables := [];
     Fake.design_variables := [];
     Fake.objects := fun _ => [] |}.

(** A session with handles for project, desktop and app, before any
    design is connected. *)
Definition project_only : ProjectInfo :=
  set_project (Some 1) (set_desktop (Some 2) (set_app (Some 3) blank)).

(** The double of [Fake.no_such_design], except that releasing the project
    raises. *)
Definition stuck_project : Ansys unit :=
  let base := Fake.tool Fake.no_such_design in
  {| load_ansys_project := load_ansys_project base;
     ansys_release := ansys_release base;
     app_release := app_release base;
     desktop_release := desktop_release base;
     project_release := fun _ w => (Raise (ToolError "release failed"), w);
     project_get_name := project_get_name base;
     project_get_path := project_get_path base;
     project_get_designs := project_get_designs base;
     project_get_active_design := project_get_active_design base;
     project_get_design := project_get_design base;
     project_get_variable_names := project_get_variable_names base;
     design_get_name := design_get_name base;
     design_get_solution_type := design_get_solution_type base;
     design_get_setup_names := design_get_setup_names base;
     design_create_em_setup := design_create_em_setup base;
     design_create_dm_setup := design_create_dm_setup base;
     design_create_dt_setup := design_create_dt_setup base;
     design_create_q3d_setup := design_create_q3d_setup base;
     design_get_setup := design_get_setup base;
     design_get_variable_names := design_get_variable_names base;
     design_get_modeler := design_get_modeler base;
     modeler_get_objects_in_group := modeler_get_objects_in_group base;
     setup_get_name := setup_get_name base |}.

(** An answer of the stateless double, given on any tool state, which it
    leaves as it is. *)
Definition answering {A S} (f : unit -> Res A * unit) : S -> Res A * S :=
  fun w => ((f tt).1, w).

(** A double with, as its state, the list of the releases that reached it, in
    the order they did; every call answers as the stateless double
    [base]. *)
Definition recording (base : Ansys unit) : Ansys (list method) :=
  {| load_ansys_project := fun n p => answering (load_ansys_project base n p);
     ansys_release := fun w =>
       ((ansys_release base tt).1, (w ++ [Ansys_release])%list);
     app_release := fun a w =>
       ((app_release base a tt).1, (w ++ [App_release a])%list);
     desktop_release := fun d w =>
       ((desktop_release base d tt).1, (w ++ [Desktop_release d])%list);
     project_release := fun p w =>
       ((project_release base p tt).1, (w ++ [Project_release p])%list);
     project_get_name := fun p => answering (project_get_name base p);
     project_get_path := fun p => answering (project_get_path base p);
     project_get_designs := fun p => answering (project_get_designs base p);
     project_get_active_design := fun p => answering (project_get_active_design base p);
     project_get_design := fun p n => answering (project_get_design base p n);
     project_get_variable_names := fun p => answering (project_get_variable_names base p);
     design_get_name := fun d => answering (design_get_name base d);
     design_get_solution_type := fun d => answering (design_get_solution_type base d);
     design_get_setup_names := fun d => answering (design_get_setup_names base d);
     design_create_em_setup := fun d => answering (design_create_em_setup base d);
     design_create_dm_setup := fun d => answering (design_create_dm_setup base d);
     design_create_dt_setup := fun d => answering (design_create_dt_setup base d);
     design_create_q3d_setup := fun d => answering (design_create_q3d_setup base d);
     design_get_setup := fun d n => answering (design_get_setup base d n);
     design_get_variable_names := fun d => answering (design_get_variable_names base d);
     design_get_modeler := fun d => answering (design_get_modeler base d);
     modeler_get_objects_in_group := fun m g =>
       answering (modeler_get_objects_in_group base m g);
     setup_get_name := fun st => answering (setup_get_name base st) |}.
End Scenario.

(** ** Vocabulary of the statements *)

(** [preserves P m]: a property of the attributes that holds before [m]
    holds after it, whether [m] returns or raises. *)
Definition preserves {W A} (P : ProjectInfo -> Prop) (m : M W A) : Prop :=
  forall s, P (self s) -> P (self (m s).2).

(** [f] cannot break [P]. *)
Definition stable (P : ProjectInfo -> Prop) (f : ProjectInfo -> ProjectInfo) : Prop :=
  forall o, P o -> P (f o).

(** [P] does not depend on the connection attributes: the handles and
    the four names. *)
Definition session_stable (P : ProjectInfo -> Prop) : Prop :=
  (forall v, stable P (set_app v)) /\
  (forall v, stable P (set_desktop v)) /\
  (forall v, stable P (set_project v)) /\
  (forall v, stable P (set_design v)) /\
  (forall v, stable P (set_setup v)) /\
  (forall v, stable P (set_project_path v)) /\
  (forall v, stable P (set_project_name v)) /\
  (forall v, stable P (set_design_name v)) /\
  (forall v, stable P (set_setup_name v)).

(** The four releases of [disconnect] (and of the teardown in [connect]),
    in the order of the source. *)
Definition release_order (p : HfssProject) (d : HfssDesktop) (a : HfssApp) : list event :=
  [Call (Project_release p); Call (Desktop_release d); Call (App_release a);
   Call Ansys_release].

(** The tool's release calls return (none of them raises). *)
Definition releases_return {W} (ansys : Ansys W) : Prop :=
  (forall p w, (project_release ansys p w).1 = Ok tt) /\
  (forall d w, (desktop_release ansys d w).1 = Ok tt) /\
  (forall a w, (app_release ansys a w).1 = Ok tt) /\
  (forall w, (ansys_release ansys w).1 = Ok tt).

(** The tool's four release functions for the handles [p], [d] and [a],
    in the order of the source. *)
Definition releases {W} (ansys : Ansys W)
    (p : HfssProject) (d : HfssDesktop) (a : HfssApp) : list (W -> Res unit * W) :=
  [project_release ansys p; desktop_release ansys d; app_release ansys a;
   ansys_release ansys].

(** Tool calls made one after the other, each on the tool state the
    previous one left, up to and including the first one that raises:
    the outcome, the tool state reached and the number of calls made. *)
Fixpoint attempt {W} (calls : list (W -> Res unit * W)) (w : W) : Res unit * W * nat :=
  match calls with
  | [] => (Ok tt, w, 0)
  | f :: calls' =>
      match f w with
      | (Ok _, w') => let '(r, w'', k) := attempt calls' w' in (r, w'', S k)
      | (Raise e, w') => (Raise e, w', 1)
      end
  end.

(** All five handle attributes are [None]. *)
Definition handles_cleared (o : ProjectInfo) : Prop :=
  app o = None /\ desktop o = None /\ project o = None /\
  design o = None /\ setup o = None.

(** The metadata the constructor sets up, before a session is attached. *)
Definition detached (o : ProjectInfo) : Prop :=
  junctions o = [] /\ ports o = [] /\ dissipative o !! "pinfo" = Some VNone.

(** *** The checks of [validate_junction_info], as the specification
    words them *)

(** One check: the field [field] of junction [jjnm] must name a member of
    [universe].  [None] when it passes, otherwise the exception: the
    assertion message built by [msg] from the junction, the field and the
    offending name, or [KeyError] when the junction has no such field. *)
Definition check_field (msg : string -> string -> string -> assertion)
    (universe : list string) (jjnm : string) (jj : gmap string string)
    (field : string) : option exn :=
  match jj !! field with
  | Some v =>
      if bool_decide (v ∈ universe) then None
      else Some (AssertionError (msg jjnm field v))
  | None => Some (KeyError field)
  end.

(** The three checks of one junction, in order: the inductance variable
    against the variable names, then the rectangle and the line against
    the object names. *)
Definition junction_checks (vars objs : list string)
    (j : string * gmap string string) : list (option exn) :=
  [check_field JunctionVariableUnknown vars j.1 j.2 "Lj_variable";
   check_field JunctionObjectUnknown objs j.1 j.2 "rect";
   check_field JunctionObjectUnknown objs j.1 j.2 "line"].

(** The first check that fails, over all junctions in table order. *)
Definition first_failure (vars objs : list string) (js : table) : option exn :=
  head (omap id (js ≫= junction_checks vars objs)).

(** A junction whose three names exist. *)
Definition junction_valid (vars objs : list string)
    (j : string * gmap string string) : Prop :=
  (exists v, j.2 !! "Lj_variable" = Some v /\ v ∈ vars) /\
  (exists v, j.2 !! "rect" = Some v /\ v ∈ objs) /\
  (exists v, j.2 !! "line" = Some v /\ v ∈ objs).

(** What a run of [validate_junction_info] amounts to. *)
Definition outcome (failure : option exn) : Res unit :=
  match failure with
  | None => Ok tt
  | Some e => Raise e
  end.

(** Two junctions with the same name that differ at most in their
    [Cj_variable] entry (present in one and not the other, or changed). *)
Definition same_but_Cj (j j' : string * gmap string string) : Prop :=
  j.1 = j'.1 /\ forall field, field ≠ "Cj_variable" -> j.2 !! field = j'.2 !! field.

(** The same session with another junction table. *)
Definition with_junctions {W} (js : table) (s : State W) : State W :=
  mkState (set_junctions js (self s)) (world s) (trace s).

(** [m] neither reads nor writes the junction table. *)
Definition junction_blind {W A} (m : M W A) : Prop :=
  forall js s, m (with_junctions js s) = ((m s).1, with_junctions js (m s).2).

(** ** Further vocabulary *)

(** The design name [connect_design] works with: the argument when one
    is passed, the stored name otherwise. *)
Definition effective_design_name (arg : option string) (o : ProjectInfo) : option string :=
  match arg with
  | Some n => Some n
  | None => design_name o
  end.

(** The default setup of a solution type, as the comparisons of
    [connect_setup] decide it: how many times the solution type is read,
    the kind named in the warning, and the creation call. *)
Definition default_creation {W} (ansys : Ansys W) (st : string)
  : option (nat * string * (HfssDesign -> method)
            * (HfssDesign -> W -> Res (option HfssSetup) * W)) :=
  if bool_decide (st = "Eigenmode") then
    Some (1, "eigenmode", Design_create_em_setup, design_create_em_setup ansys)
  else if bool_decide (st = "DrivenModal") then
    Some (2, "driven modal", Design_create_dm_setup, design_create_dm_setup ansys)
  else if bool_decide (st = "DrivenTerminal") then
    Some (3, "driven terminal", Design_create_dt_setup, design_create_dt_setup ansys)
  else if bool_decide (st = "Q3D") then
    Some (4, "Q3D", Design_create_q3d_setup, design_create_q3d_setup ansys)
  else None.

(** The setup name [connect_setup] resolves when the design lists
    setups: the stored one, or else the first of the list. *)
Definition chosen_setup_name (first : string) (o : ProjectInfo) : string :=
  match setup_name o with
  | Some n => n
  | None => first
  end.

(** The five groups [get_all_object_names] asks for, in order. *)
Definition object_groups : list string :=
  ["Non Model"; "Solids"; "Unclassified"; "Sheets"; "Lines"].

(** The two calls made for one group: the modeler is read from the
    design, then asked for the objects of the group. *)
Definition group_query (d : HfssDesign) (m : HfssModeler) (g : string) : list event :=
  [Call (Design_modeler d); Call (Modeler_get_objects_in_group m g)].

(** A model that answers the object queries without changing: the design
    always gives the modeler [m], which always lists [objs g] for the
    group [g]. *)
Definition steady_model {W} (ansys : Ansys W) (d : HfssDesign) (m : HfssModeler)
    (objs : string -> list string) : Prop :=
  (forall w, design_get_modeler ansys d w = (Ok m, w)) /\
  (forall g w, modeler_get_objects_in_group ansys m g w = (Ok (objs g), w)).

(** A value the type check of [__setitem__] lets into a slot: [None], or
    a list or dictionary whose elements (keys) are all strings. *)
Definition slot_value_ok (value : pyval) : bool :=
  bool_decide (value = VNone) || (is_list_or_dict value && all_str value).

(** The first of the four slot arguments of the constructor, in the
    order of [diss_opt], that the type check refuses. *)
Definition first_invalid_slot (dielectrics_bulk dielectric_surfaces
    resistive_surfaces seams : pyval) : option string :=
  if negb (slot_value_ok dielectrics_bulk) then Some "dielectrics_bulk"
  else if negb (slot_value_ok dielectric_surfaces) then Some "dielectric_surfaces"
  else if negb (slot_value_ok resistive_surfaces) then Some "resistive_surfaces"
  else if negb (slot_value_ok seams) then Some "seams"
  else None.

(** ** Reasoning about monadic programs *)

Section Run.
Context {W : Type}.

Lemma run_bind {A B} (m : M W A) (k : A -> M W B) s :
  (m ≫= k) s =
  match m s with
  | (Ok a, s') => k a s'
  | (Raise e, s') => (Raise e, s')
  end.
Proof. reflexivity. Qed.

Lemma run_bind_ok {A B} (m : M W A) (k : A -> M W B) s a s' :
  m s = (Ok a, s') -> (m ≫= k) s = k a s'.
Proof. intros H. rewrite run_bind, H. reflexivity. Qed.

Lemma run_bind_raise {A B} (m : M W A) (k : A -> M W B) s e s' :
  m s = (Raise e, s') -> (m ≫= k) s = (Raise e, s').
Proof. intros H. rewrite run_bind, H. reflexivity. Qed.

Lemma run_try_raise {A} (m : M W A) (h : exn -> M W A) s e s' :
  m s = (Raise e, s') -> try_except m h s = h e s'.
Proof. intros H. unfold try_except. rewrite H. reflexivity. Qed.

Lemma run_try_ok {A} (m : M W A) (h : exn -> M W A) s a s' :
  m s = (Ok a, s') -> try_except m h s = (Ok a, s').
Proof. intros H. unfold try_except. rewrite H. reflexivity. Qed.

Lemma run_call_ok {A} (c : method) (f : W -> Res A * W) s r w :
  f (world s) = (r, w) ->
  call c f s = (r, mkState (self s) w (trace s ++ [Call c])).
Proof. intros H. unfold call. rewrite H. reflexivity. Qed.

Lemma run_get {A B} (f : ProjectInfo -> A) (k : A -> M W B) s :
  (get f ≫= k) s = k (f (self s)) s.
Proof. reflexivity. Qed.

Lemma run_get_attr {H} (f : ProjectInfo -> option H) attr s h :
  f (self s) = Some h -> (get f ≫= attr_of attr : M W H) s = (Ok h, s).
Proof. intros E. rewrite run_get, E. reflexivity. Qed.

Lemma run_get_attr_none {H} (f : ProjectInfo -> option H) attr s :
  f (self s) = None ->
  (get f ≫= attr_of attr : M W H) s = (Raise (AttributeError "NoneType" attr), s).
Proof. intros E. rewrite run_get, E. reflexivity. Qed.

Lemma run_ret {A B} (a : A) (k : A -> M W B) s : (mret a ≫= k) s = k a s.
Proof. reflexivity. Qed.

Lemma run_ret_attr {A B} (a : A) (k : A -> M W B) s : (ret a ≫= k) s = k a s.
Proof. reflexivity. Qed.

Lemma run_raise {A B} e (k : A -> M W B) s : (raise e ≫= k) s = (Raise e, s).
Proof. reflexivity. Qed.

Lemma run_modify {B} f (k : unit -> M W B) s :
  (modify f ≫= k) s = k tt (mkState (f (self s)) (world s) (trace s)).
Proof. reflexivity. Qed.

Lemma run_emit {B} e (k : unit -> M W B) s :
  (emit e ≫= k) s = k tt (mkState (self s) (world s) (trace s ++ [e])).
Proof. reflexivity. Qed.

Lemma run_assoc {A B C} (m : M W A) (f : A -> M W B) (g : B -> M W C) s :
  ((m ≫= f) ≫= g) s = (m ≫= fun a => f a ≫= g) s.
Proof. rewrite !run_bind. destruct (m s) as [[a|e] s']; reflexivity. Qed.

Lemma run_ret_end {A} (a : A) (s : State W) : (mret a : M W A) s = (Ok a, s).
Proof. reflexivity. Qed.

Lemma run_get_end {A} (f : ProjectInfo -> A) (s : State W) :
  (get f : M W A) s = (Ok (f (self s)), s).
Proof. reflexivity. Qed.

Lemma run_modify_end f (s : State W) :
  (modify f : M W unit) s = (Ok tt, mkState (f (self s)) (world s) (trace s)).
Proof. reflexivity. Qed.

Lemma run_emit_end e (s : State W) :
  (emit e : M W unit) s = (Ok tt, mkState (self s) (world s) (trace s ++ [e])).
Proof. reflexivity. Qed.

Lemma run_raise_end {A} e (s : State W) : (raise e : M W A) s = (Raise e, s).
Proof. reflexivity. Qed.

Lemma bind_ok_inv {A B} (m : M W A) (k : A -> M W B) s b s' :
  (m ≫= k) s = (Ok b, s') ->
  exists a s1, m s = (Ok a, s1) /\ k a s1 = (Ok b, s').
Proof.
  rewrite run_bind. destruct (m s) as [[a|e] s1]; [|discriminate].
  intros H. by exists a, s1.
Qed.

Lemma preserves_run {A} (P : ProjectInfo -> Prop) (m : M W A) s r s' :
  preserves P m -> m s = (r, s') -> P (self s) -> P (self s').
Proof. intros Hm E H. specialize (Hm s H). by rewrite E in Hm. Qed.

Lemma modify_inv f (s : State W) a s' :
  (modify f : M W unit) s = (Ok a, s') ->
  s' = mkState (f (self s)) (world s) (trace s).
Proof. by intros [= _ <-]. Qed.

Lemma state_eta (s : State W) : mkState (self s) (world s) (trace s) = s.
Proof. destruct s; reflexivity. Qed.

(** *** Frame properties: what a program leaves alone *)

Variable P : ProjectInfo -> Prop.

Lemma preserves_ret {A} (a : A) : preserves P (mret a : M W A).
Proof. intros s H. exact H. Qed.

Lemma preserves_raise {A} e : preserves P (raise e : M W A).
Proof. intros s H. exact H. Qed.

Lemma preserves_bind {A B} (m : M W A) (k : A -> M W B) :
  preserves P m -> (forall a, preserves P (k a)) -> preserves P (m ≫= k).
Proof.
  intros Hm Hk s H. rewrite run_bind.
  specialize (Hm s H). destruct (m s) as [[a|e] s']; simpl in *.
  - apply Hk, Hm.
  - exact Hm.
Qed.

Lemma preserves_try_except {A} (m : M W A) (h : exn -> M W A) :
  preserves P m -> (forall e, preserves P (h e)) -> preserves P (try_except m h).
Proof.
  intros Hm Hh s H. unfold try_except.
  specialize (Hm s H). destruct (m s) as [[a|e] s']; simpl in *.
  - exact Hm.
  - apply Hh, Hm.
Qed.

Lemma preserves_get {A} (f : ProjectInfo -> A) : preserves P (get f : M W A).
Proof. intros s H. exact H. Qed.

Lemma preserves_modify f : stable P f -> preserves P (modify f : M W unit).
Proof. intros Hf s H. apply Hf, H. Qed.

Lemma preserves_emit e : preserves P (emit e : M W unit).
Proof. intros s H. exact H. Qed.

Lemma preserves_call {A} c (f : W -> Res A * W) : preserves P (call c f).
Proof. intros s H. unfold call. destruct (f (world s)). exact H. Qed.

Lemma preserves_attr_of {H} attr (o : option H) : preserves P (attr_of attr o : M W H).
Proof. destruct o; [apply preserves_ret | apply preserves_raise]. Qed.

Lemma preserves_for {A} (l : list A) (body : A -> M W unit) :
  (forall x, preserves P (body x)) -> preserves P (for_ l body).
Proof.
  intros Hb. induction l as [|x l IH]; cbn [for_].
  - apply preserves_ret.
  - apply preserves_bind; auto.
Qed.

Lemma preserves_for_elem {A} (l : list A) (body : A -> M W unit) :
  (forall x, x ∈ l -> preserves P (body x)) -> preserves P (for_ l body).
Proof.
  induction l as [|x l IH]; intros Hb; cbn [for_].
  - apply preserves_ret.
  - apply preserves_bind.
    + apply Hb. by left.
    + intros _. apply IH. intros y Hy. apply Hb. by right.
Qed.
End Run.

(** Symbolic execution of the part of a program that does not call the
    tool. *)
Ltac run :=
  unfold log_info, log_warning, log_error;
  repeat (progress
    (rewrite ?run_assoc, ?run_get, ?run_ret, ?run_ret_attr, ?run_raise, ?run_modify, ?run_emit,
       ?run_ret_end, ?run_get_end, ?run_modify_end, ?run_emit_end, ?run_raise_end;
     cbn beta iota delta
       [self world trace fst snd negb andb orb attr_of
        project_path project_name design_name setup_name junctions ports
        dissipative app desktop project design setup
        set_project_path set_project_name set_design_name set_setup_name
        set_junctions set_ports set_dissipative set_app set_desktop
        set_project set_design set_setup]));
  rewrite <- ?app_assoc; cbn [app].

Create HintDb frame.
#[global] Hint Resolve preserves_ret preserves_raise preserves_get preserves_emit
  preserves_call preserves_attr_of : frame.

(** One step of a frame proof: follow the shape of the program. *)
Ltac frame_step :=
  lazymatch goal with
  | |- preserves _ (mbind _ _) => apply preserves_bind; [|intros ?]
  | |- preserves _ (try_except _ _) => apply preserves_try_except; [|intros ?]
  | |- preserves _ (for_ _ _) => apply preserves_for; intros ?
  | |- preserves _ (modify _) => apply preserves_modify; solve [auto]
  | |- preserves _ (log_info _) => apply preserves_emit
  | |- preserves _ (log_warning _) => apply preserves_emit
  | |- preserves _ (log_error _) => apply preserves_emit
  | |- preserves _ (match ?x with _ => _ end) => destruct x
  | |- _ => solve [auto with frame]
  end.
Ltac frame := repeat frame_step.

Section Frames.
Context {W : Type} (ansys : Ansys W) (P : ProjectInfo -> Prop).

Lemma get_setup_preserves name :
  (forall v, stable P (set_setup v)) ->
  (forall v, stable P (set_setup_name v)) ->
  preserves P (get_setup ansys name).
Proof. intros H1 H2. unfold get_setup. frame. Qed.

Lemma default_setup_preserves : preserves P (default_setup ansys).
Proof. unfold default_setup, self_design_solution_type. frame. Qed.

Lemma connect_setup_preserves :
  (forall v, stable P (set_setup v)) ->
  (forall v, stable P (set_setup_name v)) ->
  preserves P (connect_setup ansys).
Proof.
  intros H1 H2. pose proof (get_setup_preserves) as Hg.
  pose proof default_setup_preserves as Hd.
  unfold connect_setup. frame.
Qed.
Lemma connect_finalize_preserves :
  (forall v, stable P (set_project_name v)) ->
  (forall v, stable P (set_design_name v)) ->
  preserves P (connect_finalize ansys).
Proof. intros H1 H2. unfold connect_finalize. frame. Qed.

Lemma connect_project_preserves :
  (forall v, stable P (set_app v)) ->
  (forall v, stable P (set_desktop v)) ->
  (forall v, stable P (set_project v)) ->
  (forall v, stable P (set_project_name v)) ->
  (forall v, stable P (set_project_path v)) ->
  preserves P (connect_project ansys).
Proof. intros H1 H2 H3 H4 H5. unfold connect_project. frame. Qed.

Lemma connect_design_preserves name :
  (forall v, stable P (set_design v)) ->
  (forall v, stable P (set_design_name v)) ->
  preserves P (connect_design ansys name).
Proof. intros H1 H2. unfold connect_design. frame. Qed.

Lemma connect_preserves : session_stable P -> preserves P (connect ansys).
Proof.
  intros (Ha & Hk & Hp & Hd & Hs & Hpp & Hpn & Hdn & Hsn).
  pose proof (connect_project_preserves Ha Hk Hp Hpn Hpp).
  pose proof (connect_design_preserves None Hd Hdn).
  pose proof (connect_setup_preserves Hs Hsn).
  pose proof (connect_finalize_preserves Hpn Hdn).
  unfold connect. frame.
Qed.

Lemma get_all_variables_names_preserves : preserves P (get_all_variables_names ansys).
Proof. unfold get_all_variables_names. frame. Qed.

Lemma objects_in_groups_preserves groups acc :
  preserves P (objects_in_groups ansys groups acc).
Proof.
  revert acc. induction groups as [|g groups IH]; intros acc; simpl; frame.
Qed.

Lemma get_all_object_names_preserves : preserves P (get_all_object_names ansys).
Proof. apply objects_in_groups_preserves. Qed.

Lemma getitem_preserves attr : preserves P (__getitem__ attr : M W pyval).
Proof. unfold __getitem__. frame. Qed.

Lemma setitem_preserves key value :
  (forall o, P o -> P (set_dissipative (<[key := value]> (dissipative o)) o)) ->
  preserves P (__setitem__ ansys key value).
Proof.
  intros H. pose proof getitem_preserves. pose proof get_all_object_names_preserves.
  unfold __setitem__, iter.
  destruct (negb _); [frame|]. destruct (_ && _); [frame|].
  apply preserves_bind; [frame|]. intros _ s Hs. apply H, Hs.
Qed.
End Frames.

(** ** [check_connected] and [disconnect] *)

Section Disconnect.
Context {W : Type} (ansys : Ansys W).

Lemma check_connected_true (o : ProjectInfo) :
  check_connected o = true <->
  exists st d p dk a,
    setup o = Some st /\ design o = Some d /\ project o = Some p /\
    desktop o = Some dk /\ app o = Some a.
Proof.
  unfold check_connected. rewrite !andb_true_iff, !bool_decide_eq_true. split.
  - intros [[[[Hs Hd] Hp] Hk] Ha].
    destruct (setup o) as [st|]; [|done]. destruct (design o) as [d|]; [|done].
    destruct (project o) as [p|]; [|done]. destruct (desktop o) as [dk|]; [|done].
    destruct (app o) as [a|]; [|done]. by exists st, d, p, dk, a.
  - intros (st & d & p & dk & a & -> & -> & -> & -> & ->). done.
Qed.

Lemma check_connected_false (o : ProjectInfo) :
  check_connected o = false <->
  setup o = None \/ design o = None \/ project o = None \/
  desktop o = None \/ app o = None.
Proof.
  rewrite <- not_true_iff_false, check_connected_true. split.
  - intros H.
    destruct (setup o) as [st|]; [|by left].
    destruct (design o) as [d|]; [|by right; left].
    destruct (project o) as [p|]; [|by right; right; left].
    destruct (desktop o) as [dk|]; [|by right; right; right; left].
    destruct (app o) as [a|]; [|by right; right; right; right].
    exfalso. apply H. by exists st, d, p, dk, a.
  - intros H (st & d & p & dk & a & Hs & Hd & Hp & Hk & Ha).
    rewrite Hs, Hd, Hp, Hk, Ha in H.
    destruct H as [H|[H|[H|[H|H]]]]; discriminate.
Qed.

Lemma disconnect_not_connected (s : State W) :
  check_connected (self s) = false ->
  disconnect ansys s = (Raise (AssertionError NotConnectedYet), s).
Proof.
  intros H. unfold disconnect. rewrite run_bind. simpl. rewrite H. reflexivity.
Qed.

(** The four releases, as [disconnect] and the teardown of [connect]
    write them, on a session that holds the three handles: they are the
    tool's release functions applied in the fixed order, each to the tool
    state the previous one left, up to the first one that raises; the
    attributes are not written. *)
Lemma release_sequence_run (s : State W) p d a r w k :
  project (self s) = Some p -> desktop (self s) = Some d -> app (self s) = Some a ->
  attempt (releases ansys p d a) (world s) = (r, w, k) ->
  (p ← get project ≫= attr_of "release";
   call (Project_release p) (project_release ansys p);;
   d ← get desktop ≫= attr_of "release";
   call (Desktop_release d) (desktop_release ansys d);;
   a ← get app ≫= attr_of "release";
   call (App_release a) (app_release ansys a);;
   call Ansys_release (ansys_release ansys) : M W unit) s
  = (r, mkState (self s) w (trace s ++ take k (release_order p d a))).
Proof.
  intros Hp Hd Ha. cbn [attempt releases].
  erewrite run_bind_ok by (by apply run_get_attr).
  destruct (project_release ansys p (world s)) as [[[]|e1] w1] eqn:E1.
  2:{ intros [= <- <- <-]. by erewrite run_bind_raise by (by apply run_call_ok). }
  erewrite run_bind_ok by (by apply run_call_ok).
  erewrite run_bind_ok by (by apply run_get_attr).
  destruct (desktop_release ansys d w1) as [[[]|e2] w2] eqn:E2.
  2:{ intros [= <- <- <-]. erewrite run_bind_raise by (by apply run_call_ok).
      by simpl; rewrite <- ?app_assoc. }
  erewrite run_bind_ok by (by apply run_call_ok).
  erewrite run_bind_ok by (by apply run_get_attr).
  destruct (app_release ansys a w2) as [[[]|e3] w3] eqn:E3.
  2:{ intros [= <- <- <-]. erewrite run_bind_raise by (by apply run_call_ok).
      by simpl; rewrite <- ?app_assoc. }
  erewrite run_bind_ok by (by apply run_call_ok).
  destruct (ansys_release ansys w3) as [r4 w4] eqn:E4.
  erewrite run_call_ok by done.
  destruct r4 as [[]|e4]; intros [= <- <- <-]; by simpl; rewrite <- ?app_assoc.
Qed.

(** At least one release is attempted; all four have been when the
    attempt returns, and it returns whenever the tool's releases do. *)
Lemma attempt_releases_count p d a (w0 : W) r w k :
  attempt (releases ansys p d a) w0 = (r, w, k) ->
  0 < k /\ k <= 4 /\ (r = Ok tt -> k = 4) /\ (releases_return ansys -> r = Ok tt).
Proof.
  cbn [attempt releases].
  destruct (project_release ansys p w0) as [[[]|e1] w1] eqn:E1.
  2:{ intros [= <- <- <-]. repeat (split; [lia || done|]).
      intros (R & _). specialize (R p w0). by rewrite E1 in R. }
  destruct (desktop_release ansys d w1) as [[[]|e2] w2] eqn:E2.
  2:{ intros [= <- <- <-]. repeat (split; [lia || done|]).
      intros (_ & R & _). specialize (R d w1). by rewrite E2 in R. }
  destruct (app_release ansys a w2) as [[[]|e3] w3] eqn:E3.
  2:{ intros [= <- <- <-]. repeat (split; [lia || done|]).
      intros (_ & _ & R & _). specialize (R a w2). by rewrite E3 in R. }
  destruct (ansys_release ansys w3) as [[[]|e4] w4] eqn:E4.
  - intros [= <- <- <-]. repeat (split; [lia || done|]). done.
  - intros [= <- <- <-]. repeat (split; [lia || done|]).
    intros (_ & _ & _ & R). specialize (R w3). by rewrite E4 in R.
Qed.

(** An attempt that returns has gone through the four release functions
    of the tool, in order. *)
Lemma attempt_releases_ok p d a (w0 : W) w k :
  attempt (releases ansys p d a) w0 = (Ok tt, w, k) <->
  k = 4 /\
  exists w1 w2 w3,
    project_release ansys p w0 = (Ok tt, w1) /\
    desktop_release ansys d w1 = (Ok tt, w2) /\
    app_release ansys a w2 = (Ok tt, w3) /\
    ansys_release ansys w3 = (Ok tt, w).
Proof.
  cbn [attempt releases]. split.
  - destruct (project_release ansys p w0) as [[[]|e1] w1] eqn:E1; [|discriminate].
    destruct (desktop_release ansys d w1) as [[[]|e2] w2] eqn:E2; [|discriminate].
    destruct (app_release ansys a w2) as [[[]|e3] w3] eqn:E3; [|discriminate].
    destruct (ansys_release ansys w3) as [[[]|e4] w4] eqn:E4; [|discriminate].
    intros [= <- <-]. split; [done|]. by exists w1, w2, w3.
  - intros (-> & w1 & w2 & w3 & -> & -> & -> & ->). reflexivity.
Qed.

(** What a connected [disconnect] does. *)
Lemma disconnect_run (s : State W) :
  check_connected (self s) = true ->
  exists p d a,
    project (self s) = Some p /\ desktop (self s) = Some d /\ app (self s) = Some a /\
    forall r w k,
      attempt (releases ansys p d a) (world s) = (r, w, k) ->
      disconnect ansys s
      = (r, mkState (self s) w (trace s ++ take k (release_order p d a))).
Proof.
  intros H. pose proof H as H'.
  apply check_connected_true in H' as (st & d & p & dk & a & Hs & Hd & Hp & Hk & Ha).
  exists p, dk, a. split; [done|]. split; [done|]. split; [done|].
  intros r w k E. unfold disconnect. rewrite run_get, H. cbn [negb].
  by apply release_sequence_run.
Qed.
End Disconnect.


(** C6.  [disconnect()] called while [check_connected()] is false, that
    is while any of the five handles (setup, design, project, desktop,
    app) is [None], raises the precondition error and does nothing else.
    Called while [check_connected()] is true, it releases the project, the
    desktop, the app and the process-wide binding in exactly that order:
    its result and the tool state it leaves are those of the tool's four
    release functions applied in that order, each to the tool state the
    previous one left, up to the first one that raises; the calls it
    makes are the first [k] of the four, all four when it returns, and it
    returns whenever the tool's releases do. *)
Theorem disconnect_precondition_and_order {W} (ansys : Ansys W) (s : State W) :
  (check_connected (self s) = false <->
   setup (self s) = None \/ design (self s) = None \/ project (self s) = None \/
   desktop (self s) = None \/ app (self s) = None) /\
  (check_connected (self s) = false ->
   disconnect ansys s = (Raise (AssertionError NotConnectedYet), s)) /\
  (check_connected (self s) = true ->
   exists p d a,
     project (self s) = Some p /\ desktop (self s) = Some d /\ app (self s) = Some a /\
     exists k r w,
       attempt (releases ansys p d a) (world s) = (r, w, k) /\
       disconnect ansys s
       = (r, mkState (self s) w (trace s ++ take k (release_order p d a))) /\
       0 < k /\
       (r = Ok tt -> k = 4) /\
       (releases_return ansys -> r = Ok tt)).
Proof.
  split; [apply check_connected_false|].
  split; [apply disconnect_not_connected|].
  intros H. destruct (disconnect_run ansys s H) as (p & d & a & Hp & Hd & Ha & F).
  exists p, d, a. repeat (split; [assumption|]).
  destruct (attempt (releases ansys p d a) (world s)) as [[r w] k] eqn:A.
  exists k, r, w. split; [reflexivity|]. split; [by apply F|].
  destruct (attempt_releases_count ansys p d a (world s) r w k A) as (Hk & _ & H4 & Hr).
  auto.
Qed.

Lemma disconnect_precondition_and_order_witness :
  (check_connected blank = false /\
   disconnect (Fake.tool Fake.good) (fresh tt)
   = (Raise (AssertionError NotConnectedYet), fresh tt)) /\
  (check_connected Fake.connected = true /\
   disconnect (Scenario.recording (Fake.tool Fake.good))
     (mkState Fake.connected [] [])
   = (Ok tt,
      mkState Fake.connected
        [Project_release 1; Desktop_release 2; App_release 3; Ansys_release]
        (release_order 1 2 3))).
Proof.
  split.
  - split; [reflexivity|].
    apply (disconnect_precondition_and_order (Fake.tool Fake.good) (fresh tt)).
    reflexivity.
  - split; [reflexivity|].
    destruct (disconnect_precondition_and_order
                (Scenario.recording (Fake.tool Fake.good))
                (mkState Fake.connected [] [])) as (_ & _ & H).
    destruct (H eq_refl)
      as (p & d & a & [= <-] & [= <-] & [= <-] & k & r & w & A & E & _).
    vm_compute in A. injection A as <- <- <-. exact E.
Defined.

(** C5, as stated, fails: after a successful [disconnect()] on the
    connected session the handle attributes are not cleared. *)
Lemma disconnect_clears_handles_counterexample :
  exists s',
    disconnect (Fake.tool Fake.good) (mkState Fake.connected tt []) = (Ok tt, s') /\
    ~ handles_cleared (self s').
Proof.
  eexists. split.
  - vm_compute. reflexivity.
  - intros (H & _). discriminate H.
Qed.

(** C5, amended.  [disconnect()] writes no attribute of the session,
    whether it returns or raises: the handle attributes keep the handles
    they had.  When it returns, all four releases (project, desktop, app,
    process-wide binding) have been made: each release function of the
    tool has returned, on the tool state the previous one left, the last
    one leaving the tool state [disconnect()] ends in; and
    [check_connected()] is still true.  Otherwise an exception
    propagates: the precondition error, with nothing done, or the
    exception of the first release that raised, after the releases made
    up to it. *)
Theorem disconnect_keeps_handles {W} (ansys : Ansys W) (s : State W) r s' :
  disconnect ansys s = (r, s') ->
  self s' = self s /\
  (r = Ok tt ->
   check_connected (self s') = true /\
   exists p d a,
     project (self s) = Some p /\ desktop (self s) = Some d /\ app (self s) = Some a /\
     trace s' = (trace s ++ release_order p d a)%list /\
     exists w1 w2 w3,
       project_release ansys p (world s) = (Ok tt, w1) /\
       desktop_release ansys d w1 = (Ok tt, w2) /\
       app_release ansys a w2 = (Ok tt, w3) /\
       ansys_release ansys w3 = (Ok tt, world s')) /\
  (forall e, r = Raise e ->
   (e = AssertionError NotConnectedYet /\ s' = s) \/
   exists p d a k,
     project (self s) = Some p /\ desktop (self s) = Some d /\ app (self s) = Some a /\
     attempt (releases ansys p d a) (world s) = (Raise e, world s', k) /\
     trace s' = (trace s ++ take k (release_order p d a))%list).
Proof.
  intros E. destruct (check_connected (self s)) eqn:H.
  - destruct (disconnect_run ansys s H) as (p & d & a & Hp & Hd & Ha & F).
    destruct (attempt (releases ansys p d a) (world s)) as [[r' w] k] eqn:A.
    rewrite (F _ _ _ eq_refl) in E. injection E as <- <-.
    split; [reflexivity|]. split.
    + intros ->. split; [exact H|].
      apply attempt_releases_ok in A as (-> & w1 & w2 & w3 & R1 & R2 & R3 & R4).
      exists p, d, a. repeat (split; [assumption|]).
      split; [reflexivity|]. by exists w1, w2, w3.
    + intros e ->. right. exists p, d, a, k. by repeat (split; [assumption|]).
  - rewrite (disconnect_not_connected ansys s H) in E. injection E as <- <-.
    split; [reflexivity|]. split; [discriminate|].
    intros e [= <-]. by left.
Qed.

Lemma disconnect_keeps_handles_witness :
  exists s',
    disconnect (Scenario.recording (Fake.tool Fake.good))
      (mkState Fake.connected [] []) = (Ok tt, s') /\
    self s' = Fake.connected /\
    check_connected (self s') = true /\
    trace s' = release_order 1 2 3 /\
    world s' = [Project_release 1; Desktop_release 2; App_release 3; Ansys_release].
Proof.
  eexists. split; [vm_compute; reflexivity|].
  destruct (disconnect_keeps_handles
              (Scenario.recording (Fake.tool Fake.good))
              (mkState Fake.connected [] []) (Ok tt)
              (mkState Fake.connected
                 [Project_release 1; Desktop_release 2; App_release 3; Ansys_release]
                 (release_order 1 2 3))) as (Hs & H & _).
  - vm_compute. reflexivity.
  - split; [exact Hs|]. destruct (H eq_refl) as (Hc & _).
    split; [exact Hc|]. split; reflexivity.
Defined.


(** ** [connect] *)

Section Connect.
Context {W : Type} (ansys : Ansys W).

(** [connect_setup] on a session without design handle: no call, the
    setup and its name are reset. *)
Lemma connect_setup_no_design (s : State W) :
  design (self s) = None ->
  connect_setup ansys s
  = (Ok tt, mkState (set_setup_name None (set_setup None (self s))) (world s) (trace s)).
Proof. intros H. unfold connect_setup. run. rewrite H. run. reflexivity. Qed.

(** The summary at the end of [connect] without project and design. *)
Lemma connect_finalize_nothing (s : State W) :
  project (self s) = None -> design (self s) = None ->
  connect_finalize ansys s
  = (Ok tt, mkState (self s) (world s)
              (trace s ++ [LogInfo ProjectNotDetected;
                           LogInfo (NoDesignDetected (project_name (self s)))])).
Proof.
  intros Hp Hd. unfold connect_finalize.
  repeat (run; rewrite ?Hp, ?Hd). reflexivity.
Qed.

(** Without a project handle [connect] goes straight from
    [connect_project] to [connect_setup]. *)
Lemma connect_no_project (s0 s1 : State W) :
  connect_project ansys s0 = (Ok tt, s1) ->
  project (self s1) = None ->
  connect ansys s0
  = (connect_setup ansys;; connect_finalize ansys)
      (mkState (self s1) (world s1) (trace s1 ++ [LogInfo ConnectionNotEstablished])).
Proof.
  intros E Hp. unfold connect.
  erewrite run_bind_ok by exact E.
  repeat (run; rewrite ?Hp). reflexivity.
Qed.
End Connect.

(** C4, as stated, fails: the session is built with a setup name, no
    project is open, and [connect()] resets the setup name. *)
Lemma connect_without_project_counterexample :
  let s0 := mkState (set_setup_name (Some "Setup1") blank) tt [] in
  exists s1 s2,
    connect_project (Fake.tool Fake.no_project) s0 = (Ok tt, s1) /\
    project (self s1) = None /\
    connect (Fake.tool Fake.no_project) s0 = (Ok tt, s2) /\
    setup_name (self s1) = Some "Setup1" /\
    setup_name (self s2) <> setup_name (self s1).
Proof.
  eexists _, _. split; [vm_compute; reflexivity|].
  split; [reflexivity|]. split; [vm_compute; reflexivity|].
  split; [reflexivity|]. discriminate.
Qed.

(** C4, amended.  Whenever [connect_project()] yields no project handle,
    [connect()] skips the design connection and continues with
    [connect_setup()] and the summary; the project handle is still [None]
    afterwards, so [check_connected()] is false, whether [connect()]
    returns or raises.  On a session without design handle (as a new one)
    [connect_setup()] then makes no call into the tool, and [connect()]
    returns having reset [setup] and [setup_name] to [None] and changed
    nothing else. *)
Theorem connect_without_project {W} (ansys : Ansys W) (s0 s1 : State W) :
  connect_project ansys s0 = (Ok tt, s1) ->
  project (self s1) = None ->
  connect ansys s0
  = (connect_setup ansys;; connect_finalize ansys)
      (mkState (self s1) (world s1) (trace s1 ++ [LogInfo ConnectionNotEstablished])) /\
  project (self (connect ansys s0).2) = None /\
  check_connected (self (connect ansys s0).2) = false /\
  (design (self s0) = None ->
   connect ansys s0
   = (Ok tt,
      mkState (set_setup_name None (set_setup None (self s1))) (world s1)
        (trace s1 ++ [LogInfo ConnectionNotEstablished; LogInfo ProjectNotDetected;
                      LogInfo (NoDesignDetected (project_name (self s1)))]))).
Proof.
  intros E Hp. pose proof (connect_no_project ansys s0 s1 E Hp) as Hc.
  split; [exact Hc|].
  assert (project (self (connect ansys s0).2) = None) as Hp'.
  { rewrite Hc.
    apply (preserves_bind (fun o => project o = None) (connect_setup ansys)
             (fun _ => connect_finalize ansys)).
    - apply connect_setup_preserves; intros v o H; exact H.
    - intros _. apply connect_finalize_preserves; intros v o H; exact H.
    - exact Hp. }
  split; [exact Hp'|]. split.
  { apply check_connected_false. auto. }
  intros Hd.
  assert (design (self s1) = None) as Hd1.
  { pose proof (connect_project_preserves ansys (fun o => design o = None)) as F.
    specialize (F (fun v o H => H) (fun v o H => H) (fun v o H => H)
                  (fun v o H => H) (fun v o H => H) s0 Hd).
    rewrite E in F. exact F. }
  rewrite Hc.
  erewrite run_bind_ok by (by apply connect_setup_no_design).
  rewrite connect_finalize_nothing by assumption.
  cbn [self world trace project_name set_setup_name set_setup].
  rewrite <- app_assoc. reflexivity.
Qed.

Lemma connect_without_project_witness :
  let s0 := mkState (set_setup_name (Some "Setup1") blank) tt [] in
  exists s1,
    connect_project (Fake.tool Fake.no_project) s0 = (Ok tt, s1) /\
    project (self s1) = None /\
    check_connected (self (connect (Fake.tool Fake.no_project) s0).2) = false.
Proof.
  eexists. split; [vm_compute; reflexivity|]. split; [reflexivity|].
  eapply (connect_without_project (Fake.tool Fake.no_project)).
  - vm_compute. reflexivity.
  - reflexivity.
Defined.


(** The teardown of [connect]: after [connect_project] has stored a
    project and [connect_design] has raised, [connect] is the printing of
    the exception, then the four releases, and only if they return
    [connect_setup] and the summary. *)
Lemma connect_design_failure_run {W} (ansys : Ansys W) (s0 s1 s2 : State W) e p :
  connect_project ansys s0 = (Ok tt, s1) ->
  project (self s1) = Some p ->
  connect_design ansys None s1 = (Raise e, s2) ->
  project (self s2) = Some p /\ desktop (self s2) = desktop (self s1) /\
  app (self s2) = app (self s1) /\
  connect ansys s0
  = match
      (p ← get project ≫= attr_of "release";
       call (Project_release p) (project_release ansys p);;
       d ← get desktop ≫= attr_of "release";
       call (Desktop_release d) (desktop_release ansys d);;
       a ← get app ≫= attr_of "release";
       call (App_release a) (app_release ansys a);;
       call Ansys_release (ansys_release ansys) : M W unit)
        (mkState (self s2) (world s2) (trace s2 ++ [Printed e]))
    with
    | (Ok _, s3) => (connect_setup ansys;; connect_finalize ansys) s3
    | (Raise e', s3) => (Raise e', s3)
    end.
Proof.
  intros E Hp Ed.
  assert (project (self s2) = Some p /\ desktop (self s2) = desktop (self s1) /\
          app (self s2) = app (self s1)) as (Hp2 & Hd2 & Ha2).
  { pose proof (connect_design_preserves ansys
      (fun o => project o = Some p /\ desktop o = desktop (self s1) /\
                app o = app (self s1)) None) as F.
    specialize (F (fun v o H => H) (fun v o H => H) s1 (conj Hp (conj eq_refl eq_refl))).
    rewrite Ed in F. exact F. }
  repeat (split; [assumption|]).
  unfold connect.
  erewrite run_bind_ok by exact E.
  repeat (run; rewrite ?Hp).
  rewrite run_bind. erewrite run_try_raise by exact Ed.
  reflexivity.
Qed.

(** C1, as stated, fails: the teardown is not carried through, and
    [connect_setup()] is not reached, when a release raises.  On a session
    that still holds a design handle, with a design name the project does
    not have and a project that cannot be released, [connect_design()]
    raises and [connect()] ends with the exception of the project's
    release: that release is the only one that reached the tool, and no
    call of [connect_setup()] follows it. *)
Lemma connect_design_failure_teardown_counterexample :
  let ansys := Scenario.recording Scenario.stuck_project in
  let s0 := mkState (set_design (Some 4) (set_design_name (Some "Design7") blank)) [] [] in
  exists s1 s2 e s',
    connect_project ansys s0 = (Ok tt, s1) /\
    connect_design ansys None s1 = (Raise e, s2) /\
    connect ansys s0 = (Raise (ToolError "release failed"), s') /\
    world s' = [Project_release 1] /\
    trace s' = (trace s2 ++ [Printed e; Call (Project_release 1)])%list /\
    design (self s') = Some 4 /\
    Call (Design_get_setup_names 4) ∉ trace s'.
Proof.
  eexists _, _, _, _. split; [vm_compute; reflexivity|].
  split; [vm_compute; reflexivity|].
  split; [vm_compute; reflexivity|].
  split; [reflexivity|]. split; [reflexivity|]. split; [reflexivity|].
  vm_compute. intros H.
  repeat (apply elem_of_cons in H as [H|H]; [discriminate H|]).
  by apply elem_of_nil in H.
Qed.

(** C1, amended.  In [connect()], when [connect_design()] raises, the
    exception is printed and the releases of the project, the desktop, the
    app and the process-wide binding are attempted in that order, each on
    the tool state the previous one left.  Only when all four return does
    [connect()] go on with [connect_setup()] (and the summary), from the
    state the teardown left.  The teardown is not protected: the first
    release that raises ends [connect()] with its exception, after the
    releases made up to it and without [connect_setup()]; so does a
    missing desktop or app handle, before the binding is released. *)
Theorem connect_design_failure_teardown {W} (ansys : Ansys W)
    (s0 s1 s2 : State W) e p :
  connect_project ansys s0 = (Ok tt, s1) ->
  project (self s1) = Some p ->
  connect_design ansys None s1 = (Raise e, s2) ->
  (forall d a r w k,
     desktop (self s1) = Some d -> app (self s1) = Some a ->
     attempt (releases ansys p d a) (world s2) = (r, w, k) ->
     0 < k /\ (r = Ok tt -> k = 4) /\ (releases_return ansys -> r = Ok tt) /\
     connect ansys s0
     = let torn :=
         mkState (self s2) w (trace s2 ++ Printed e :: take k (release_order p d a)) in
       match r with
       | Ok _ => (connect_setup ansys;; connect_finalize ansys) torn
       | Raise e' => (Raise e', torn)
       end) /\
  (desktop (self s1) = None \/ app (self s1) = None ->
   exists e' w calls,
     connect ansys s0
     = (Raise e',
        mkState (self s2) w
          (trace s2 ++ Printed e :: Call (Project_release p) :: calls)) /\
     length calls <= 1 /\
     Forall (fun c => exists d, c = Call (Desktop_release d)) calls).
Proof.
  intros E Hp Ed.
  destruct (connect_design_failure_run ansys s0 s1 s2 e p E Hp Ed)
    as (Hp2 & Hd2 & Ha2 & ->).
  split.
  - intros d a r w k Hd Ha A.
    destruct (attempt_releases_count ansys p d a (world s2) r w k A)
      as (Hk & _ & H4 & Hr).
    repeat (split; [assumption|]).
    rewrite (release_sequence_run ansys _ p d a r w k); cbn [self world trace];
      [|assumption|congruence|congruence|assumption].
    cbn zeta. rewrite <- app_assoc. cbn [app].
    destruct r as [[]|e']; [|reflexivity].
    rewrite (H4 eq_refl). reflexivity.
  - intros Hn.
    erewrite run_bind_ok by (by apply run_get_attr).
    destruct (project_release ansys p (world s2)) as [[[]|e1] w1] eqn:E1.
    2:{ erewrite run_bind_raise by (by apply run_call_ok).
        exists e1, w1, []. cbn [self world trace]. rewrite <- app_assoc.
        split; [reflexivity|]. split; [simpl; lia|constructor]. }
    erewrite run_bind_ok by (by apply run_call_ok).
    destruct (desktop (self s1)) as [d|] eqn:Hd.
    2:{ erewrite run_bind_raise by (by apply run_get_attr_none).
        eexists _, w1, []. cbn [self world trace]. rewrite <- app_assoc.
        split; [reflexivity|]. split; [simpl; lia|constructor]. }
    destruct Hn as [Hn|Hn]; [discriminate|].
    erewrite run_bind_ok by (by apply run_get_attr).
    destruct (desktop_release ansys d w1) as [[[]|e2] w2] eqn:E2.
    2:{ erewrite run_bind_raise by (by apply run_call_ok).
        exists e2, w2, [Call (Desktop_release d)]. cbn [self world trace].
        rewrite <- !app_assoc.
        split; [reflexivity|]. split; [simpl; lia|].
        constructor; [by exists d|constructor]. }
    erewrite run_bind_ok by (by apply run_call_ok).
    erewrite run_bind_raise
      by (apply run_get_attr_none; cbn [self world trace]; congruence).
    eexists _, w2, [Call (Desktop_release d)]. cbn [self world trace].
    rewrite <- !app_assoc.
    split; [reflexivity|]. split; [simpl; lia|].
    constructor; [by exists d|constructor].
Qed.

Lemma connect_design_failure_teardown_witness :
  let ansys := Scenario.recording (Fake.tool Fake.no_such_design) in
  let s0 := mkState (set_design_name (Some "Design7") blank) [] [] in
  exists s1 s2 e,
    connect_project ansys s0 = (Ok tt, s1) /\
    connect_design ansys None s1 = (Raise e, s2) /\
    connect ansys s0
    = (connect_setup ansys;; connect_finalize ansys)
        (mkState (self s2)
           [Project_release 1; Desktop_release 2; App_release 3; Ansys_release]
           (trace s2 ++ Printed e :: release_order 1 2 3)).
Proof.
  intros ansys s0.
  set (s1 := (connect_project ansys s0).2).
  set (s2 := (connect_design ansys None s1).2).
  exists s1, s2, (Exception DesignHint (ToolError "no such design")).
  split; [vm_compute; reflexivity|]. split; [vm_compute; reflexivity|].
  destruct (connect_design_failure_teardown ansys s0 s1 s2
              (Exception DesignHint (ToolError "no such design")) 1) as (H & _).
  - vm_compute. reflexivity.
  - vm_compute. reflexivity.
  - vm_compute. reflexivity.
  - destruct (H 2 3 (Ok tt)
                [Project_release 1; Desktop_release 2; App_release 3; Ansys_release]
                4) as (_ & _ & _ & Hc).
    + vm_compute. reflexivity.
    + vm_compute. reflexivity.
    + vm_compute. reflexivity.
    + exact Hc.
Defined.


(** ** [get_setup] and [connect_setup] *)

(** A [None] name: [get_setup] returns [None] at once and touches
    nothing. *)
Lemma get_setup_null_name {W} (ansys : Ansys W) (s : State W) :
  get_setup ansys None s = (Ok None, s).
Proof. reflexivity. Qed.

(** A name the design resolves: the handle and its resolved name are
    stored and the handle is returned. *)
Lemma get_setup_resolved {W} (ansys : Ansys W) (s : State W) d name st n w w' :
  design (self s) = Some d ->
  design_get_setup ansys d name (world s) = (Ok (Some st), w) ->
  setup_get_name ansys st w = (Ok n, w') ->
  get_setup ansys (Some name) s
  = (Ok (Some st),
     mkState (set_setup_name (Some n) (set_setup (Some st) (self s))) w'
       (trace s ++ [Call (Design_get_setup d name); Call (Setup_name st);
                    LogInfo (OpenedSetup (Some n))])).
Proof.
  intros Hd E En. unfold get_setup.
  repeat (run; rewrite ?Hd).
  erewrite run_bind_ok by (by apply run_call_ok).
  run. erewrite run_bind_ok by (by apply run_call_ok).
  run. reflexivity.
Qed.

(** C2 (the code departs from the claim).  When the design answers
    [None] for the name, [get_setup] logs the error and then reads
    [self.setup.name] on the [None] it has just stored: the call raises
    [AttributeError] instead of returning [None]. *)
Theorem get_setup_unresolved_raises {W} (ansys : Ansys W) (s : State W) d name w :
  design (self s) = Some d ->
  design_get_setup ansys d name (world s) = (Ok None, w) ->
  get_setup ansys (Some name) s
  = (Raise (AttributeError "NoneType" "name"),
     mkState (set_setup None (self s)) w
       (trace s ++ [Call (Design_get_setup d name);
                    LogError (CouldNotRetrieveSetup name)])).
Proof.
  intros Hd E. unfold get_setup.
  repeat (run; rewrite ?Hd).
  erewrite run_bind_ok by (by apply run_call_ok).
  run. reflexivity.
Qed.

Lemma get_setup_unresolved_raises_witness :
  get_setup (Fake.tool Fake.no_such_setup) (Some "Setup1")
    (mkState Fake.connected tt [])
  = (Raise (AttributeError "NoneType" "name"),
     mkState (set_setup None Fake.connected) tt
       [Call (Design_get_setup 4 "Setup1");
        LogError (CouldNotRetrieveSetup "Setup1")]).
Proof.
  apply (get_setup_unresolved_raises (Fake.tool Fake.no_such_setup)
           (mkState Fake.connected tt []) 4 "Setup1" tt).
  - reflexivity.
  - reflexivity.
Defined.

(** The comparisons of [connect_setup] when the solution type is none of
    the four: four reads of the attribute, no creation call, and the
    local [setup] is [None]. *)
Lemma default_setup_unrecognized {W} (ansys : Ansys W) (s : State W) d st :
  design (self s) = Some d ->
  (forall w, design_get_solution_type ansys d w = (Ok st, w)) ->
  st ∉ ["Eigenmode"; "DrivenModal"; "DrivenTerminal"; "Q3D"] ->
  default_setup ansys s
  = (Ok None,
     mkState (self s) (world s)
       (trace s ++ [Call (Design_solution_type d); Call (Design_solution_type d);
                    Call (Design_solution_type d); Call (Design_solution_type d)])).
Proof.
  intros Hd Hst Hn. unfold default_setup, self_design_solution_type.
  assert (st ≠ "Eigenmode" /\ st ≠ "DrivenModal" /\ st ≠ "DrivenTerminal" /\ st ≠ "Q3D")
    as (N1 & N2 & N3 & N4).
  { repeat split; intros ->; apply Hn; set_solver. }
  do 4 (repeat (run; rewrite ?Hd);
        erewrite run_bind_ok by (apply run_call_ok, Hst);
        rewrite ?(bool_decide_eq_false_2 _ N1), ?(bool_decide_eq_false_2 _ N2),
          ?(bool_decide_eq_false_2 _ N3), ?(bool_decide_eq_false_2 _ N4)).
  run. reflexivity.
Qed.

(** The recognized solution types: each one leads to exactly its own
    creation call, after as many reads of the attribute as comparisons. *)
Lemma default_setup_eigenmode {W} (ansys : Ansys W) (s : State W) d :
  design (self s) = Some d ->
  (forall w, design_get_solution_type ansys d w = (Ok "Eigenmode", w)) ->
  default_setup ansys s
  = call (Design_create_em_setup d) (design_create_em_setup ansys d)
      (mkState (self s) (world s)
         (trace s ++ [Call (Design_solution_type d);
                      LogWarning (CreatingDefaultSetup "eigenmode")])).
Proof.
  intros Hd Hst. unfold default_setup, self_design_solution_type.
  repeat (run; rewrite ?Hd).
  erewrite run_bind_ok by (apply run_call_ok, Hst).
  rewrite (bool_decide_eq_true_2 ("Eigenmode" = "Eigenmode") eq_refl).
  repeat (run; rewrite ?Hd). reflexivity.
Qed.

Lemma default_setup_driven_modal {W} (ansys : Ansys W) (s : State W) d :
  design (self s) = Some d ->
  (forall w, design_get_solution_type ansys d w = (Ok "DrivenModal", w)) ->
  default_setup ansys s
  = call (Design_create_dm_setup d) (design_create_dm_setup ansys d)
      (mkState (self s) (world s)
         (trace s ++ [Call (Design_solution_type d); Call (Design_solution_type d);
                      LogWarning (CreatingDefaultSetup "driven modal")])).
Proof.
  intros Hd Hst. unfold default_setup, self_design_solution_type.
  do 2 (repeat (run; rewrite ?Hd);
        erewrite run_bind_ok by (apply run_call_ok, Hst);
        rewrite ?(bool_decide_eq_false_2 ("DrivenModal" = "Eigenmode")) by discriminate).
  rewrite (bool_decide_eq_true_2 ("DrivenModal" = "DrivenModal") eq_refl).
  repeat (run; rewrite ?Hd). reflexivity.
Qed.

Lemma default_setup_driven_terminal {W} (ansys : Ansys W) (s : State W) d :
  design (self s) = Some d ->
  (forall w, design_get_solution_type ansys d w = (Ok "DrivenTerminal", w)) ->
  default_setup ansys s
  = call (Design_create_dt_setup d) (design_create_dt_setup ansys d)
      (mkState (self s) (world s)
         (trace s ++ [Call (Design_solution_type d); Call (Design_solution_type d);
                      Call (Design_solution_type d);
                      LogWarning (CreatingDefaultSetup "driven terminal")])).
Proof.
  intros Hd Hst. unfold default_setup, self_design_solution_type.
  do 3 (repeat (run; rewrite ?Hd);
        erewrite run_bind_ok by (apply run_call_ok, Hst);
        rewrite ?(bool_decide_eq_false_2 ("DrivenTerminal" = "Eigenmode")),
          ?(bool_decide_eq_false_2 ("DrivenTerminal" = "DrivenModal")) by discriminate).
  rewrite (bool_decide_eq_true_2 ("DrivenTerminal" = "DrivenTerminal") eq_refl).
  repeat (run; rewrite ?Hd). reflexivity.
Qed.

Lemma default_setup_q3d {W} (ansys : Ansys W) (s : State W) d :
  design (self s) = Some d ->
  (forall w, design_get_solution_type ansys d w = (Ok "Q3D", w)) ->
  default_setup ansys s
  = call (Design_create_q3d_setup d) (design_create_q3d_setup ansys d)
      (mkState (self s) (world s)
         (trace s ++ [Call (Design_solution_type d); Call (Design_solution_type d);
                      Call (Design_solution_type d); Call (Design_solution_type d);
                      LogWarning (CreatingDefaultSetup "Q3D")])).
Proof.
  intros Hd Hst. unfold default_setup, self_design_solution_type.
  do 4 (repeat (run; rewrite ?Hd);
        erewrite run_bind_ok by (apply run_call_ok, Hst);
        rewrite ?(bool_decide_eq_false_2 ("Q3D" = "Eigenmode")),
          ?(bool_decide_eq_false_2 ("Q3D" = "DrivenModal")),
          ?(bool_decide_eq_false_2 ("Q3D" = "DrivenTerminal")) by discriminate).
  rewrite (bool_decide_eq_true_2 ("Q3D" = "Q3D") eq_refl).
  repeat (run; rewrite ?Hd). reflexivity.
Qed.

(** C3 (the code departs from the claim).  On a design without setups
    whose solution type is none of the four, [connect_setup] creates no
    default setup, but it does not return: reading [setup.name] on the
    [None] raises, and the exception is logged and re-raised with the
    setup hint.  The attributes are left as they were. *)
Theorem connect_setup_unrecognized_raises {W} (ansys : Ansys W) (s : State W) d st w :
  design (self s) = Some d ->
  design_get_setup_names ansys d (world s) = (Ok [], w) ->
  (forall w', design_get_solution_type ansys d w' = (Ok st, w')) ->
  st ∉ ["Eigenmode"; "DrivenModal"; "DrivenTerminal"; "Q3D"] ->
  connect_setup ansys s
  = (Raise (Exception SetupHint (AttributeError "NoneType" "name")),
     mkState (self s) w
       (trace s ++ [Call (Design_get_setup_names d); LogWarning NoDesignSetupDetected;
                    Call (Design_solution_type d); Call (Design_solution_type d);
                    Call (Design_solution_type d); Call (Design_solution_type d);
                    LogError (OriginalError (AttributeError "NoneType" "name"))])).
Proof.
  intros Hd E Hst Hn. unfold connect_setup.
  repeat (run; rewrite ?Hd).
  erewrite run_try_raise.
  2:{ repeat (run; rewrite ?Hd).
      erewrite run_bind_ok by (by apply run_call_ok).
      run. erewrite run_bind_ok
        by (apply (default_setup_unrecognized ansys _ d st); [exact Hd|exact Hst|exact Hn]).
      run. reflexivity. }
  run. reflexivity.
Qed.

Lemma connect_setup_unrecognized_raises_witness :
  let o := set_setup_name None (set_setup None Fake.connected) in
  connect_setup (Fake.tool Fake.transient) (mkState o tt [])
  = (Raise (Exception SetupHint (AttributeError "NoneType" "name")),
     mkState o tt
       [Call (Design_get_setup_names 4); LogWarning NoDesignSetupDetected;
        Call (Design_solution_type 4); Call (Design_solution_type 4);
        Call (Design_solution_type 4); Call (Design_solution_type 4);
        LogError (OriginalError (AttributeError "NoneType" "name"))]).
Proof.
  apply (connect_setup_unrecognized_raises (Fake.tool Fake.transient)
           (mkState (set_setup_name None (set_setup None Fake.connected)) tt [])
           4 "Transient" tt).
  - reflexivity.
  - reflexivity.
  - intros []. reflexivity.
  - apply (bool_decide_unpack _). vm_compute. exact I.
Defined.


(** ** The dissipative configuration *)

Section Dissipative.
Context {W : Type} (ansys : Ansys W).

Lemma diss_opt_not_pinfo key : key ∈ diss_opt -> key ≠ "pinfo".
Proof.
  unfold diss_opt. rewrite !elem_of_cons, elem_of_nil.
  intros [->|[->|[->|[->|[]]]]]; discriminate.
Qed.

Lemma getitem_pinfo (s : State W) v :
  dissipative (self s) !! "pinfo" = Some v ->
  (__getitem__ "pinfo" : M W pyval) s = (Ok v, s).
Proof.
  intros H. unfold __getitem__.
  rewrite (bool_decide_eq_true_2 ("pinfo" = "pinfo") eq_refl), orb_true_r.
  cbn [negb]. run. rewrite H. reflexivity.
Qed.

(** An unknown key is refused before anything is read or written. *)
Lemma setitem_unknown_key (s : State W) key value :
  key ∉ diss_opt -> key ≠ "pinfo" ->
  __setitem__ ansys key value s = (Raise (ValueError (NoSuchParameter key)), s).
Proof.
  intros H1 H2. unfold __setitem__.
  rewrite (bool_decide_eq_false_2 _ H1), (bool_decide_eq_false_2 _ H2). reflexivity.
Qed.

(** On one of the four slots, a value that is neither [None] nor a list
    or dictionary of strings is refused before anything is written. *)
Lemma setitem_bad_value (s : State W) key value :
  key ∈ diss_opt -> value ≠ VNone ->
  is_list_or_dict value && all_str value = false ->
  __setitem__ ansys key value s = (Raise (ValueError (MustBeListOfStrings key)), s).
Proof.
  intros H1 H2 H3. unfold __setitem__.
  rewrite (bool_decide_eq_true_2 _ H1), (bool_decide_eq_true_2 _ H2),
    (bool_decide_eq_true_2 _ (diss_opt_not_pinfo key H1)).
  destruct (is_list_or_dict value), (all_str value); try discriminate H3; reflexivity.
Qed.

(** The back-reference key takes any value, unchecked. *)
Lemma setitem_pinfo (s : State W) value :
  __setitem__ ansys "pinfo" value s
  = (Ok tt, mkState (set_dissipative (<["pinfo" := value]> (dissipative (self s))) (self s))
              (world s) (trace s)).
Proof. reflexivity. Qed.

(** While no session is attached, a slot takes [None] and any list or
    dictionary of strings without looking at the model. *)
Lemma setitem_detached (s : State W) key value :
  key ∈ diss_opt ->
  dissipative (self s) !! "pinfo" = Some VNone ->
  value = VNone \/ is_list_or_dict value && all_str value = true ->
  __setitem__ ansys key value s
  = (Ok tt, mkState (set_dissipative (<[key := value]> (dissipative (self s))) (self s))
              (world s) (trace s)).
Proof.
  intros H1 Hp Hv. unfold __setitem__.
  rewrite (bool_decide_eq_true_2 _ H1),
    (bool_decide_eq_true_2 _ (diss_opt_not_pinfo key H1)).
  cbn [orb negb andb].
  assert ((negb (is_list_or_dict value) || negb (all_str value))
          && bool_decide (value ≠ VNone) = false) as ->.
  { destruct Hv as [-> | Hv]; [reflexivity|].
    apply andb_true_iff in Hv as [-> ->]. reflexivity. }
  rewrite run_assoc. erewrite run_bind_ok by (by apply getitem_pinfo).
  run. reflexivity.
Qed.

(** With the session attached, the names of a list are looked up in the
    object names queried at that moment; the first one (here the head of
    the list) that is missing makes the write fail. *)
Lemma setitem_attached_unknown_name (s s1 : State W) key x l names :
  key ∈ diss_opt ->
  dissipative (self s) !! "pinfo" = Some VPinfo ->
  forallb is_str l = true ->
  get_all_object_names ansys s = (Ok names, s1) ->
  x ∉ names ->
  __setitem__ ansys key (VList (AStr x :: l)) s
  = (Raise (ValueError (NotAnObject (AStr x))), s1).
Proof.
  intros H1 Hp Hl En Hx. unfold __setitem__.
  rewrite (bool_decide_eq_true_2 _ H1),
    (bool_decide_eq_true_2 _ (diss_opt_not_pinfo key H1)).
  cbn [orb negb andb is_list_or_dict all_str elements_of forallb is_str].
  rewrite Hl. cbn [orb negb andb].
  rewrite run_assoc. erewrite run_bind_ok by (by apply getitem_pinfo).
  cbn [hasattr_design iter elements_of]. run. cbn [for_].
  rewrite !run_assoc. erewrite run_bind_ok by (by apply getitem_pinfo).
  rewrite !run_assoc. erewrite run_bind_ok by exact En.
  cbn [atom_in]. rewrite (bool_decide_eq_false_2 _ Hx). reflexivity.
Qed.

(** A write that raises has changed no attribute. *)
Lemma setitem_raise_no_mutation (s : State W) key value e s' :
  __setitem__ ansys key value s = (Raise e, s') -> self s' = self s.
Proof.
  unfold __setitem__.
  destruct (negb _); [by intros [= <- <-]|].
  destruct (_ && _); [by intros [= <- <-]|].
  rewrite run_bind.
  match goal with |- context [match ?m s with _ => _ end] =>
    pose proof (preserves_run (fun o => o = self s) m s) as F;
    destruct (m s) as [[[]|e1] s1] eqn:E
  end.
  - discriminate.
  - intros [= <- <-]. eapply F; [|reflexivity|reflexivity].
    pose proof (getitem_preserves (W:=W) (fun o => o = self s)).
    pose proof (get_all_object_names_preserves ansys (fun o => o = self s)).
    unfold iter. frame.
Qed.
End Dissipative.

(** C7 (the code departs from the claim).  Once the owning session is
    attached as back-reference, writing [None] to any of the four slots
    is not accepted: the loop over the supplied names iterates over
    [None], and the write raises [TypeError] (nothing is written). *)
Theorem setitem_none_attached_raises {W} (ansys : Ansys W) (s : State W) key :
  key ∈ diss_opt ->
  dissipative (self s) !! "pinfo" = Some VPinfo ->
  __setitem__ ansys key VNone s = (Raise (TypeError "object is not iterable"), s).
Proof.
  intros H1 Hp. unfold __setitem__.
  rewrite (bool_decide_eq_true_2 _ H1),
    (bool_decide_eq_true_2 _ (diss_opt_not_pinfo key H1)).
  cbn [orb negb andb is_list_or_dict].
  rewrite (bool_decide_eq_false_2 (VNone ≠ VNone)) by (intros H; by apply H).
  rewrite run_assoc. erewrite run_bind_ok by (by apply getitem_pinfo).
  reflexivity.
Qed.

Lemma setitem_none_attached_raises_witness :
  exists s,
    __init__ (Fake.tool Fake.good) id None None None None VNone VNone VNone VNone true
      (fresh tt) = (Ok tt, s) /\
    __setitem__ (Fake.tool Fake.good) "seams" VNone s
    = (Raise (TypeError "object is not iterable"), s).
Proof.
  eexists. split; [vm_compute; reflexivity|].
  apply (setitem_none_attached_raises (Fake.tool Fake.good)).
  - apply (bool_decide_unpack _). vm_compute. exact I.
  - vm_compute. reflexivity.
Defined.


(** ** The constructor *)

Lemma detached_session_stable : session_stable detached.
Proof.
  unfold session_stable, stable, detached.
  repeat apply conj; intros v o (H1 & H2 & H3); repeat apply conj; assumption.
Qed.

Lemma detached_slot_write key value o :
  key ∈ diss_opt -> detached o ->
  detached (set_dissipative (<[key := value]> (dissipative o)) o).
Proof.
  intros Hk (H1 & H2 & H3). repeat split; [done..|].
  cbn [dissipative set_dissipative].
  rewrite lookup_insert_ne; [done|]. by apply diss_opt_not_pinfo.
Qed.

(** C9, as stated, fails: built with [do_connect=False], the manager has
    empty junction and port tables but the back-reference of its
    dissipative configuration is [None], not the manager. *)
Lemma init_back_reference_counterexample :
  exists s,
    __init__ (Fake.tool Fake.good) id None None None None VNone VNone VNone VNone false
      (fresh tt) = (Ok tt, s) /\
    junctions (self s) = [] /\ ports (self s) = [] /\
    dissipative (self s) !! "pinfo" = Some VNone /\
    dissipative (self s) !! "pinfo" <> Some VPinfo.
Proof.
  eexists. split; [vm_compute; reflexivity|].
  split; [reflexivity|]. split; [reflexivity|].
  split; [vm_compute; reflexivity|]. vm_compute. discriminate.
Qed.

(** C9, amended.  Every construction that returns leaves empty junction
    and port tables and a dissipative configuration whose back-reference
    is the new manager when [do_connect] is true (it is bound after
    [connect()] has returned) and [None] when [do_connect] is false. *)
Theorem init_tables_and_back_reference {W} (ansys : Ansys W) (str_Path : string -> string)
    project_path_arg project_name_arg design_name_arg setup_name_arg
    dielectrics_bulk dielectric_surfaces resistive_surfaces seams
    (do_connect : bool) (s s' : State W) :
  __init__ ansys str_Path project_path_arg project_name_arg design_name_arg
    setup_name_arg dielectrics_bulk dielectric_surfaces resistive_surfaces seams
    do_connect s = (Ok tt, s') ->
  junctions (self s') = [] /\ ports (self s') = [] /\
  dissipative (self s') !! "pinfo" = Some (if do_connect then VPinfo else VNone).
Proof.
  unfold __init__. intros H.
  do 7 (apply bind_ok_inv in H as (? & ? & ->%modify_inv & H)).
  apply bind_ok_inv in H as (? & s1 & E1 & H).
  assert (detached (self s1)) as D1.
  { unfold Dissipative__init__ in E1.
    apply bind_ok_inv in E1 as (? & s0 & E0 & E1).
    rewrite setitem_pinfo in E0. injection E0 as _ <-.
    eapply preserves_run; [|exact E1|].
    - apply preserves_for_elem. intros opt Hopt.
      apply setitem_preserves. intros o. by apply detached_slot_write.
    - repeat apply conj; [reflexivity..|]. cbn. by rewrite lookup_insert_eq. }
  apply bind_ok_inv in H as (? & s2 & E2 & H).
  assert (detached (self s2)) as D2.
  { eapply preserves_run; [|exact E2|exact D1].
    apply preserves_for_elem. intros opt Hopt.
    apply setitem_preserves. intros o. by apply detached_slot_write. }
  do 5 (apply bind_ok_inv in H as (? & ? & ->%modify_inv & H)).
  destruct do_connect.
  - apply bind_ok_inv in H as (? & s3 & E3 & H).
    assert (detached (self s3)) as (J & Po & _).
    { eapply preserves_run; [|exact E3|].
      - apply connect_preserves, detached_session_stable.
      - exact D2. }
    rewrite setitem_pinfo in H. injection H as <-.
    repeat apply conj; [exact J|exact Po|]. cbn. by rewrite lookup_insert_eq.
  - injection H as <-. exact D2.
Qed.

Lemma init_tables_and_back_reference_witness :
  exists s,
    __init__ (Fake.tool Fake.good) id None None None None VNone VNone VNone VNone true
      (fresh tt) = (Ok tt, s) /\
    junctions (self s) = [] /\ ports (self s) = [] /\
    dissipative (self s) !! "pinfo" = Some VPinfo.
Proof.
  eexists. split; [vm_compute; reflexivity|].
  eapply (init_tables_and_back_reference (Fake.tool Fake.good) id
            None None None None VNone VNone VNone VNone true (fresh tt)).
  vm_compute. reflexivity.
Defined.

(** [Fake.connected] is what the constructor builds on [Fake.good]. *)
Lemma init_on_good :
  exists t,
    __init__ (Fake.tool Fake.good) id None None None None VNone VNone VNone VNone true
      (fresh tt)
    = (Ok tt, mkState Fake.connected tt t).
Proof. eexists. vm_compute. reflexivity. Qed.


(** ** [validate_junction_info] *)

Section Validate.
Context {W : Type} (ansys : Ansys W).

(** *** The loop against the specification's list of checks *)

Lemma first_failure_cons vars objs j js :
  first_failure vars objs (j :: js)
  = match head (omap id (junction_checks vars objs j)) with
    | Some e => Some e
    | None => first_failure vars objs js
    end.
Proof.
  unfold first_failure. cbn [mbind list_bind].
  change (mbind (junction_checks vars objs) js) with (js ≫= junction_checks vars objs).
  rewrite omap_app.
  destruct (omap id (junction_checks vars objs j)); reflexivity.
Qed.

Lemma check_field_none msg universe jjnm jj field :
  check_field msg universe jjnm jj field = None <->
  exists v, jj !! field = Some v /\ v ∈ universe.
Proof.
  unfold check_field. destruct (jj !! field) as [v|].
  - destruct (bool_decide (v ∈ universe)) eqn:E.
    + apply bool_decide_eq_true in E. split; [|reflexivity].
      intros _. by exists v.
    + apply bool_decide_eq_false in E. split; [discriminate|].
      intros (v' & [= <-] & Hv). contradiction.
  - split; [discriminate|]. intros (v' & [=] & _).
Qed.

Lemma junction_checks_none vars objs j :
  head (omap id (junction_checks vars objs j)) = None <-> junction_valid vars objs j.
Proof.
  unfold junction_valid.
  rewrite <- (check_field_none JunctionVariableUnknown vars j.1 j.2),
    <- !(check_field_none JunctionObjectUnknown objs j.1 j.2).
  unfold junction_checks.
  destruct (check_field JunctionVariableUnknown vars j.1 j.2 "Lj_variable");
    destruct (check_field JunctionObjectUnknown objs j.1 j.2 "rect");
    destruct (check_field JunctionObjectUnknown objs j.1 j.2 "line");
    cbn; intuition congruence.
Qed.

Lemma first_failure_none vars objs js :
  first_failure vars objs js = None <-> Forall (junction_valid vars objs) js.
Proof.
  induction js as [|j js IH].
  - split; [constructor|reflexivity].
  - rewrite first_failure_cons, Forall_cons, <- IH, <- junction_checks_none.
    destruct (head _); split; try done.
    + intros [? _]. discriminate.
    + intros [_ ?]. assumption.
Qed.

Lemma first_failure_some vars objs js e :
  first_failure vars objs js = Some e ->
  exists js1 j js2,
    js = (js1 ++ j :: js2)%list /\
    Forall (junction_valid vars objs) js1 /\
    head (omap id (junction_checks vars objs j)) = Some e.
Proof.
  induction js as [|j js IH]; [discriminate|].
  rewrite first_failure_cons.
  destruct (head (omap id (junction_checks vars objs j))) as [e'|] eqn:E.
  - intros [= ->]. exists [], j, js. repeat apply conj; [reflexivity|constructor|exact E].
  - intros H. destruct (IH H) as (js1 & j' & js2 & -> & F & Hj).
    exists (j :: js1), j', js2. repeat apply conj; [reflexivity| |exact Hj].
    constructor; [|exact F]. by apply junction_checks_none.
Qed.

(** The body of the loop: the three checks of one junction; the state is
    not touched. *)
Lemma validate_body vars objs jjnm jj (t : State W) :
  (lj ← dict_getitem jj "Lj_variable";
   (if bool_decide (lj ∈ vars) then mret tt
    else
      lj ← dict_getitem jj "Lj_variable";
      raise (AssertionError (JunctionVariableUnknown jjnm "Lj_variable" lj)));;
   for_ ["rect"; "line"] (fun name =>
     v ← dict_getitem jj name;
     if bool_decide (v ∈ objs) then mret tt
     else
       v ← dict_getitem jj name;
       raise (AssertionError (JunctionObjectUnknown jjnm name v)))) t
  = (outcome (head (omap id (junction_checks vars objs (jjnm, jj)))), t).
Proof.
  unfold junction_checks, check_field, dict_getitem. cbn [fst snd for_].
  destruct (jj !! "Lj_variable") as [v1|]; [|reflexivity].
  rewrite run_ret. destruct (bool_decide (v1 ∈ vars)); [|reflexivity].
  rewrite run_ret.
  destruct (jj !! "rect") as [v2|]; [|reflexivity].
  rewrite run_assoc, run_ret. destruct (bool_decide (v2 ∈ objs)); [|reflexivity].
  rewrite run_ret.
  destruct (jj !! "line") as [v3|]; [|reflexivity].
  rewrite run_assoc, run_ret. destruct (bool_decide (v3 ∈ objs)); reflexivity.
Qed.

Lemma validate_loop vars objs js (t : State W) :
  for_ js (fun '(jjnm, jj) =>
    lj ← dict_getitem jj "Lj_variable";
    (if bool_decide (lj ∈ vars) then mret tt
     else
       lj ← dict_getitem jj "Lj_variable";
       raise (AssertionError (JunctionVariableUnknown jjnm "Lj_variable" lj)));;
    for_ ["rect"; "line"] (fun name =>
      v ← dict_getitem jj name;
      if bool_decide (v ∈ objs) then mret tt
      else
        v ← dict_getitem jj name;
        raise (AssertionError (JunctionObjectUnknown jjnm name v)))) t
  = (outcome (first_failure vars objs js), t).
Proof.
  induction js as [|[jjnm jj] js IH]; [reflexivity|].
  cbn [for_]. rewrite run_bind, first_failure_cons.
  match goal with |- context [match ?x with _ => _ end] =>
    replace x with (outcome (head (omap id (junction_checks vars objs (jjnm, jj)))), t)
      by exact (eq_sym (validate_body vars objs jjnm jj t))
  end.
  destruct (head _); [reflexivity|]. exact IH.
Qed.

(** [validate_junction_info] is: query the two universes, then run the
    list of checks up to its first failure. *)
Lemma validate_run (s : State W) :
  validate_junction_info ansys s
  = match get_all_variables_names ansys s with
    | (Ok vars, s1) =>
        match get_all_object_names ansys s1 with
        | (Ok objs, s2) => (outcome (first_failure vars objs (junctions (self s2))), s2)
        | (Raise e, s2) => (Raise e, s2)
        end
    | (Raise e, s1) => (Raise e, s1)
    end.
Proof.
  unfold validate_junction_info. rewrite run_bind.
  destruct (get_all_variables_names ansys s) as [[vars|e] s1]; [|reflexivity].
  rewrite run_bind.
  destruct (get_all_object_names ansys s1) as [[objs|e] s2]; [|reflexivity].
  rewrite run_get. apply validate_loop.
Qed.

(** *** The queries do not look at the junction table *)

Lemma blind_ret {A} (a : A) : junction_blind (mret a : M W A).
Proof. intros js s. reflexivity. Qed.

Lemma blind_bind {A B} (m : M W A) (k : A -> M W B) :
  junction_blind m -> (forall a, junction_blind (k a)) -> junction_blind (m ≫= k).
Proof.
  intros Hm Hk js s. rewrite !run_bind, Hm.
  destruct (m s) as [[a|e] s1]; cbn [fst snd]; [apply Hk|reflexivity].
Qed.

Lemma blind_call {A} c (f : W -> Res A * W) : junction_blind (call c f).
Proof. intros js s. unfold call. cbn. destruct (f (world s)). reflexivity. Qed.

Lemma blind_handle {H} (f : ProjectInfo -> option H) attr :
  (forall js o, f (set_junctions js o) = f o) ->
  junction_blind (get f ≫= attr_of attr : M W H).
Proof.
  intros Hf js s. rewrite !run_get. cbn [self with_junctions]. rewrite Hf.
  destruct (f (self s)); reflexivity.
Qed.

Lemma get_all_variables_names_blind : junction_blind (get_all_variables_names ansys).
Proof.
  unfold get_all_variables_names.
  apply blind_bind; [by apply blind_handle|intros p].
  apply blind_bind; [apply blind_call|intros pv].
  apply blind_bind; [by apply blind_handle|intros d].
  apply blind_bind; [apply blind_call|intros dv].
  apply blind_ret.
Qed.

Lemma objects_in_groups_blind groups acc :
  junction_blind (objects_in_groups ansys groups acc).
Proof.
  revert acc. induction groups as [|g groups IH]; intros acc; cbn [objects_in_groups].
  - apply blind_ret.
  - apply blind_bind; [by apply blind_handle|intros d].
    apply blind_bind; [apply blind_call|intros m].
    apply blind_bind; [apply blind_call|intros l].
    apply IH.
Qed.

Lemma get_all_object_names_blind : junction_blind (get_all_object_names ansys).
Proof. apply objects_in_groups_blind. Qed.

Lemma junction_checks_same_but_Cj vars objs j j' :
  same_but_Cj j j' -> junction_checks vars objs j = junction_checks vars objs j'.
Proof.
  intros [Hn Hf]. unfold junction_checks, check_field.
  rewrite Hn, !Hf by discriminate. reflexivity.
Qed.

Lemma first_failure_same_but_Cj vars objs js js' :
  Forall2 same_but_Cj js js' -> first_failure vars objs js = first_failure vars objs js'.
Proof.
  induction 1 as [|j j' js js' Hj _ IH]; [reflexivity|].
  rewrite !first_failure_cons, (junction_checks_same_but_Cj vars objs j j' Hj), IH.
  reflexivity.
Qed.
End Validate.


(** C8.  [validate_junction_info()] queries the variable names (those of
    the project followed by those of the design) and the object names,
    then goes through the registered junctions in table order and, for
    each, checks the inductance variable against the variable names and
    the rectangle and the line against the object names.  It returns
    exactly when every junction passes; otherwise it raises the error of
    the first failing check, which carries the junction's name and the
    field (see [check_field]), every junction before it being valid and
    no later check being made. *)
Theorem validate_junction_info_first_failure {W} (ansys : Ansys W) (s : State W)
    p d pv dv w1 w2 objs s2 :
  project (self s) = Some p ->
  design (self s) = Some d ->
  project_get_variable_names ansys p (world s) = (Ok pv, w1) ->
  design_get_variable_names ansys d w1 = (Ok dv, w2) ->
  get_all_object_names ansys
    (mkState (self s) w2
       (trace s ++ [Call (Project_get_variable_names p);
                    Call (Design_get_variable_names d)]))
  = (Ok objs, s2) ->
  let vars := (pv ++ dv)%list in
  let js := junctions (self s) in
  validate_junction_info ansys s = (outcome (first_failure vars objs js), s2) /\
  (first_failure vars objs js = None <-> Forall (junction_valid vars objs) js) /\
  (forall e,
     first_failure vars objs js = Some e ->
     exists js1 j js2,
       js = (js1 ++ j :: js2)%list /\
       Forall (junction_valid vars objs) js1 /\
       head (omap id (junction_checks vars objs j)) = Some e).
Proof.
  intros Hp Hd Ep Ed Eo vars js.
  split; [|split; [apply first_failure_none|apply first_failure_some]].
  rewrite validate_run.
  assert (get_all_variables_names ansys s
          = (Ok vars,
             mkState (self s) w2
               (trace s ++ [Call (Project_get_variable_names p);
                            Call (Design_get_variable_names d)]))) as ->.
  { unfold get_all_variables_names.
    repeat (run; rewrite ?Hp, ?Hd).
    erewrite run_bind_ok by (by apply run_call_ok).
    repeat (run; rewrite ?Hp, ?Hd).
    erewrite run_bind_ok by (by apply run_call_ok).
    run. reflexivity. }
  rewrite Eo.
  pose proof (preserves_run (fun o => junctions o = js) _ _ _ _
                (get_all_object_names_preserves ansys _) Eo eq_refl) as ->.
  reflexivity.
Qed.

Lemma validate_junction_info_first_failure_witness :
  exists s2,
    validate_junction_info (Fake.tool Fake.good)
      (mkState Fake.with_two_junctions tt [])
    = (Raise (AssertionError (JunctionObjectUnknown "j2" "rect" "jj_rect_2")), s2).
Proof.
  eexists.
  refine (eq_trans
    (proj1 (validate_junction_info_first_failure (Fake.tool Fake.good)
              (mkState Fake.with_two_junctions tt []) 1 4 [] ["Lj_1"] tt tt
              ["jj_rect_1"; "jj_line_1"] _ eq_refl eq_refl eq_refl eq_refl _)) _).
  - vm_compute. reflexivity.
  - vm_compute. reflexivity.
Defined.

(** Adding or changing the [Cj_variable] entry of a junction gives a
    junction that is the same but for that entry. *)
Lemma same_but_Cj_insert jjnm jj v :
  same_but_Cj (jjnm, jj) (jjnm, <["Cj_variable" := v]> jj).
Proof.
  split; [reflexivity|]. intros field H. cbn [snd].
  by rewrite lookup_insert_ne.
Qed.

(** C10.  [validate_junction_info()] never looks at the [Cj_variable]
    entry of a junction: on two junction tables that differ only in such
    entries (added, removed or changed) it makes the same calls, gives
    the same outcome (the same return or the same exception) and leaves
    the same state. *)
Theorem validate_junction_info_ignores_Cj {W} (ansys : Ansys W) (s : State W) js' :
  Forall2 same_but_Cj (junctions (self s)) js' ->
  validate_junction_info ansys (with_junctions js' s)
  = ((validate_junction_info ansys s).1,
     with_junctions js' (validate_junction_info ansys s).2).
Proof.
  intros H. rewrite !validate_run, get_all_variables_names_blind.
  pose proof (get_all_variables_names_preserves ansys
                (fun o => junctions o = junctions (self s)) s eq_refl) as J1.
  destruct (get_all_variables_names ansys s) as [[vars|e] s1]; [|reflexivity].
  cbn [fst snd] in *. rewrite get_all_object_names_blind.
  pose proof (get_all_object_names_preserves ansys
                (fun o => junctions o = junctions (self s)) s1 J1) as J2.
  destruct (get_all_object_names ansys s1) as [[objs|e] s2]; [|reflexivity].
  cbn [fst snd] in *. cbn [with_junctions self junctions set_junctions].
  rewrite J2, (first_failure_same_but_Cj vars objs _ _ H). reflexivity.
Qed.

Lemma validate_junction_info_ignores_Cj_witness :
  let ansys := Fake.tool Fake.good in
  let s := mkState Fake.with_one_junction tt [] in
  let js' := [("j1", <["Cj_variable" := "Cj_unknown"]>
                       (Fake.junction "Lj_1" "jj_rect_1" "jj_line_1"))] in
  (validate_junction_info ansys s).1 = Ok tt /\
  (validate_junction_info ansys (with_junctions js' s)).1 = Ok tt.
Proof.
  split; [vm_compute; reflexivity|].
  rewrite (validate_junction_info_ignores_Cj (Fake.tool Fake.good)
             (mkState Fake.with_one_junction tt [])).
  - vm_compute. reflexivity.
  - constructor; [apply same_but_Cj_insert|constructor].
Defined.

(** ** Reading a run backwards *)

(** Reduce the reads of attributes that have just been written. *)
Ltac fields :=
  cbn beta iota zeta delta
    [self world trace fst snd
     project_path project_name design_name setup_name junctions ports
     dissipative app desktop project design setup
     set_project_path set_project_name set_design_name set_setup_name
     set_junctions set_ports set_dissipative set_app set_desktop
     set_project set_design set_setup].

Section Inversion.
Context {W : Type}.

Lemma get_inv {A} (f : ProjectInfo -> A) (s : State W) a s' :
  (get f : M W A) s = (Ok a, s') -> a = f (self s) /\ s' = s.
Proof. by intros [= <- <-]. Qed.

Lemma handle_inv {H} (f : ProjectInfo -> option H) attr (s : State W) h s' :
  (get f ≫= attr_of attr : M W H) s = (Ok h, s') -> f (self s) = Some h /\ s' = s.
Proof.
  rewrite run_get. destruct (f (self s)) as [h'|]; [|discriminate].
  by intros [= <- <-].
Qed.

Lemma call_inv {A} c (f : W -> Res A * W) (s : State W) a s' :
  call c f s = (Ok a, s') ->
  exists w, f (world s) = (Ok a, w) /\ s' = mkState (self s) w (trace s ++ [Call c]).
Proof.
  unfold call. destruct (f (world s)) as [r w]. intros [= -> <-]. by exists w.
Qed.

Lemma emit_inv e (s : State W) a s' :
  (emit e : M W unit) s = (Ok a, s') ->
  s' = mkState (self s) (world s) (trace s ++ [e]).
Proof. by intros [= _ <-]. Qed.

Lemma ret_inv {A} (a : A) (s : State W) b s' :
  (mret a : M W A) s = (Ok b, s') -> b = a /\ s' = s.
Proof. by intros [= <- <-]. Qed.

(** A handler that raises: the protected part is what returned. *)
Lemma try_ok_inv {A} (m : M W A) (h : exn -> M W A) (s : State W) a s' :
  (forall e t, exists e' t', h e t = (Raise e', t')) ->
  try_except m h s = (Ok a, s') -> m s = (Ok a, s').
Proof.
  intros Hh. unfold try_except. destruct (m s) as [[a0|e] s1]; [done|].
  destruct (Hh e s1) as (e' & t' & ->). discriminate.
Qed.
End Inversion.

(** ** More on [connect_project] and [connect_design] *)

(** X1.  [connect_project] stores the three handles the tool returns.
    When no project comes back it returns without error and leaves the
    project name and path as they were given; when one does, both are
    overwritten with what the handle reports. *)
Theorem connect_project_outcome {W} (ansys : Ansys W) (s : State W) a d p w :
  load_ansys_project ansys (project_name (self s)) (project_path (self s)) (world s)
  = (Ok (a, d, p), w) ->
  let t := (trace s ++ [LogInfo ConnectingToAnsys;
                        Call (Load_ansys_project (project_name (self s))
                                (project_path (self s)))])%list in
  (p = None ->
   connect_project ansys s
   = (Ok tt, mkState (set_project None (set_desktop d (set_app a (self s)))) w t)) /\
  (forall h n path w1 w2,
     p = Some h ->
     project_get_name ansys h w = (Ok n, w1) ->
     project_get_path ansys h w1 = (Ok path, w2) ->
     connect_project ansys s
     = (Ok tt,
        mkState (set_project_path (Some path)
                   (set_project_name (Some n)
                      (set_project (Some h) (set_desktop d (set_app a (self s))))))
          w2 (t ++ [Call (Project_name h); Call (Project_get_path h)]))).
Proof.
  intros E t. split.
  - intros ->. unfold connect_project. run.
    erewrite run_bind_ok by (by apply run_call_ok). run. reflexivity.
  - intros h n path w1 w2 -> En Ep. unfold connect_project. run.
    erewrite run_bind_ok by (by apply run_call_ok). run.
    erewrite run_bind_ok by (by apply run_call_ok). run.
    erewrite run_bind_ok by (by apply run_call_ok). run.
    subst t. rewrite <- ?app_assoc. reflexivity.
Qed.

Lemma connect_project_outcome_witness :
  connect_project (Fake.tool Fake.no_project)
    (mkState (set_project_name (Some "MyProject") blank) tt [])
  = (Ok tt,
     mkState (set_project_name (Some "MyProject") blank) tt
       [LogInfo ConnectingToAnsys; Call (Load_ansys_project (Some "MyProject") None)]).
Proof.
  apply (connect_project_outcome (Fake.tool Fake.no_project)
           (mkState (set_project_name (Some "MyProject") blank) tt [])
           None None None tt); reflexivity.
Defined.

Section ConnectDesign.
Context {W : Type} (ansys : Ansys W).

(** The start of [connect_design]: the override and the list of designs. *)
Lemma connect_design_start (s : State W) arg p ds w :
  project (self s) = Some p ->
  project_get_designs ansys p (world s) = (Ok ds, w) ->
  connect_design ansys arg s
  = match ds with
    | [] =>
        (Ok tt,
         mkState (set_design None (set_design_name (effective_design_name arg (self s)) (self s)))
           w (trace s ++ [Call (Project_get_designs p); LogInfo (NoActiveDesign None)]))
    | _ :: _ =>
        (dn ← get design_name;
         match dn with
         | None =>
             try_except
               (p ← get project ≫= attr_of "get_active_design";
                d ← call (Project_get_active_design p) (project_get_active_design ansys p);
                modify (set_design d);;
                d ← get design ≫= attr_of "name";
                n ← call (Design_name d) (design_get_name ansys d);
                modify (set_design_name (Some n));;
                dn ← get design_name;
                d ← get design ≫= attr_of "solution_type";
                st ← call (Design_solution_type d) (design_get_solution_type ansys d);
                log_info (OpenedActiveDesign dn st))
               (fun e =>
                  modify (set_design None);;
                  modify (set_design_name None);;
                  log_info (NoActiveDesign (Some e)))
         | Some name =>
             try_except
               (p ← get project ≫= attr_of "get_design";
                d ← call (Project_get_design p name) (project_get_design ansys p name);
                modify (set_design d);;
                dn ← get design_name;
                d ← get design ≫= attr_of "solution_type";
                st ← call (Design_solution_type d) (design_get_solution_type ansys d);
                log_info (OpenedActiveDesign dn st))
               (fun e =>
                  log_error (OriginalError e);;
                  raise (Exception DesignHint e))
         end)
          (mkState (set_design_name (effective_design_name arg (self s)) (self s)) w
             (trace s ++ [Call (Project_get_designs p)]))
    end.
Proof.
  intros Hp E. unfold connect_design.
  destruct arg as [n|]; cbn [effective_design_name].
  - repeat (run; rewrite ?Hp).
    erewrite run_bind_ok by (by apply run_call_ok).
    destruct ds; [run|]; reflexivity.
  - repeat (run; rewrite ?Hp).
    erewrite run_bind_ok by (by apply run_call_ok).
    destruct ds; [run|].
    + by destruct s as [[] ? ?].
    + by destruct s as [[] ? ?].
Qed.
End ConnectDesign.

(** X2.  When the project reports no design, [connect_design] sets the
    design handle to [None] and returns: no design is looked up and
    nothing is raised, even when a design name was requested (the name is
    kept). *)
Theorem connect_design_no_designs {W} (ansys : Ansys W) (s : State W) arg p w :
  project (self s) = Some p ->
  project_get_designs ansys p (world s) = (Ok [], w) ->
  connect_design ansys arg s
  = (Ok tt,
     mkState (set_design None (set_design_name (effective_design_name arg (self s)) (self s)))
       w (trace s ++ [Call (Project_get_designs p); LogInfo (NoActiveDesign None)])).
Proof. intros Hp E. by rewrite (connect_design_start ansys s arg p [] w Hp E). Qed.

Lemma connect_design_no_designs_witness :
  exists s',
    connect_design (Fake.tool Scenario.no_designs) (Some "Design7")
      (mkState Scenario.project_only tt []) = (Ok tt, s') /\
    design (self s') = None /\ design_name (self s') = Some "Design7" /\
    trace s' = [Call (Project_get_designs 1); LogInfo (NoActiveDesign None)].
Proof.
  eexists. split.
  - apply (connect_design_no_designs (Fake.tool Scenario.no_designs)
             (mkState Scenario.project_only tt []) (Some "Design7") 1 tt); reflexivity.
  - repeat apply conj; reflexivity.
Defined.

(** X3.  Without a design name (none passed, none stored),
    [connect_design] never raises once the project has listed its
    designs: whatever goes wrong while adopting the active design is
    logged, and the design handle and the design name end up both set or
    both [None]. *)
Theorem connect_design_unnamed_never_raises {W} (ansys : Ansys W) (s : State W) p ds w :
  project (self s) = Some p ->
  project_get_designs ansys p (world s) = (Ok ds, w) ->
  design_name (self s) = None ->
  exists s',
    connect_design ansys None s = (Ok tt, s') /\
    (design (self s') = None <-> design_name (self s') = None).
Proof.
  intros Hp E Hn. rewrite (connect_design_start ansys s None p ds w Hp E).
  cbn [effective_design_name]. destruct ds as [|x ds].
  - eexists. split; [reflexivity|]. cbn. by rewrite Hn.
  - run. rewrite Hn. cbn iota. unfold try_except.
    match goal with |- context [match ?m ?t with _ => _ end] =>
      destruct (m t) as [[[]|e] s2] eqn:Em
    end.
    + eexists. split; [reflexivity|].
      apply bind_ok_inv in Em as (p' & s3 & [_ ->]%handle_inv & Em).
      apply bind_ok_inv in Em as (d & s3 & (w3 & _ & ->)%call_inv & Em).
      apply bind_ok_inv in Em as ([] & s3 & ->%modify_inv & Em).
      apply bind_ok_inv in Em as (d' & s3 & [Hd ->]%handle_inv & Em).
      apply bind_ok_inv in Em as (n & s3 & (w4 & _ & ->)%call_inv & Em).
      apply bind_ok_inv in Em as ([] & s3 & ->%modify_inv & Em).
      apply bind_ok_inv in Em as (dn & s3 & [_ ->]%get_inv & Em).
      apply bind_ok_inv in Em as (d'' & s3 & [_ ->]%handle_inv & Em).
      apply bind_ok_inv in Em as (st & s3 & (w5 & _ & ->)%call_inv & Em).
      apply emit_inv in Em as ->.
      cbn in Hd |- *. rewrite Hd. split; discriminate.
    + run. eexists. split; [reflexivity|]. done.
Qed.

Lemma connect_design_unnamed_never_raises_witness :
  exists s',
    connect_design (Fake.tool Scenario.no_active_design) None
      (mkState Scenario.project_only tt []) = (Ok tt, s') /\
    (design (self s') = None <-> design_name (self s') = None).
Proof.
  apply (connect_design_unnamed_never_raises (Fake.tool Scenario.no_active_design)
           (mkState Scenario.project_only tt []) 1 ["HFSSDesign1"] tt); reflexivity.
Defined.

(** X4.  Once the project has listed its designs, the only exception
    [connect_design] lets out is the design hint wrapped around the
    original failure: it is raised for a named design only, the original
    error is the last thing logged, and the design name is still the
    requested one. *)
Theorem connect_design_raises_wrapped {W} (ansys : Ansys W) (s s' : State W)
    arg p ds w e :
  project (self s) = Some p ->
  project_get_designs ansys p (world s) = (Ok ds, w) ->
  connect_design ansys arg s = (Raise e, s') ->
  exists e0 name,
    e = Exception DesignHint e0 /\
    effective_design_name arg (self s) = Some name /\
    design_name (self s') = Some name /\
    last (trace s') = Some (LogError (OriginalError e0)).
Proof.
  intros Hp E. rewrite (connect_design_start ansys s arg p ds w Hp E).
  destruct ds as [|x ds]; [discriminate|].
  run. destruct (effective_design_name arg (self s)) as [name|]; cbn iota.
  - unfold try_except.
    match goal with |- context [match ?m ?t with _ => _ end] =>
      pose proof (preserves_run (fun o => design_name o = Some name) m t) as F;
      destruct (m t) as [[[]|e0] s2] eqn:Em
    end; [discriminate|].
    run. intros [= <- <-]. exists e0, name.
    repeat apply conj; [reflexivity..| |].
    + cbn. eapply F; [|reflexivity|reflexivity].
      assert (forall v, stable (fun o => design_name o = Some name) (set_design v))
        by (intros v o H; exact H).
      frame.
    + cbn [trace]. apply last_snoc.
  - unfold try_except.
    match goal with |- context [match ?m ?t with _ => _ end] =>
      destruct (m t) as [[[]|e0] s2]
    end; [discriminate|]. run. discriminate.
Qed.

Lemma connect_design_raises_wrapped_witness :
  exists s',
    connect_design (Fake.tool Fake.no_such_design) (Some "Design7")
      (mkState Scenario.project_only tt [])
    = (Raise (Exception DesignHint (ToolError "no such design")), s') /\
    design_name (self s') = Some "Design7".
Proof.
  eexists. split; [vm_compute; reflexivity|].
  destruct (connect_design_raises_wrapped (Fake.tool Fake.no_such_design)
              (mkState Scenario.project_only tt [])
              (mkState (set_design_name (Some "Design7") Scenario.project_only) tt
                 [Call (Project_get_designs 1); Call (Project_get_design 1 "Design7");
                  LogError (OriginalError (ToolError "no such design"))])
              (Some "Design7") 1 ["HFSSDesign1"] tt
              (Exception DesignHint (ToolError "no such design")))
    as (e0 & name & _ & [= <-] & Hn & _); [reflexivity..|exact Hn].
Defined.

(** X5.  When the lookup of a named design raises, the design handle the
    session held before is left in place (it is not reset to [None]); the
    lookup is the only call made after the listing. *)
Theorem connect_design_failed_lookup_keeps_handle {W} (ansys : Ansys W) (s : State W)
    arg p x ds w name e w' :
  project (self s) = Some p ->
  project_get_designs ansys p (world s) = (Ok (x :: ds), w) ->
  effective_design_name arg (self s) = Some name ->
  project_get_design ansys p name w = (Raise e, w') ->
  connect_design ansys arg s
  = (Raise (Exception DesignHint e),
     mkState (set_design_name (Some name) (self s)) w'
       (trace s ++ [Call (Project_get_designs p); Call (Project_get_design p name);
                    LogError (OriginalError e)])).
Proof.
  intros Hp E Hn Eg. rewrite (connect_design_start ansys s arg p (x :: ds) w Hp E).
  rewrite Hn. run. erewrite run_try_raise.
  2:{ repeat (run; rewrite ?Hp).
      erewrite run_bind_raise by (by apply run_call_ok). reflexivity. }
  run. reflexivity.
Qed.

Lemma connect_design_failed_lookup_keeps_handle_witness :
  exists s',
    connect_design (Fake.tool Fake.no_such_design) (Some "Design7")
      (mkState Fake.connected tt [])
    = (Raise (Exception DesignHint (ToolError "no such design")), s') /\
    design (self s') = Some 4.
Proof.
  eexists. split.
  - apply (connect_design_failed_lookup_keeps_handle (Fake.tool Fake.no_such_design)
             (mkState Fake.connected tt []) (Some "Design7") 1 "HFSSDesign1" [] tt
             "Design7" (ToolError "no such design") tt); reflexivity.
  - reflexivity.
Defined.


(** ** More on [get_setup] and [connect_setup] *)

Section SetupRuns.
Context {W : Type} (ansys : Ansys W).

(** Every way a [get_setup] with a name can go. *)
Lemma get_setup_run (s : State W) name :
  get_setup ansys (Some name) s
  = match design (self s) with
    | None => (Raise (AttributeError "NoneType" "get_setup"), s)
    | Some d =>
        let t := (trace s ++ [Call (Design_get_setup d name)])%list in
        match design_get_setup ansys d name (world s) with
        | (Raise e, w) => (Raise e, mkState (self s) w t)
        | (Ok None, w) =>
            (Raise (AttributeError "NoneType" "name"),
             mkState (set_setup None (self s)) w
               (t ++ [LogError (CouldNotRetrieveSetup name)]))
        | (Ok (Some st), w) =>
            match setup_get_name ansys st w with
            | (Raise e, w') =>
                (Raise e,
                 mkState (set_setup (Some st) (self s)) w' (t ++ [Call (Setup_name st)]))
            | (Ok n, w') =>
                (Ok (Some st),
                 mkState (set_setup_name (Some n) (set_setup (Some st) (self s))) w'
                   (t ++ [Call (Setup_name st); LogInfo (OpenedSetup (Some n))]))
            end
        end
    end.
Proof.
  unfold get_setup. destruct (design (self s)) as [d|] eqn:Hd.
  2:{ repeat (run; rewrite ?Hd). by destruct s. }
  repeat (run; rewrite ?Hd).
  destruct (design_get_setup ansys d name (world s)) as [[[st|]|e] w] eqn:E.
  - erewrite run_bind_ok by (by apply run_call_ok). run.
    destruct (setup_get_name ansys st w) as [[n|e] w'] eqn:En.
    + erewrite run_bind_ok by (by apply run_call_ok). run. reflexivity.
    + erewrite run_bind_raise by (by apply run_call_ok). run. reflexivity.
  - erewrite run_bind_ok by (by apply run_call_ok). run. reflexivity.
  - erewrite run_bind_raise by (by apply run_call_ok). reflexivity.
Qed.
End SetupRuns.

(** X6.  [get_setup] with a name never returns [None]: when it returns,
    the design has resolved the name to a handle, that handle is stored
    and returned, the name the handle reports is stored as the setup
    name, and no other attribute has changed. *)
Theorem get_setup_returns_handle {W} (ansys : Ansys W) (s s' : State W) name r :
  get_setup ansys (Some name) s = (Ok r, s') ->
  exists d st n w,
    design (self s) = Some d /\
    design_get_setup ansys d name (world s) = (Ok (Some st), w) /\
    setup_get_name ansys st w = (Ok n, world s') /\
    r = Some st /\
    self s' = set_setup_name (Some n) (set_setup (Some st) (self s)).
Proof.
  rewrite get_setup_run. destruct (design (self s)) as [d|]; [|discriminate].
  cbn zeta.
  destruct (design_get_setup ansys d name (world s)) as [[[st|]|e] w] eqn:E;
    [|discriminate..].
  destruct (setup_get_name ansys st w) as [[n|e] w'] eqn:En; [|discriminate].
  intros [= <- <-]. by exists d, st, n, w.
Qed.

Lemma get_setup_returns_handle_witness :
  exists st s',
    get_setup (Fake.tool Fake.good) (Some "Setup1")
      (mkState (set_setup None Fake.connected) tt []) = (Ok (Some st), s') /\
    setup (self s') = Some st.
Proof.
  destruct (get_setup_returns_handle (Fake.tool Fake.good)
              (mkState (set_setup None Fake.connected) tt [])
              (mkState Fake.connected tt
                 [Call (Design_get_setup 4 "Setup1"); Call (Setup_name 5);
                  LogInfo (OpenedSetup (Some "Setup1"))])
              "Setup1" (Some 5))
    as (d & st & n & w & _ & _ & _ & [= <-] & Hs).
  - vm_compute. reflexivity.
  - exists 5. eexists. split; [vm_compute; reflexivity|reflexivity].
Defined.

(** X7.  No raw exception leaves [connect_setup]: whatever is raised
    while listing, creating or resolving a setup is logged and wrapped in
    the setup hint.  It can only happen on a session with a design
    handle; without one [connect_setup] cannot raise. *)
Theorem connect_setup_raises_wrapped {W} (ansys : Ansys W) (s s' : State W) e :
  connect_setup ansys s = (Raise e, s') ->
  exists d e0,
    design (self s) = Some d /\
    e = Exception SetupHint e0 /\
    last (trace s') = Some (LogError (OriginalError e0)).
Proof.
  unfold connect_setup. run. destruct (design (self s)) as [d|]; cbn iota.
  - unfold try_except.
    match goal with |- context [match ?m s with _ => _ end] =>
      destruct (m s) as [[[]|e0] s1]
    end; [discriminate|].
    run. intros [= <- <-]. exists d, e0.
    repeat apply conj; [reflexivity..|]. cbn [trace]. apply last_snoc.
  - run. discriminate.
Qed.

Lemma connect_setup_raises_wrapped_witness :
  exists s' e0,
    connect_setup (Fake.tool Fake.no_such_setup) (mkState Fake.connected tt [])
    = (Raise (Exception SetupHint e0), s') /\
    last (trace s') = Some (LogError (OriginalError e0)).
Proof.
  eexists _, _. split; [vm_compute; reflexivity|].
  destruct (connect_setup_raises_wrapped (Fake.tool Fake.no_such_setup)
              (mkState Fake.connected tt [])
              (mkState (set_setup None Fake.connected) tt
                 [Call (Design_get_setup_names 4); Call (Design_get_setup 4 "Setup1");
                  LogError (CouldNotRetrieveSetup "Setup1");
                  LogError (OriginalError (AttributeError "NoneType" "name"))])
              (Exception SetupHint (AttributeError "NoneType" "name")))
    as (d & e0 & _ & [= <-] & Hl); [vm_compute; reflexivity|exact Hl].
Defined.

(** A [connect_setup] that returns on a session with a design handle. *)
Lemma connect_setup_ok_inv {W} (ansys : Ansys W) (s s' : State W) d :
  design (self s) = Some d ->
  connect_setup ansys s = (Ok tt, s') ->
  exists st n,
    setup (self s') = Some st /\ setup_name (self s') = Some n /\
    design (self s') = Some d.
Proof.
  intros Hd. unfold connect_setup. run. rewrite Hd. cbn iota. intros E.
  apply try_ok_inv in E.
  2:{ intros e t. eexists _, _. run. reflexivity. }
  apply bind_ok_inv in E as (d' & s1 & [_ ->]%handle_inv & E).
  apply bind_ok_inv in E as (names & s1 & (w1 & _ & ->)%call_inv & E).
  apply bind_ok_inv in E as ([] & s2 & Em & E).
  apply bind_ok_inv in E as (sn & s3 & [-> ->]%get_inv & E).
  apply bind_ok_inv in E as (r & s3 & Eg & [_ ->]%ret_inv).
  assert (design (self s2) = Some d /\ exists x, setup_name (self s2) = Some x)
    as (Hd2 & x & Hx).
  { destruct names as [|first rest].
    - apply bind_ok_inv in Em as ([] & t1 & ->%emit_inv & Em).
      apply bind_ok_inv in Em as (r0 & t2 & Ed & Em).
      apply bind_ok_inv in Em as (st0 & t3 & Ea & Em).
      apply bind_ok_inv in Em as (n0 & t4 & (w4 & _ & ->)%call_inv & ->%modify_inv).
      assert (design (self t3) = Some d) as Hd3.
      { destruct r0; [apply ret_inv in Ea as [_ ->]|discriminate].
        eapply (preserves_run (fun o => design o = Some d)); [|exact Ed|exact Hd].
        apply default_setup_preserves. }
      split; [exact Hd3|]. by eexists.
    - apply bind_ok_inv in Em as (sn0 & t1 & [-> ->]%get_inv & Em).
      cbn [self] in Em. destruct (setup_name (self s)) as [x|] eqn:Hs.
      + apply ret_inv in Em as [_ ->]. split; [exact Hd|]. by exists x.
      + apply bind_ok_inv in Em as ([] & t1 & ->%modify_inv & Em).
        apply bind_ok_inv in Em as (sn1 & t2 & [-> ->]%get_inv & ->%emit_inv).
        split; [exact Hd|]. by eexists. }
  rewrite Hx, get_setup_run, Hd2 in Eg. cbn zeta in Eg.
  destruct (design_get_setup ansys d x (world s2)) as [[[st|]|e] w]; [|discriminate..].
  destruct (setup_get_name ansys st w) as [[n|e] w']; [|discriminate].
  injection Eg as <- <-. exists st, n. repeat apply conj; [reflexivity..|exact Hd2].
Qed.

(** X8.  When [connect_setup] returns on a session with a design
    handle, the session has a setup handle and a setup name: a design
    without a usable setup makes it raise instead. *)
Theorem connect_setup_returns_with_setup {W} (ansys : Ansys W) (s s' : State W) d :
  design (self s) = Some d ->
  connect_setup ansys s = (Ok tt, s') ->
  exists st n,
    setup (self s') = Some st /\
    setup_name (self s') = Some n /\
    design (self s') = Some d.
Proof. apply connect_setup_ok_inv. Qed.

Lemma connect_setup_returns_with_setup_witness :
  exists s' st n,
    connect_setup (Fake.tool Scenario.two_setups)
      (mkState (set_design (Some 4) Scenario.project_only) tt []) = (Ok tt, s') /\
    setup (self s') = Some st /\ setup_name (self s') = Some n.
Proof.
  exists (connect_setup (Fake.tool Scenario.two_setups)
            (mkState (set_design (Some 4) Scenario.project_only) tt [])).2.
  destruct (connect_setup_returns_with_setup (Fake.tool Scenario.two_setups)
              (mkState (set_design (Some 4) Scenario.project_only) tt [])
              (connect_setup (Fake.tool Scenario.two_setups)
                 (mkState (set_design (Some 4) Scenario.project_only) tt [])).2
              4 eq_refl)
    as (st & n & Hs & Hn & _); [vm_compute; reflexivity|].
  exists st, n. split; [vm_compute; reflexivity|]. split; [exact Hs|exact Hn].
Defined.

(** X9.  When the design lists setups, [connect_setup] resolves the
    stored setup name as it is (whether or not it is among the listed
    names) and, when none is stored, the first listed name, with a
    warning; what it stores is the handle the design resolves and the
    name that handle reports. *)
Theorem connect_setup_existing_setups {W} (ansys : Ansys W) (s : State W)
    d first rest w st w1 n w2 :
  design (self s) = Some d ->
  design_get_setup_names ansys d (world s) = (Ok (first :: rest), w) ->
  let chosen := chosen_setup_name first (self s) in
  design_get_setup ansys d chosen w = (Ok (Some st), w1) ->
  setup_get_name ansys st w1 = (Ok n, w2) ->
  connect_setup ansys s
  = (Ok tt,
     mkState (set_setup_name (Some n) (set_setup (Some st) (self s))) w2
       (trace s ++ Call (Design_get_setup_names d)
          :: match setup_name (self s) with
             | None => [LogWarning (WillUseFirstSetup (Some first))]
             | Some _ => []
             end
          ++ [Call (Design_get_setup d chosen); Call (Setup_name st);
              LogInfo (OpenedSetup (Some n))])).
Proof.
  intros Hd En chosen Eg Es. unfold connect_setup. run. rewrite Hd. cbn iota.
  erewrite run_try_ok; [reflexivity|].
  repeat (run; rewrite ?Hd).
  erewrite run_bind_ok by (by apply run_call_ok).
  unfold chosen, chosen_setup_name in *.
  destruct (setup_name (self s)) as [x|] eqn:Hs.
  - repeat (run; rewrite ?Hs).
    rewrite run_bind, get_setup_run. cbn [self world trace]. rewrite Hd. cbn zeta.
    cbn [world]. rewrite Eg, Es. run. reflexivity.
  - repeat (run; rewrite ?Hs).
    rewrite run_bind, get_setup_run. cbn [self world trace design set_setup_name].
    rewrite Hd. cbn zeta. cbn [world]. rewrite Eg, Es. run. reflexivity.
Qed.

Lemma connect_setup_existing_setups_witness :
  exists s',
    connect_setup (Fake.tool Scenario.two_setups)
      (mkState (set_design (Some 4) Scenario.project_only) tt []) = (Ok tt, s') /\
    trace s' = [Call (Design_get_setup_names 4);
                LogWarning (WillUseFirstSetup (Some "SetupA"));
                Call (Design_get_setup 4 "SetupA"); Call (Setup_name 5);
                LogInfo (OpenedSetup (Some "Setup1"))].
Proof.
  eexists. split.
  - apply (connect_setup_existing_setups (Fake.tool Scenario.two_setups)
             (mkState (set_design (Some 4) Scenario.project_only) tt [])
             4 "SetupA" ["SetupB"] tt 5 tt "Setup1" tt); reflexivity.
  - reflexivity.
Defined.

(** The chain of comparisons, by the table [default_creation]. *)
Lemma default_setup_by_table {W} (ansys : Ansys W) (s : State W) d st k kind c f :
  design (self s) = Some d ->
  (forall w, design_get_solution_type ansys d w = (Ok st, w)) ->
  default_creation ansys st = Some (k, kind, c, f) ->
  default_setup ansys s
  = call (c d) (f d)
      (mkState (self s) (world s)
         (trace s ++ replicate k (Call (Design_solution_type d))
            ++ [LogWarning (CreatingDefaultSetup kind)])).
Proof.
  intros Hd Hst. unfold default_creation.
  repeat case_bool_decide; intros [= <- <- <- <-]; subst st.
  - by apply default_setup_eigenmode.
  - by apply default_setup_driven_modal.
  - by apply default_setup_driven_terminal.
  - by apply default_setup_q3d.
Qed.

(** X10.  On a design without setups whose solution type is one of the
    four, [connect_setup] makes exactly one creation call, the one of
    that solution type, reads the name of what was created and resolves
    that name through the design: the handle it stores is the resolved
    one, and the stored name is the name that handle reports. *)
Theorem connect_setup_creates_default {W} (ansys : Ansys W) (s : State W)
    d st k kind c f w st0 w1 n0 w2 st1 w3 n1 w4 :
  design (self s) = Some d ->
  design_get_setup_names ansys d (world s) = (Ok [], w) ->
  (forall w', design_get_solution_type ansys d w' = (Ok st, w')) ->
  default_creation ansys st = Some (k, kind, c, f) ->
  f d w = (Ok (Some st0), w1) ->
  setup_get_name ansys st0 w1 = (Ok n0, w2) ->
  design_get_setup ansys d n0 w2 = (Ok (Some st1), w3) ->
  setup_get_name ansys st1 w3 = (Ok n1, w4) ->
  connect_setup ansys s
  = (Ok tt,
     mkState (set_setup_name (Some n1) (set_setup (Some st1) (self s))) w4
       (trace s ++ [Call (Design_get_setup_names d); LogWarning NoDesignSetupDetected]
          ++ replicate k (Call (Design_solution_type d))
          ++ [LogWarning (CreatingDefaultSetup kind); Call (c d); Call (Setup_name st0);
              Call (Design_get_setup d n0); Call (Setup_name st1);
              LogInfo (OpenedSetup (Some n1))])).
Proof.
  intros Hd En Hst Ht Ec E0 Eg E1. unfold connect_setup. run. rewrite Hd. cbn iota.
  erewrite run_try_ok; [reflexivity|].
  repeat (run; rewrite ?Hd).
  erewrite run_bind_ok by (by apply run_call_ok).
  run. rewrite run_bind.
  erewrite default_setup_by_table by first [exact Hd | exact Hst | exact Ht].
  erewrite run_call_ok by exact Ec. run.
  erewrite run_bind_ok by (by apply run_call_ok). run.
  rewrite run_bind, get_setup_run. cbn [self world trace design set_setup_name].
  rewrite Hd. cbn zeta. cbn [world]. rewrite Eg, E1. run. reflexivity.
Qed.

Lemma connect_setup_creates_default_witness :
  exists s',
    connect_setup (Fake.tool Scenario.no_setups)
      (mkState (set_design (Some 4) Scenario.project_only) tt []) = (Ok tt, s') /\
    setup (self s') = Some 5 /\
    trace s' = [Call (Design_get_setup_names 4); LogWarning NoDesignSetupDetected;
                Call (Design_solution_type 4);
                LogWarning (CreatingDefaultSetup "eigenmode");
                Call (Design_create_em_setup 4); Call (Setup_name 5);
                Call (Design_get_setup 4 "Setup1"); Call (Setup_name 5);
                LogInfo (OpenedSetup (Some "Setup1"))].
Proof.
  eexists. split.
  - apply (connect_setup_creates_default (Fake.tool Scenario.no_setups)
             (mkState (set_design (Some 4) Scenario.project_only) tt [])
             4 "Eigenmode" 1 "eigenmode" Design_create_em_setup
             (fun _ w => (Ok (Some 5), w)) tt 5 tt "Setup1" tt 5 tt "Setup1" tt);
      reflexivity.
  - split; reflexivity.
Defined.

(** ** More on [connect] and [disconnect] *)

(** X11.  [connect()] never touches the metadata: the junction table, the
    port table and the dissipative configuration are the same after it,
    whether it returns or raises. *)
Theorem connect_keeps_metadata {W} (ansys : Ansys W) (s : State W) :
  junctions (self (connect ansys s).2) = junctions (self s) /\
  ports (self (connect ansys s).2) = ports (self s) /\
  dissipative (self (connect ansys s).2) = dissipative (self s).
Proof.
  apply (connect_preserves ansys
           (fun o => junctions o = junctions (self s) /\ ports o = ports (self s) /\
                     dissipative o = dissipative (self s))).
  - unfold session_stable, stable.
    repeat apply conj; intros v o (H1 & H2 & H3); repeat apply conj; assumption.
  - repeat apply conj; reflexivity.
Qed.



(** X13.  After a [connect()] that returns, a session with a design has
    a setup: [check_connected()] is true exactly when the design, the
    project, the desktop and the app handles are there. *)
Theorem connect_returns_connected_iff {W} (ansys : Ansys W) (s s' : State W) :
  connect ansys s = (Ok tt, s') ->
  (check_connected (self s') = true <->
   design (self s') <> None /\ project (self s') <> None /\
   desktop (self s') <> None /\ app (self s') <> None).
Proof.
  unfold connect. intros E.
  apply bind_ok_inv in E as ([] & s1 & _ & E).
  apply bind_ok_inv in E as (p1 & s1' & [_ ->]%get_inv & E).
  apply bind_ok_inv in E as ([] & s1' & _ & E).
  apply bind_ok_inv in E as (p2 & s1'' & [_ ->]%get_inv & E).
  apply bind_ok_inv in E as ([] & s2 & _ & E).
  apply bind_ok_inv in E as ([] & s3 & Es & Ef).
  assert (design (self s') = design (self s3) /\ setup (self s') = setup (self s3))
    as (Hd & Hs).
  { eapply (preserves_run
              (fun o => design o = design (self s3) /\ setup o = setup (self s3)));
      [|exact Ef|by split].
    apply connect_finalize_preserves; intros v o H; exact H. }
  rewrite check_connected_true. split.
  - intros (st & d & p & dk & a & _ & H1 & H2 & H3 & H4).
    rewrite H1, H2, H3, H4. by repeat split.
  - intros (Hd' & Hp' & Hk' & Ha').
    destruct (design (self s')) as [d|] eqn:Ed; [|done].
    destruct (project (self s')) as [p|]; [|done].
    destruct (desktop (self s')) as [dk|]; [|done].
    destruct (app (self s')) as [a|]; [|done].
    assert (design (self s2) = Some d) as Hd2.
    { assert (design (self s3) = design (self s2)) as F.
      { eapply (preserves_run (fun o => design o = design (self s2)));
          [|exact Es|reflexivity].
        apply connect_setup_preserves; intros v o H; exact H. }
      by rewrite <- F, <- Hd. }
    destruct (connect_setup_ok_inv ansys s2 s3 d Hd2 Es) as (st & n & Hst & _ & _).
    exists st, d, p, dk, a. rewrite Hs, Hst. by repeat split.
Qed.

Lemma connect_returns_connected_iff_witness :
  exists s',
    connect (Fake.tool Fake.good) (fresh tt) = (Ok tt, s') /\
    check_connected (self s') = true.
Proof.
  exists (connect (Fake.tool Fake.good) (fresh tt)).2.
  split; [vm_compute; reflexivity|].
  apply (connect_returns_connected_iff (Fake.tool Fake.good) (fresh tt)).
  - vm_compute. reflexivity.
  - vm_compute. repeat apply conj; discriminate.
Defined.

(** X14.  [disconnect()] can be repeated: as it leaves the handles in
    place, a second call right after a successful one passes the
    precondition again and releases the same handles a second time: the
    tool's four release functions are applied once more, in the same
    order, starting from the tool state the first round left. *)
Theorem disconnect_twice {W} (ansys : Ansys W) (s : State W) :
  releases_return ansys ->
  check_connected (self s) = true ->
  exists p d a w1 w2,
    project (self s) = Some p /\ desktop (self s) = Some d /\ app (self s) = Some a /\
    attempt (releases ansys p d a) (world s) = (Ok tt, w1, 4) /\
    attempt (releases ansys p d a) w1 = (Ok tt, w2, 4) /\
    let s1 := mkState (self s) w1 (trace s ++ release_order p d a) in
    disconnect ansys s = (Ok tt, s1) /\
    disconnect ansys s1
    = (Ok tt,
       mkState (self s) w2 (trace s ++ release_order p d a ++ release_order p d a)).
Proof.
  intros R H.
  destruct (disconnect_run ansys s H) as (p & d & a & Hp & Hd & Ha & F).
  destruct (attempt (releases ansys p d a) (world s)) as [[r1 w1] k1] eqn:A1.
  destruct (attempt_releases_count ansys p d a (world s) r1 w1 k1 A1)
    as (_ & _ & H4 & Hr).
  specialize (Hr R). subst r1. rewrite (H4 eq_refl) in *.
  destruct (attempt (releases ansys p d a) w1) as [[r2 w2] k2] eqn:A2.
  destruct (attempt_releases_count ansys p d a w1 r2 w2 k2 A2) as (_ & _ & H4' & Hr').
  specialize (Hr' R). subst r2. rewrite (H4' eq_refl) in *.
  exists p, d, a, w1, w2. repeat (split; [done|]).
  cbn zeta. split; [exact (F _ _ _ eq_refl)|].
  destruct (disconnect_run ansys
              (mkState (self s) w1 (trace s ++ release_order p d a)) H)
    as (p' & d' & a' & Hp' & Hd' & Ha' & F').
  cbn [self world trace] in *.
  assert (p' = p) as -> by congruence.
  assert (d' = d) as -> by congruence.
  assert (a' = a) as -> by congruence.
  rewrite (F' _ _ _ A2). cbn [take release_order]. by rewrite <- app_assoc.
Qed.

Lemma disconnect_twice_witness :
  let ansys := Scenario.recording (Fake.tool Fake.good) in
  let once := [Project_release 1; Desktop_release 2; App_release 3; Ansys_release] in
  exists s1,
    disconnect ansys (mkState Fake.connected [] []) = (Ok tt, s1) /\
    world s1 = once /\
    disconnect ansys s1
    = (Ok tt,
       mkState Fake.connected (once ++ once)
         (release_order 1 2 3 ++ release_order 1 2 3))%list.
Proof.
  intros ansys once.
  destruct (disconnect_twice ansys (mkState Fake.connected [] []))
    as (p & d & a & w1 & w2 & [= <-] & [= <-] & [= <-] & A1 & A2 & E1 & E2).
  - repeat split; intros; reflexivity.
  - reflexivity.
  - vm_compute in A1. injection A1 as <-.
    vm_compute in A2. injection A2 as <-.
    eexists. split; [exact E1|]. split; [reflexivity|]. exact E2.
Defined.

(** X15.  The successful connection.  On a session without design and
    setup name, when the tool opens a project, has an active design and
    lists a setup, [connect()] returns with all five handles stored and
    [check_connected()] true; the names it leaves are the ones the
    handles report: project and design names as re-read at the end, the
    path as resolved by [connect_project], the setup name as reported by
    the handle resolved for the first listed setup. *)
Theorem connect_success {W} (ansys : Ansys W) (s0 : State W)
    a dk p w1 pn w2 pp w3 x ds w4 d w5 dn w6 sty w7 first rest w8 st w9 sn w10
    pn' w11 dn' w12 :
  design_name (self s0) = None ->
  setup_name (self s0) = None ->
  load_ansys_project ansys (project_name (self s0)) (project_path (self s0)) (world s0)
  = (Ok (Some a, Some dk, Some p), w1) ->
  project_get_name ansys p w1 = (Ok pn, w2) ->
  project_get_path ansys p w2 = (Ok pp, w3) ->
  project_get_designs ansys p w3 = (Ok (x :: ds), w4) ->
  project_get_active_design ansys p w4 = (Ok (Some d), w5) ->
  design_get_name ansys d w5 = (Ok dn, w6) ->
  design_get_solution_type ansys d w6 = (Ok sty, w7) ->
  design_get_setup_names ansys d w7 = (Ok (first :: rest), w8) ->
  design_get_setup ansys d first w8 = (Ok (Some st), w9) ->
  setup_get_name ansys st w9 = (Ok sn, w10) ->
  project_get_name ansys p w10 = (Ok pn', w11) ->
  design_get_name ansys d w11 = (Ok dn', w12) ->
  exists s',
    connect ansys s0 = (Ok tt, s') /\
    check_connected (self s') = true /\
    app (self s') = Some a /\ desktop (self s') = Some dk /\
    project (self s') = Some p /\ design (self s') = Some d /\
    setup (self s') = Some st /\
    project_name (self s') = Some pn' /\ project_path (self s') = Some pp /\
    design_name (self s') = Some dn' /\ setup_name (self s') = Some sn /\
    world s' = w12 /\
    last (trace s') = Some (LogInfo (ConnectedTo (Some pn') (Some dn'))).
Proof.
  intros Hdn Hsn E1 E2 E3 E4 E5 E6 E7 E8 E9 E10 E11 E12.
  eexists. split.
  - unfold connect, connect_project. run.
    erewrite run_bind_ok by (by apply run_call_ok). run.
    erewrite run_bind_ok by (by apply run_call_ok). run.
    erewrite run_bind_ok by (by apply run_call_ok). run.
    rewrite run_bind. erewrite run_try_ok.
    2:{ unfold connect_design. run.
        erewrite run_bind_ok by (by apply run_call_ok). run.
        rewrite Hdn. cbn iota. erewrite run_try_ok; [reflexivity|].
        run. erewrite run_bind_ok by (by apply run_call_ok). run.
        erewrite run_bind_ok by (by apply run_call_ok). run.
        erewrite run_bind_ok by (by apply run_call_ok). run. reflexivity. }
    rewrite run_bind. unfold connect_setup. run.
    erewrite run_try_ok.
    2:{ run. erewrite run_bind_ok by (by apply run_call_ok). run.
        rewrite Hsn. run.
        rewrite run_bind, get_setup_run. fields.
        rewrite E9, E10. run. reflexivity. }
    unfold connect_finalize. run.
    erewrite run_bind_ok by (by apply run_call_ok). run.
    erewrite run_bind_ok by (by apply run_call_ok). run.
    reflexivity.
  - cbn [self world trace]. repeat apply conj; try reflexivity.
    rewrite !app_assoc. apply last_snoc.
Qed.

Lemma connect_success_witness :
  exists s',
    connect (Fake.tool Scenario.two_setups) (fresh tt) = (Ok tt, s') /\
    check_connected (self s') = true /\
    setup_name (self s') = Some "Setup1" /\
    design_name (self s') = Some "HFSSDesign1".
Proof.
  destruct (connect_success (Fake.tool Scenario.two_setups) (fresh tt)
              3 2 1 tt "Project1" tt "C:\sim" tt "HFSSDesign1" [] tt 4 tt
              "HFSSDesign1" tt "DrivenModal" tt "SetupA" ["SetupB"] tt 5 tt "Setup1" tt
              "Project1" tt "HFSSDesign1" tt)
    as (s' & E & Hc & _ & _ & _ & _ & _ & _ & _ & Hd & Hs & _); try reflexivity.
  exists s'. repeat split; assumption.
Defined.

(** X16.  The teardown in [connect()] is not protected: when releasing
    the project raises, that exception (not the design error, which was
    only printed) leaves [connect()]; the desktop, the app and the
    binding are not released and [connect_setup()] is not attempted. *)
Theorem connect_teardown_failure_escapes {W} (ansys : Ansys W)
    (s0 s1 s2 : State W) e p e' w3 :
  connect_project ansys s0 = (Ok tt, s1) ->
  project (self s1) = Some p ->
  connect_design ansys None s1 = (Raise e, s2) ->
  project_release ansys p (world s2) = (Raise e', w3) ->
  connect ansys s0
  = (Raise e', mkState (self s2) w3 (trace s2 ++ [Printed e; Call (Project_release p)])).
Proof.
  intros E Hp Ed R1.
  assert (project (self s2) = Some p) as Hp2.
  { eapply (preserves_run (fun o => project o = Some p)); [|exact Ed|exact Hp].
    apply connect_design_preserves; intros v o H; exact H. }
  unfold connect.
  erewrite run_bind_ok by exact E.
  repeat (run; rewrite ?Hp).
  rewrite run_bind. erewrite run_try_raise by exact Ed.
  repeat (run; rewrite ?Hp2).
  erewrite run_bind_raise by (by apply run_call_ok).
  fields. rewrite <- ?app_assoc. reflexivity.
Qed.

Lemma connect_teardown_failure_escapes_witness :
  exists s',
    connect Scenario.stuck_project
      (mkState (set_design_name (Some "Design7") blank) tt [])
    = (Raise (ToolError "release failed"), s') /\
    last (trace s') = Some (Call (Project_release 1)).
Proof.
  eexists. split.
  - eapply (connect_teardown_failure_escapes Scenario.stuck_project
              (mkState (set_design_name (Some "Design7") blank) tt [])).
    + vm_compute. reflexivity.
    + reflexivity.
    + vm_compute. reflexivity.
    + reflexivity.
  - reflexivity.
Defined.

(** ** The queries on the live model *)

Section Queries.
Context {W : Type} (ansys : Ansys W).

Lemma objects_in_groups_steady (s : State W) d m objs groups acc :
  design (self s) = Some d ->
  steady_model ansys d m objs ->
  objects_in_groups ansys groups acc s
  = (Ok (acc ++ (groups ≫= objs))%list,
     mkState (self s) (world s) (trace s ++ (groups ≫= group_query d m))).
Proof.
  intros Hd [Hm Ho]. revert acc s Hd.
  induction groups as [|g groups IH]; intros acc s Hd; cbn [objects_in_groups].
  - cbn. rewrite !app_nil_r. by destruct s.
  - repeat (run; rewrite ?Hd).
    erewrite run_bind_ok by (apply run_call_ok, Hm).
    erewrite run_bind_ok by (apply run_call_ok, Ho).
    rewrite IH by exact Hd. cbn [self world trace].
    cbn [mbind list_bind group_query]. rewrite <- !app_assoc. reflexivity.
Qed.

Lemma get_all_object_names_steady (s : State W) d m objs :
  design (self s) = Some d ->
  steady_model ansys d m objs ->
  get_all_object_names ansys s
  = (Ok (object_groups ≫= objs),
     mkState (self s) (world s) (trace s ++ (object_groups ≫= group_query d m))).
Proof. intros Hd Hm. apply (objects_in_groups_steady s d m objs _ [] Hd Hm). Qed.
End Queries.

(** X17.  [get_all_object_names] asks the modeler for the five groups
    Non Model, Solids, Unclassified, Sheets, Lines, in that order,
    reading the modeler from the design before each one, and returns the
    five answers concatenated in that order; it writes no attribute. *)
Theorem get_all_object_names_groups {W} (ansys : Ansys W) (s : State W) d m objs :
  design (self s) = Some d ->
  steady_model ansys d m objs ->
  get_all_object_names ansys s
  = (Ok (objs "Non Model" ++ objs "Solids" ++ objs "Unclassified"
         ++ objs "Sheets" ++ objs "Lines")%list,
     mkState (self s) (world s)
       (trace s ++ group_query d m "Non Model" ++ group_query d m "Solids"
          ++ group_query d m "Unclassified" ++ group_query d m "Sheets"
          ++ group_query d m "Lines")).
Proof.
  intros Hd Hm. rewrite (get_all_object_names_steady ansys s d m objs Hd Hm).
  cbn [object_groups mbind list_bind]. rewrite !app_nil_r. reflexivity.
Qed.

Lemma get_all_object_names_groups_witness :
  exists s',
    get_all_object_names (Fake.tool Scenario.two_setups) (mkState Fake.connected tt [])
    = (Ok ["substrate"; "jj_rect_1"; "jj_line_1"], s').
Proof.
  eexists.
  refine (eq_trans
    (get_all_object_names_groups (Fake.tool Scenario.two_setups)
       (mkState Fake.connected tt []) 4 9 (Fake.objects Scenario.two_setups) eq_refl _) _).
  - split; intros; [|destruct w]; reflexivity.
  - reflexivity.
Defined.

(** [validate_junction_info] needs a connected session whatever
    the junction table holds: without project handle it raises
    [AttributeError] before any call; with a project but no design it
    raises [AttributeError] after having asked the project for its
    variable names.  No junction is looked at in either case. *)
Lemma validate_junction_info_unconnected {W} (ansys : Ansys W) (s : State W) :
  (project (self s) = None ->
   validate_junction_info ansys s
   = (Raise (AttributeError "NoneType" "get_variable_names"), s)) /\
  (forall p pv w,
     project (self s) = Some p ->
     project_get_variable_names ansys p (world s) = (Ok pv, w) ->
     design (self s) = None ->
     validate_junction_info ansys s
     = (Raise (AttributeError "NoneType" "get_variable_names"),
        mkState (self s) w (trace s ++ [Call (Project_get_variable_names p)]))).
Proof.
  split.
  - intros Hp. rewrite validate_run. unfold get_all_variables_names.
    repeat (run; rewrite ?Hp). by destruct s.
  - intros p pv w Hp E Hd. rewrite validate_run. unfold get_all_variables_names.
    repeat (run; rewrite ?Hp).
    erewrite run_bind_ok by (by apply run_call_ok).
    repeat (run; rewrite ?Hd). reflexivity.
Qed.

Lemma validate_junction_info_unconnected_witness :
  validate_junction_info (Fake.tool Fake.good)
    (mkState (set_junctions [("j1", Fake.junction "Lj_1" "r" "l")] blank) tt [])
  = (Raise (AttributeError "NoneType" "get_variable_names"),
     mkState (set_junctions [("j1", Fake.junction "Lj_1" "r" "l")] blank) tt []).
Proof.
  apply (validate_junction_info_unconnected (Fake.tool Fake.good)
           (mkState (set_junctions [("j1", Fake.junction "Lj_1" "r" "l")] blank) tt [])).
  reflexivity.
Defined.

(** [get_dm] returns the design handle together with the modeler
    the design gives, after that one call and without writing any
    attribute; on a session without design it raises [AttributeError]
    and calls nothing. *)
Lemma get_dm_outcome {W} (ansys : Ansys W) (s : State W) :
  (design (self s) = None ->
   get_dm ansys s = (Raise (AttributeError "NoneType" "modeler"), s)) /\
  (forall d m w,
     design (self s) = Some d ->
     design_get_modeler ansys d (world s) = (Ok m, w) ->
     get_dm ansys s
     = (Ok (Some d, m), mkState (self s) w (trace s ++ [Call (Design_modeler d)]))).
Proof.
  split.
  - intros Hd. unfold get_dm. repeat (run; rewrite ?Hd). by destruct s.
  - intros d m w Hd E. unfold get_dm. repeat (run; rewrite ?Hd).
    erewrite run_bind_ok by (by apply run_call_ok). run. reflexivity.
Qed.

Lemma get_dm_outcome_witness :
  get_dm (Fake.tool Fake.good) (fresh tt)
  = (Raise (AttributeError "NoneType" "modeler"), fresh tt) /\
  get_dm (Fake.tool Fake.good) (mkState Fake.connected tt [])
  = (Ok (Some 4, 9), mkState Fake.connected tt [Call (Design_modeler 4)]).
Proof.
  split.
  - apply (get_dm_outcome (Fake.tool Fake.good) (fresh tt)). reflexivity.
  - apply (get_dm_outcome (Fake.tool Fake.good) (mkState Fake.connected tt []));
      reflexivity.
Defined.

(** ** More on the dissipative configuration *)

(** Evaluate the comparisons of literal strings in the goal. *)
Ltac literal_decide :=
  repeat match goal with
  | |- context [bool_decide (@eq string ?a ?b)] =>
      let r := eval vm_compute in (bool_decide (a = b)) in
      change (bool_decide (a = b)) with r
  end.

Section DissipativeMore.
Context {W : Type} (ansys : Ansys W).

(** A write that returns: the key was a known one and the only change is
    the entry written. *)
Lemma setitem_ok_inv (s s' : State W) key value :
  __setitem__ ansys key value s = (Ok tt, s') ->
  (key ∈ diss_opt \/ key = "pinfo") /\
  (key ≠ "pinfo" -> slot_value_ok value = true) /\
  self s' = set_dissipative (<[key := value]> (dissipative (self s))) (self s).
Proof.
  unfold __setitem__.
  destruct (bool_decide (key ∈ diss_opt)) eqn:Hk;
    destruct (bool_decide (key = "pinfo")) eqn:Hp; cbn [orb negb andb];
    try discriminate.
  - (* both cannot hold, but the code does not care *)
    apply bool_decide_eq_true in Hk. apply bool_decide_eq_true in Hp.
    by destruct (diss_opt_not_pinfo key Hk).
  - apply bool_decide_eq_true in Hk. apply bool_decide_eq_false in Hp.
    rewrite (bool_decide_eq_true_2 _ Hp). cbn [andb].
    destruct ((negb (is_list_or_dict value) || negb (all_str value))
              && bool_decide (value ≠ VNone)) eqn:Hv; [discriminate|].
    intros E. apply bind_ok_inv in E as ([] & s1 & E1 & E).
    apply bind_ok_inv in E as (dd & s2 & [-> ->]%get_inv & ->%modify_inv).
    assert (self s1 = self s) as Hs.
    { eapply (preserves_run (fun o => o = self s)); [|exact E1|reflexivity].
      pose proof (getitem_preserves (W:=W) (fun o => o = self s)).
      pose proof (get_all_object_names_preserves ansys (fun o => o = self s)).
      unfold iter. frame. }
    split; [by left|]. split; [|cbn; by rewrite Hs].
    intros _. unfold slot_value_ok.
    destruct (decide (value = VNone)) as [->|Hn]; [reflexivity|].
    rewrite (bool_decide_eq_true_2 _ Hn), andb_true_r in Hv.
    rewrite (bool_decide_eq_false_2 _ Hn). cbn [orb].
    by destruct (is_list_or_dict value), (all_str value).
  - apply bool_decide_eq_true in Hp. subst key.
    rewrite (bool_decide_eq_false_2 ("pinfo" ≠ "pinfo")) by (intros H; by apply H).
    cbn [andb]. intros E.
    apply bind_ok_inv in E as ([] & s1 & [_ ->]%ret_inv & E).
    apply bind_ok_inv in E as (dd & s2 & [-> ->]%get_inv & ->%modify_inv).
    split; [by right|]. split; [done|reflexivity].
Qed.

(** Item access on an entry that is there. *)
Lemma getitem_present (s : State W) key v :
  key ∈ diss_opt \/ key = "pinfo" ->
  dissipative (self s) !! key = Some v ->
  (__getitem__ key : M W pyval) s = (Ok v, s).
Proof.
  intros Hk Hv. unfold __getitem__.
  assert (bool_decide (key ∈ diss_opt) || bool_decide (key = "pinfo") = true) as ->.
  { destruct Hk as [Hk|Hk]; rewrite (bool_decide_eq_true_2 _ Hk);
      [reflexivity|apply orb_true_r]. }
  cbn [negb]. run. rewrite Hv. reflexivity.
Qed.

(** The loop over names that all exist, on a model that does not change:
    one full query of the model per name. *)
Lemma names_loop_steady (s : State W) d m objs names :
  dissipative (self s) !! "pinfo" = Some VPinfo ->
  design (self s) = Some d ->
  steady_model ansys d m objs ->
  (forall x, x ∈ names -> x ∈ object_groups ≫= objs) ->
  for_ (AStr <$> names) (fun x =>
    p ← __getitem__ "pinfo";
    names ← match p with
            | VPinfo => get_all_object_names ansys
            | _ => raise (AttributeError "object" "get_all_object_names")
            end;
    if negb (atom_in x names) then raise (ValueError (NotAnObject x)) else mret tt) s
  = (Ok tt,
     mkState (self s) (world s)
       (trace s ++ (names ≫= fun _ => object_groups ≫= group_query d m))).
Proof.
  intros Hp Hd Hm. revert s Hp Hd.
  induction names as [|x names IH]; intros s Hp Hd Hin.
  - cbn. rewrite app_nil_r. by destruct s.
  - cbn [fmap list_fmap for_]. rewrite !run_assoc.
    erewrite run_bind_ok by (by apply getitem_pinfo).
    rewrite !run_assoc.
    erewrite run_bind_ok by (by apply get_all_object_names_steady).
    cbn [atom_in]. rewrite bool_decide_eq_true_2 by (apply Hin; by left).
    cbn [negb]. rewrite run_ret.
    rewrite IH; [| exact Hp | exact Hd | intros y Hy; apply Hin; by right].
    cbn [self world trace mbind list_bind]. by rewrite <- app_assoc.
Qed.
End DissipativeMore.

(** X18.  Item assignment and item access round trip: after a write that
    returns, reading the same key gives the value written, every other
    entry of the configuration is as before, and no other attribute of
    the session has changed. *)
Theorem setitem_then_getitem {W} (ansys : Ansys W) (s s' : State W) key value :
  __setitem__ ansys key value s = (Ok tt, s') ->
  (__getitem__ key : M W pyval) s' = (Ok value, s') /\
  (forall k, k ≠ key -> dissipative (self s') !! k = dissipative (self s) !! k) /\
  self s' = set_dissipative (dissipative (self s')) (self s).
Proof.
  intros E. destruct (setitem_ok_inv ansys s s' key value E) as (Hk & _ & Hs).
  split; [|split].
  - apply getitem_present; [exact Hk|]. rewrite Hs. cbn. apply lookup_insert_eq.
  - intros k Hne. rewrite Hs. cbn. by apply lookup_insert_ne.
  - rewrite Hs. reflexivity.
Qed.

Lemma setitem_then_getitem_witness :
  exists s',
    __setitem__ (Fake.tool Fake.good) "seams" (VList [AStr "jj_rect_1"])
      (mkState Fake.connected tt []) = (Ok tt, s') /\
    (__getitem__ "seams" : M unit pyval) s' = (Ok (VList [AStr "jj_rect_1"]), s').
Proof.
  exists (__setitem__ (Fake.tool Fake.good) "seams" (VList [AStr "jj_rect_1"])
            (mkState Fake.connected tt [])).2.
  split; [vm_compute; reflexivity|].
  apply (setitem_then_getitem (Fake.tool Fake.good) (mkState Fake.connected tt [])).
  vm_compute. reflexivity.
Defined.

(** X19.  An empty list or dictionary is always accepted for a slot, and
    without any query of the model: with or without an attached session,
    with or without a design. *)
Theorem setitem_empty_collection {W} (ansys : Ansys W) (s : State W) key value p :
  key ∈ diss_opt ->
  dissipative (self s) !! "pinfo" = Some p ->
  value = VList [] \/ value = VDict [] ->
  __setitem__ ansys key value s
  = (Ok tt,
     mkState (set_dissipative (<[key := value]> (dissipative (self s))) (self s))
       (world s) (trace s)).
Proof.
  intros Hk Hp Hv. unfold __setitem__.
  rewrite (bool_decide_eq_true_2 _ Hk), (bool_decide_eq_true_2 _ (diss_opt_not_pinfo key Hk)).
  cbn [orb negb andb].
  assert ((negb (is_list_or_dict value) || negb (all_str value)) = false) as ->
    by (by destruct Hv as [-> | ->]).
  cbn [andb]. rewrite run_assoc. erewrite run_bind_ok by (by apply getitem_pinfo).
  destruct (hasattr_design p); [|run; reflexivity].
  assert (iter value = (mret [] : M W (list atom))) as ->
    by (by destruct Hv as [-> | ->]).
  run. cbn [for_]. run. reflexivity.
Qed.

Lemma setitem_empty_collection_witness :
  __setitem__ (Fake.tool Fake.good) "seams" (VList [])
    (mkState (set_design None Fake.connected) tt [])
  = (Ok tt,
     mkState (set_dissipative (<["seams" := VList []]> (dissipative Fake.connected))
                (set_design None Fake.connected)) tt []).
Proof.
  apply (setitem_empty_collection (Fake.tool Fake.good)
           (mkState (set_design None Fake.connected) tt []) "seams" (VList []) VPinfo).
  - apply (bool_decide_unpack _). vm_compute. exact I.
  - vm_compute. reflexivity.
  - by left.
Defined.

(** X20.  With the session attached and a model that does not change, a
    list of names that all exist is accepted and stored; the model is
    queried anew for every name of the list (five groups each time),
    nothing is cached. *)
Theorem setitem_attached_known_names {W} (ansys : Ansys W) (s : State W)
    key d m objs names :
  key ∈ diss_opt ->
  dissipative (self s) !! "pinfo" = Some VPinfo ->
  design (self s) = Some d ->
  steady_model ansys d m objs ->
  (forall x, x ∈ names -> x ∈ object_groups ≫= objs) ->
  __setitem__ ansys key (VList (AStr <$> names)) s
  = (Ok tt,
     mkState (set_dissipative (<[key := VList (AStr <$> names)]> (dissipative (self s)))
                (self s))
       (world s)
       (trace s ++ (names ≫= fun _ => object_groups ≫= group_query d m))).
Proof.
  intros Hk Hp Hd Hm Hin. unfold __setitem__.
  rewrite (bool_decide_eq_true_2 _ Hk), (bool_decide_eq_true_2 _ (diss_opt_not_pinfo key Hk)).
  cbn [orb negb andb is_list_or_dict all_str elements_of].
  assert (forallb is_str (AStr <$> names) = true) as ->.
  { clear. induction names; [reflexivity|assumption]. }
  cbn [negb andb]. rewrite run_assoc.
  erewrite run_bind_ok by (by apply getitem_pinfo).
  cbn [hasattr_design iter elements_of]. rewrite run_assoc, run_ret, run_bind.
  rewrite (names_loop_steady ansys s d m objs names Hp Hd Hm Hin).
  run. reflexivity.
Qed.

Lemma setitem_attached_known_names_witness :
  exists s',
    __setitem__ (Fake.tool Fake.good) "seams" (VList [AStr "jj_rect_1"; AStr "jj_line_1"])
      (mkState Fake.connected tt []) = (Ok tt, s') /\
    length (trace s') = 20.
Proof.
  eexists. split.
  - apply (setitem_attached_known_names (Fake.tool Fake.good)
             (mkState Fake.connected tt []) "seams" 4 9 (Fake.objects Fake.good)
             ["jj_rect_1"; "jj_line_1"]).
    + apply (bool_decide_unpack _). vm_compute. exact I.
    + vm_compute. reflexivity.
    + reflexivity.
    + split; intros; [|destruct w]; reflexivity.
    + intros x Hx. apply (bool_decide_unpack _).
      apply elem_of_cons in Hx as [->|Hx]; [vm_compute; exact I|].
      apply elem_of_cons in Hx as [->|Hx]; [vm_compute; exact I|].
      by apply elem_of_nil in Hx.
  - reflexivity.
Defined.

Section NamesLoop.
Context {W : Type} (ansys : Ansys W).

(** The loop over names stops at the first one that does not exist. *)
Lemma names_loop_first_unknown (s : State W) d m objs known x rest :
  dissipative (self s) !! "pinfo" = Some VPinfo ->
  design (self s) = Some d ->
  steady_model ansys d m objs ->
  (forall y, y ∈ known -> y ∈ object_groups ≫= objs) ->
  x ∉ object_groups ≫= objs ->
  for_ (AStr <$> (known ++ x :: rest)%list) (fun x =>
    p ← __getitem__ "pinfo";
    names ← match p with
            | VPinfo => get_all_object_names ansys
            | _ => raise (AttributeError "object" "get_all_object_names")
            end;
    if negb (atom_in x names) then raise (ValueError (NotAnObject x)) else mret tt) s
  = (Raise (ValueError (NotAnObject (AStr x))),
     mkState (self s) (world s)
       (trace s ++ ((known ++ [x])%list ≫= fun _ => object_groups ≫= group_query d m))).
Proof.
  intros Hp Hd Hm. revert s Hp Hd.
  induction known as [|y known IH]; intros s Hp Hd Hin Hx.
  - rewrite !app_nil_l. cbn [fmap list_fmap for_]. rewrite !run_assoc.
    erewrite run_bind_ok by (by apply getitem_pinfo).
    rewrite !run_assoc.
    erewrite run_bind_ok by (by apply get_all_object_names_steady).
    cbn [atom_in]. rewrite (bool_decide_eq_false_2 _ Hx).
    cbn [negb]. rewrite run_raise.
    cbn [mbind list_bind]. by rewrite app_nil_r.
  - rewrite <- !app_comm_cons. cbn [fmap list_fmap for_]. rewrite !run_assoc.
    erewrite run_bind_ok by (by apply getitem_pinfo).
    rewrite !run_assoc.
    erewrite run_bind_ok by (by apply get_all_object_names_steady).
    cbn [atom_in]. rewrite bool_decide_eq_true_2 by (apply Hin; by left).
    cbn [negb]. rewrite run_ret.
    change (list_fmap string atom AStr (known ++ x :: rest)%list)
      with (AStr <$> (known ++ x :: rest)%list).
    rewrite IH; [| exact Hp | exact Hd | intros z Hz; apply Hin; by right | exact Hx].
    cbn [self world trace mbind list_bind]. by rewrite <- app_assoc.
Qed.
End NamesLoop.

(** X21.  With the session attached and a model that does not change,
    the names of a list are checked in order, each against a fresh query
    of the model, and the first one that does not exist makes the write
    raise [ValueError] naming it: the later names are not looked at and
    nothing is written. *)
Theorem setitem_attached_first_unknown_name {W} (ansys : Ansys W) (s : State W)
    key d m objs known x rest :
  key ∈ diss_opt ->
  dissipative (self s) !! "pinfo" = Some VPinfo ->
  design (self s) = Some d ->
  steady_model ansys d m objs ->
  (forall y, y ∈ known -> y ∈ object_groups ≫= objs) ->
  x ∉ object_groups ≫= objs ->
  __setitem__ ansys key (VList (AStr <$> (known ++ x :: rest)%list)) s
  = (Raise (ValueError (NotAnObject (AStr x))),
     mkState (self s) (world s)
       (trace s ++ ((known ++ [x])%list ≫= fun _ => object_groups ≫= group_query d m))).
Proof.
  intros Hk Hp Hd Hm Hin Hx. unfold __setitem__.
  rewrite (bool_decide_eq_true_2 _ Hk), (bool_decide_eq_true_2 _ (diss_opt_not_pinfo key Hk)).
  cbn [orb negb andb is_list_or_dict all_str elements_of].
  assert (forallb is_str (AStr <$> (known ++ x :: rest)%list) = true) as ->.
  { clear. induction (known ++ x :: rest)%list; [reflexivity|assumption]. }
  cbn [negb andb]. rewrite run_assoc.
  erewrite run_bind_ok by (by apply getitem_pinfo).
  cbn [hasattr_design iter elements_of]. rewrite run_assoc, run_ret, run_bind.
  rewrite (names_loop_first_unknown ansys s d m objs known x rest Hp Hd Hm Hin Hx).
  reflexivity.
Qed.

Lemma setitem_attached_first_unknown_name_witness :
  exists s',
    __setitem__ (Fake.tool Fake.good) "seams"
      (VList [AStr "jj_rect_1"; AStr "ghost"; AStr "jj_line_1"])
      (mkState Fake.connected tt [])
    = (Raise (ValueError (NotAnObject (AStr "ghost"))), s') /\
    self s' = Fake.connected /\ length (trace s') = 20.
Proof.
  eexists. split.
  - apply (setitem_attached_first_unknown_name (Fake.tool Fake.good)
             (mkState Fake.connected tt []) "seams" 4 9 (Fake.objects Fake.good)
             ["jj_rect_1"] "ghost" ["jj_line_1"]).
    + apply (bool_decide_unpack _). vm_compute. exact I.
    + vm_compute. reflexivity.
    + reflexivity.
    + split; intros; [|destruct w]; reflexivity.
    + intros y Hy. apply (bool_decide_unpack _).
      apply elem_of_cons in Hy as [->|Hy]; [vm_compute; exact I|].
      by apply elem_of_nil in Hy.
    + apply (bool_decide_unpack _). vm_compute. exact I.
  - split; reflexivity.
Defined.

(** X22.  A write that raises writes nothing: whatever the key and the
    value, the attributes of the session are the same after it; an
    unknown key is refused with [ValueError] before anything is read, so
    that not even the model is queried. *)
Theorem setitem_failure_writes_nothing {W} (ansys : Ansys W) (s s' : State W)
    key value e :
  __setitem__ ansys key value s = (Raise e, s') ->
  self s' = self s /\
  (key ∉ diss_opt -> key ≠ "pinfo" ->
   e = ValueError (NoSuchParameter key) /\ s' = s).
Proof.
  intros E. split; [by eapply setitem_raise_no_mutation|].
  intros H1 H2. rewrite (setitem_unknown_key ansys s key value H1 H2) in E.
  by injection E as <- <-.
Qed.

Lemma setitem_failure_writes_nothing_witness :
  __setitem__ (Fake.tool Fake.good) "losses" (VList [AStr "jj_rect_1"])
    (mkState Fake.connected tt [])
  = (Raise (ValueError (NoSuchParameter "losses")), mkState Fake.connected tt []).
Proof.
  destruct (setitem_failure_writes_nothing (Fake.tool Fake.good)
              (mkState Fake.connected tt []) (mkState Fake.connected tt [])
              "losses" (VList [AStr "jj_rect_1"])
              (ValueError (NoSuchParameter "losses"))) as (_ & H).
  - vm_compute. reflexivity.
  - vm_compute. reflexivity.
Defined.

(** ** More on the constructor and [data] *)

(** Look an entry up in a configuration built by item assignments. *)
Ltac slot_lookup :=
  cbn [self dissipative set_dissipative];
  repeat (rewrite lookup_insert_ne by discriminate);
  rewrite ?lookup_insert_eq; reflexivity.

Section InitMore.
Context {W : Type} (ansys : Ansys W).

Lemma slot_value_ok_true value :
  slot_value_ok value = true ->
  value = VNone \/ is_list_or_dict value && all_str value = true.
Proof.
  unfold slot_value_ok. intros [H|H]%orb_true_iff; [left|by right].
  by apply bool_decide_eq_true in H.
Qed.

Lemma slot_value_ok_false value :
  slot_value_ok value = false ->
  value ≠ VNone /\ is_list_or_dict value && all_str value = false.
Proof.
  unfold slot_value_ok. intros [H1 H2]%orb_false_iff. split; [|exact H2].
  by apply bool_decide_eq_false in H1.
Qed.

Lemma diss_opt_elem key :
  key = "dielectrics_bulk" \/ key = "dielectric_surfaces" \/
  key = "resistive_surfaces" \/ key = "seams" -> key ∈ diss_opt.
Proof.
  unfold diss_opt. rewrite !elem_of_cons. intros [->|[->|[->| ->]]]; auto.
Qed.

(** [_Dissipative.__init__] cannot fail on a new object: it leaves the
    back-reference and the four slots at [None]. *)
Lemma Dissipative_init_run (s : State W) :
  dissipative (self s) = ∅ ->
  Dissipative__init__ ansys s
  = (Ok tt,
     mkState
       (set_dissipative
          (<["seams" := VNone]>
             (<["resistive_surfaces" := VNone]>
                (<["dielectric_surfaces" := VNone]>
                   (<["dielectrics_bulk" := VNone]> (<["pinfo" := VNone]> ∅)))))
          (self s))
       (world s) (trace s)).
Proof.
  intros He. unfold Dissipative__init__. rewrite run_bind, setitem_pinfo.
  cbn [for_ diss_opt]. rewrite He.
  do 3 (erewrite run_bind_ok
          by (apply setitem_detached; [apply diss_opt_elem; auto 10|slot_lookup|by left])).
  rewrite run_bind.
  erewrite setitem_detached; [|apply diss_opt_elem; auto 10|slot_lookup|by left].
  run. reflexivity.
Qed.

(** [data] on a configuration whose four slots are set. *)
Lemma data_slots (s : State W) a b c d :
  dissipative (self s) !! "dielectrics_bulk" = Some a ->
  dissipative (self s) !! "dielectric_surfaces" = Some b ->
  dissipative (self s) !! "resistive_surfaces" = Some c ->
  dissipative (self s) !! "seams" = Some d ->
  data s
  = (Ok [("dielectrics_bulk", a); ("dielectric_surfaces", b);
         ("resistive_surfaces", c); ("seams", d)], s).
Proof.
  intros Ha Hb Hc Hd. unfold data. cbn [data_of diss_opt].
  do 4 (rewrite ?run_assoc;
        erewrite run_bind_ok
          by (apply getitem_present; [left; apply diss_opt_elem; auto 10|eassumption])).
  run. reflexivity.
Qed.

(** A constructor that returns has stored its four slot arguments. *)
Lemma init_slots (str_Path : string -> string)
    project_path_arg project_name_arg design_name_arg setup_name_arg
    dielectrics_bulk dielectric_surfaces resistive_surfaces seams
    (do_connect : bool) (s s' : State W) :
  __init__ ansys str_Path project_path_arg project_name_arg design_name_arg
    setup_name_arg dielectrics_bulk dielectric_surfaces resistive_surfaces seams
    do_connect s = (Ok tt, s') ->
  dissipative (self s') !! "dielectrics_bulk" = Some dielectrics_bulk /\
  dissipative (self s') !! "dielectric_surfaces" = Some dielectric_surfaces /\
  dissipative (self s') !! "resistive_surfaces" = Some resistive_surfaces /\
  dissipative (self s') !! "seams" = Some seams.
Proof.
  unfold __init__. cbn zeta. intros H.
  do 7 (apply bind_ok_inv in H as (? & ? & ->%modify_inv & H)).
  apply bind_ok_inv in H as (? & s1 & _ & H).
  apply bind_ok_inv in H as (? & s2 & E2 & H).
  cbn [for_ diss_opt] in E2.
  apply bind_ok_inv in E2 as ([] & t1 & (_ & _ & H1)%setitem_ok_inv & E2).
  apply bind_ok_inv in E2 as ([] & t2 & (_ & _ & H2)%setitem_ok_inv & E2).
  apply bind_ok_inv in E2 as ([] & t3 & (_ & _ & H3)%setitem_ok_inv & E2).
  apply bind_ok_inv in E2 as ([] & t4 & (_ & _ & H4)%setitem_ok_inv & [_ ->]%ret_inv).
  revert H1 H2 H3 H4. literal_decide. cbn iota. intros H1 H2 H3 H4.
  assert (dissipative (self t4) !! "dielectrics_bulk" = Some dielectrics_bulk /\
          dissipative (self t4) !! "dielectric_surfaces" = Some dielectric_surfaces /\
          dissipative (self t4) !! "resistive_surfaces" = Some resistive_surfaces /\
          dissipative (self t4) !! "seams" = Some seams) as D4.
  { rewrite H4, H3, H2, H1. repeat apply conj; slot_lookup. }
  do 5 (apply bind_ok_inv in H as (? & ? & ->%modify_inv & H)).
  destruct do_connect.
  - apply bind_ok_inv in H as (? & s3 & E3 & H).
    assert (dissipative (self s3) = dissipative (self t4)) as D3.
    { eapply (preserves_run (fun o => dissipative o = dissipative (self t4)));
        [|exact E3|reflexivity].
      apply connect_preserves. unfold session_stable, stable.
      repeat apply conj; intros v o Ho; exact Ho. }
    rewrite setitem_pinfo in H. injection H as <-.
    cbn [self dissipative set_dissipative]. rewrite D3.
    repeat (rewrite lookup_insert_ne by discriminate). exact D4.
  - injection H as <-. exact D4.
Qed.
End InitMore.

(** X23.  The constructor and [data()] round trip: after a construction
    that returns (connecting or not), [data()] is the dictionary of the
    four slots, in the order of [diss_opt], holding exactly the four
    arguments the constructor was given; reading it changes nothing. *)
Theorem init_then_data {W} (ansys : Ansys W) (str_Path : string -> string)
    project_path_arg project_name_arg design_name_arg setup_name_arg
    dielectrics_bulk dielectric_surfaces resistive_surfaces seams
    (do_connect : bool) (s s' : State W) :
  __init__ ansys str_Path project_path_arg project_name_arg design_name_arg
    setup_name_arg dielectrics_bulk dielectric_surfaces resistive_surfaces seams
    do_connect s = (Ok tt, s') ->
  data s'
  = (Ok [("dielectrics_bulk", dielectrics_bulk);
         ("dielectric_surfaces", dielectric_surfaces);
         ("resistive_surfaces", resistive_surfaces); ("seams", seams)], s').
Proof.
  intros H.
  destruct (init_slots ansys _ _ _ _ _ _ _ _ _ _ _ _ H) as (Ha & Hb & Hc & Hd).
  by apply data_slots.
Qed.

Lemma init_then_data_witness :
  exists s',
    __init__ (Fake.tool Fake.good) id None None None None
      (VList [AStr "substrate"]) VNone VNone (VDict [(AStr "seam1", AInt 3)]) false
      (fresh tt) = (Ok tt, s') /\
    data s'
    = (Ok [("dielectrics_bulk", VList [AStr "substrate"]);
           ("dielectric_surfaces", VNone); ("resistive_surfaces", VNone);
           ("seams", VDict [(AStr "seam1", AInt 3)])], s').
Proof.
  exists (__init__ (Fake.tool Fake.good) id None None None None
            (VList [AStr "substrate"]) VNone VNone (VDict [(AStr "seam1", AInt 3)]) false
            (fresh tt)).2.
  split; [vm_compute; reflexivity|].
  apply (init_then_data (Fake.tool Fake.good) id None None None None
           (VList [AStr "substrate"]) VNone VNone (VDict [(AStr "seam1", AInt 3)])
           false (fresh tt)).
  vm_compute. reflexivity.
Defined.

(** X24.  The constructor checks its four slot arguments, in the order of
    [diss_opt], before it connects: when one of them is neither [None]
    nor a list or dictionary of strings, it raises [ValueError] for the
    first such argument, and the tool has not been called (also with
    [do_connect] true). *)
Theorem init_rejects_invalid_slot {W} (ansys : Ansys W) (str_Path : string -> string)
    project_path_arg project_name_arg design_name_arg setup_name_arg
    dielectrics_bulk dielectric_surfaces resistive_surfaces seams
    (do_connect : bool) (s : State W) key :
  first_invalid_slot dielectrics_bulk dielectric_surfaces resistive_surfaces seams
  = Some key ->
  exists o,
    __init__ ansys str_Path project_path_arg project_name_arg design_name_arg
      setup_name_arg dielectrics_bulk dielectric_surfaces resistive_surfaces seams
      do_connect s
    = (Raise (ValueError (MustBeListOfStrings key)), mkState o (world s) (trace s)).
Proof.
  unfold first_invalid_slot, __init__. cbn zeta. intros Hk.
  run. erewrite run_bind_ok by (by apply Dissipative_init_run).
  cbn [for_ diss_opt]. literal_decide. cbn iota. rewrite !run_assoc.
  destruct (slot_value_ok dielectrics_bulk) eqn:V1; cbn [negb] in Hk.
  2:{ injection Hk as <-. apply slot_value_ok_false in V1 as [? ?].
      erewrite run_bind_raise
        by (apply setitem_bad_value; [apply diss_opt_elem; auto 10|done..]).
      by eexists. }
  erewrite run_bind_ok
    by (apply setitem_detached;
        [apply diss_opt_elem; auto 10|slot_lookup|by apply slot_value_ok_true]).
  rewrite !run_assoc.
  destruct (slot_value_ok dielectric_surfaces) eqn:V2; cbn [negb] in Hk.
  2:{ injection Hk as <-. apply slot_value_ok_false in V2 as [? ?].
      erewrite run_bind_raise
        by (apply setitem_bad_value; [apply diss_opt_elem; auto 10|done..]).
      by eexists. }
  erewrite run_bind_ok
    by (apply setitem_detached;
        [apply diss_opt_elem; auto 10|slot_lookup|by apply slot_value_ok_true]).
  rewrite !run_assoc.
  destruct (slot_value_ok resistive_surfaces) eqn:V3; cbn [negb] in Hk.
  2:{ injection Hk as <-. apply slot_value_ok_false in V3 as [? ?].
      erewrite run_bind_raise
        by (apply setitem_bad_value; [apply diss_opt_elem; auto 10|done..]).
      by eexists. }
  erewrite run_bind_ok
    by (apply setitem_detached;
        [apply diss_opt_elem; auto 10|slot_lookup|by apply slot_value_ok_true]).
  rewrite !run_assoc.
  destruct (slot_value_ok seams) eqn:V4; cbn [negb] in Hk; [discriminate|].
  injection Hk as <-. apply slot_value_ok_false in V4 as [? ?].
  erewrite run_bind_raise
    by (apply setitem_bad_value; [apply diss_opt_elem; auto 10|done..]).
  by eexists.
Qed.

Lemma init_rejects_invalid_slot_witness :
  exists o,
    __init__ (Fake.tool Fake.good) id None None None None
      VNone (VStr "substrate") VNone (VList [AInt 1]) true (fresh tt)
    = (Raise (ValueError (MustBeListOfStrings "dielectric_surfaces")), mkState o tt []).
Proof.
  apply (init_rejects_invalid_slot (Fake.tool Fake.good) id None None None None
           VNone (VStr "substrate") VNone (VList [AInt 1]) true (fresh tt)).
  reflexivity.
Defined.

(** ** A session that was never connected *)

(** X25.  On a session with neither project nor design handle, no method
    reaches the tool: [connect_design], [get_setup] with a name, the
    three queries, [validate_junction_info] and [get_dm] raise
    [AttributeError], [disconnect] raises its assertion, and
    [connect_setup] returns having reset the setup; in every case no
    call is made and nothing is logged. *)
Theorem unconnected_session_reaches_no_tool {W} (ansys : Ansys W) (s : State W)
    arg name :
  project (self s) = None ->
  design (self s) = None ->
  (exists o,
     connect_design ansys arg s
     = (Raise (AttributeError "NoneType" "get_designs"), mkState o (world s) (trace s))) /\
  get_setup ansys (Some name) s = (Raise (AttributeError "NoneType" "get_setup"), s) /\
  get_all_variables_names ansys s
  = (Raise (AttributeError "NoneType" "get_variable_names"), s) /\
  get_all_object_names ansys s = (Raise (AttributeError "NoneType" "modeler"), s) /\
  validate_junction_info ansys s
  = (Raise (AttributeError "NoneType" "get_variable_names"), s) /\
  get_dm ansys s = (Raise (AttributeError "NoneType" "modeler"), s) /\
  disconnect ansys s = (Raise (AssertionError NotConnectedYet), s) /\
  connect_setup ansys s
  = (Ok tt, mkState (set_setup_name None (set_setup None (self s))) (world s) (trace s)).
Proof.
  intros Hp Hd.
  assert (get_all_variables_names ansys s
          = (Raise (AttributeError "NoneType" "get_variable_names"), s)) as Ev.
  { unfold get_all_variables_names. repeat (run; rewrite ?Hp). by destruct s. }
  repeat apply conj.
  - unfold connect_design.
    destruct arg; eexists; repeat (run; rewrite ?Hp); [reflexivity|].
    rewrite <- (state_eta s) at 1. reflexivity.
  - rewrite get_setup_run, Hd. reflexivity.
  - exact Ev.
  - unfold get_all_object_names. cbn [objects_in_groups].
    repeat (run; rewrite ?Hd). by destruct s.
  - rewrite validate_run, Ev. reflexivity.
  - unfold get_dm. repeat (run; rewrite ?Hd). by destruct s.
  - apply disconnect_not_connected. apply check_connected_false. auto.
  - by apply connect_setup_no_design.
Qed.

Lemma unconnected_session_reaches_no_tool_witness :
  validate_junction_info (Fake.tool Fake.good) (fresh tt)
  = (Raise (AttributeError "NoneType" "get_variable_names"), fresh tt) /\
  get_dm (Fake.tool Fake.good) (fresh tt)
  = (Raise (AttributeError "NoneType" "modeler"), fresh tt).
Proof.
  destruct (unconnected_session_reaches_no_tool (Fake.tool Fake.good) (fresh tt)
              None "Setup1" eq_refl eq_refl)
    as (_ & _ & _ & _ & Hv & Hg & _).
  split; assumption.
Defined.

